(** * Transaction anomaly detection engine (anomaly_router.py)

    A shallow embedding of the detection engine: the hour extraction
    [_parse_iso_hour], the PII masker [mask_personal_data], the rule-based
    detector [rule_based_check] with its endpoint [detect_rule], and the
    statistical detector [ml_detector] with its lazily loaded model handle
    ([load_ml_model], [detect_ml]).

    Python [float] is IEEE binary64, embedded as Rocq's primitive [float];
    Python [int] is [Z]; a [str] is the [string] of its UTF-8 bytes where
    it is only stored, compared or passed on, and the list of its code
    points where its characters are looked at; the open-ended [meta]
    dictionary is a [gmap string PyVal]. Library calls whose code is not
    part of the repository (the clock, [datetime.fromisoformat],
    [os.path.exists], [joblib.load], [hash], [numpy.exp]) are fields of a
    [World] record.

    Functions run in a small state-and-exception monad that also records
    the calls made to the outside. The objects a function holds references
    to (the request object, the history dictionary, the module global
    [_ml_model]) are its state, so that what a call writes, and what it
    leaves alone, shows in the state it returns. *)

From Stdlib Require Import ZArith NArith Floats String Ascii List Bool Lia.
From stdpp Require Import base option list gmap strings.
From Equations Require Import Equations.
Import ListNotations.

Set Warnings "-inexact-float,-register-all".
Open Scope string_scope.
Open Scope list_scope.
Open Scope Z_scope.

(** ** Python floats *)

Module PyFloat.

(** [a > b] on floats: false as soon as one side is NaN. *)
Definition gt (a b : float) : bool := PrimFloat.ltb b a.

(** [a <= b] on floats. *)
Definition le (a b : float) : bool := PrimFloat.leb a b.

(** [max(a, b)]: the first argument wins unless the second is greater. *)
Definition py_max (a b : float) : float := if gt b a then b else a.

(** [min(a, b)]: the first argument wins unless the second is smaller. *)
Definition py_min (a b : float) : float := if PrimFloat.ltb b a then b else a.

(** [float(n)] for a list length [n]. *)
Definition of_nat (n : nat) : float :=
  PrimFloat.of_uint63 (Uint63.of_Z (Z.of_nat n)).

(** [int(f)]: truncation toward zero of a finite float. *)
Definition trunc (f : float) : option Z :=
  match Prim2SF f with
  | S754_zero _ => Some 0
  | S754_finite s m e =>
      let mag := if (0 <=? e) then Z.pos m * 2 ^ e
                 else Z.pos m / 2 ^ (- e) in
      Some (if s then - mag else mag)
  | S754_infinity _ | S754_nan => None
  end.

Definition is_nan (f : float) : bool :=
  match Prim2SF f with S754_nan => true | _ => false end.

(** [float(z)] for an integer: the nearest binary64 value, or nothing
    when it is out of range (OverflowError). *)
Definition of_Z (z : Z) : option float :=
  let f := SF2Prim (binary_normalize prec emax z 0 false) in
  if PrimFloat.is_infinity f then None else Some f.

End PyFloat.

(** ** Python values and exceptions *)

(** The values a JSON-decoded [Dict[str, Any]] can hold. *)
Inductive PyVal : Type :=
| VNone
| VBool (b : bool)
| VInt (z : Z)
| VFloat (f : float)
| VStr (s : string)
| VList (l : list PyVal)
| VDict (d : list (string * PyVal)).

Inductive PyExc : Type :=
| ValueError
| TypeError
| OverflowError
| RuntimeError (msg : string)
| OSError
| HTTPException (status_code : Z) (detail : string).

Inductive Res (A : Type) : Type :=
| Ok (a : A)
| Raise (e : PyExc).
Arguments Ok {A} a.
Arguments Raise {A} e.

(** ** Python text

    A Python [str] is a sequence of Unicode code points. Where the program
    only stores a text, compares it or passes it on (user ids, merchants,
    timestamps, dictionary keys, messages of exceptions), the text is kept
    as the [string] of its UTF-8 bytes, which determines it. Where the
    program looks at the characters ([int], [re.sub], [strip], [split],
    [lower], [upper], [in]), the text is the list of its code points,
    [chars s] for a text stored as bytes. *)

Definition str : Type := list N.

(** The character database of the interpreter: Unicode 14.0, as in
    CPython 3.11. *)
Module Unicode.

Definition within (c : N) (r : N * N) : bool := ((r.1 <=? c) && (c <=? r.2))%N.

Definition in_ranges (table : list (N * N)) (c : N) : bool :=
  existsb (within c) table.

(** The characters [str.isspace] holds of: what [str.strip] and
    [str.split] take for blanks. *)
Definition White_Space : list (N * N) :=
  [
    (0x9, 0xd); (0x1c, 0x20); (0x85, 0x85); (0xa0, 0xa0); (0x1680, 0x1680);
    (0x2000, 0x200a); (0x2028, 0x2029); (0x202f, 0x202f); (0x205f, 0x205f); (0x3000, 0x3000) ]%N.

(** The decimal digits (category Nd), in blocks of ten that run from
    the digit 0 to the digit 9: what [\d] matches and [int] reads. *)
Definition Decimal_Number : list (N * N) :=
  [
    (0x30, 0x39); (0x660, 0x669); (0x6f0, 0x6f9); (0x7c0, 0x7c9); (0x966, 0x96f);
    (0x9e6, 0x9ef); (0xa66, 0xa6f); (0xae6, 0xaef); (0xb66, 0xb6f); (0xbe6, 0xbef);
    (0xc66, 0xc6f); (0xce6, 0xcef); (0xd66, 0xd6f); (0xde6, 0xdef); (0xe50, 0xe59);
    (0xed0, 0xed9); (0xf20, 0xf29); (0x1040, 0x1049); (0x1090, 0x1099); (0x17e0, 0x17e9);
    (0x1810, 0x1819); (0x1946, 0x194f); (0x19d0, 0x19d9); (0x1a80, 0x1a89); (0x1a90, 0x1a99);
    (0x1b50, 0x1b59); (0x1bb0, 0x1bb9); (0x1c40, 0x1c49); (0x1c50, 0x1c59); (0xa620, 0xa629);
    (0xa8d0, 0xa8d9); (0xa900, 0xa909); (0xa9d0, 0xa9d9); (0xa9f0, 0xa9f9); (0xaa50, 0xaa59);
    (0xabf0, 0xabf9); (0xff10, 0xff19); (0x104a0, 0x104a9); (0x10d30, 0x10d39); (0x11066, 0x1106f);
    (0x110f0, 0x110f9); (0x11136, 0x1113f); (0x111d0, 0x111d9); (0x112f0, 0x112f9); (0x11450, 0x11459);
    (0x114d0, 0x114d9); (0x11650, 0x11659); (0x116c0, 0x116c9); (0x11730, 0x11739); (0x118e0, 0x118e9);
    (0x11950, 0x11959); (0x11c50, 0x11c59); (0x11d50, 0x11d59); (0x11da0, 0x11da9); (0x16a60, 0x16a69);
    (0x16ac0, 0x16ac9); (0x16b50, 0x16b59); (0x1d7ce, 0x1d7ff); (0x1e140, 0x1e149); (0x1e2f0, 0x1e2f9);
    (0x1e950, 0x1e959); (0x1fbf0, 0x1fbf9) ]%N.

(** The characters with the property Cased. *)
Definition Cased : list (N * N) :=
  [
    (0x41, 0x5a); (0x61, 0x7a); (0xaa, 0xaa); (0xb5, 0xb5); (0xba, 0xba);
    (0xc0, 0xd6); (0xd8, 0xf6); (0xf8, 0x1ba); (0x1bc, 0x1bf); (0x1c4, 0x293);
    (0x295, 0x2b8); (0x2c0, 0x2c1); (0x2e0, 0x2e4); (0x345, 0x345); (0x370, 0x373);
    (0x376, 0x377); (0x37a, 0x37d); (0x37f, 0x37f); (0x386, 0x386); (0x388, 0x38a);
    (0x38c, 0x38c); (0x38e, 0x3a1); (0x3a3, 0x3f5); (0x3f7, 0x481); (0x48a, 0x52f);
    (0x531, 0x556); (0x560, 0x588); (0x10a0, 0x10c5); (0x10c7, 0x10c7); (0x10cd, 0x10cd);
    (0x10d0, 0x10fa); (0x10fd, 0x10ff); (0x13a0, 0x13f5); (0x13f8, 0x13fd); (0x1c80, 0x1c88);
    (0x1c90, 0x1cba); (0x1cbd, 0x1cbf); (0x1d00, 0x1dbf); (0x1e00, 0x1f15); (0x1f18, 0x1f1d);
    (0x1f20, 0x1f45); (0x1f48, 0x1f4d); (0x1f50, 0x1f57); (0x1f59, 0x1f59); (0x1f5b, 0x1f5b);
    (0x1f5d, 0x1f5d); (0x1f5f, 0x1f7d); (0x1f80, 0x1fb4); (0x1fb6, 0x1fbc); (0x1fbe, 0x1fbe);
    (0x1fc2, 0x1fc4); (0x1fc6, 0x1fcc); (0x1fd0, 0x1fd3); (0x1fd6, 0x1fdb); (0x1fe0, 0x1fec);
    (0x1ff2, 0x1ff4); (0x1ff6, 0x1ffc); (0x2071, 0x2071); (0x207f, 0x207f); (0x2090, 0x209c);
    (0x2102, 0x2102); (0x2107, 0x2107); (0x210a, 0x2113); (0x2115, 0x2115); (0x2119, 0x211d);
    (0x2124, 0x2124); (0x2126, 0x2126); (0x2128, 0x2128); (0x212a, 0x212d); (0x212f, 0x2134);
    (0x2139, 0x2139); (0x213c, 0x213f); (0x2145, 0x2149); (0x214e, 0x214e); (0x2160, 0x217f);
    (0x2183, 0x2184); (0x24b6, 0x24e9); (0x2c00, 0x2ce4); (0x2ceb, 0x2cee); (0x2cf2, 0x2cf3);
    (0x2d00, 0x2d25); (0x2d27, 0x2d27); (0x2d2d, 0x2d2d); (0xa640, 0xa66d); (0xa680, 0xa69d);
    (0xa722, 0xa787); (0xa78b, 0xa78e); (0xa790, 0xa7ca); (0xa7d0, 0xa7d1); (0xa7d3, 0xa7d3);
    (0xa7d5, 0xa7d9); (0xa7f5, 0xa7f6); (0xa7f8, 0xa7fa); (0xab30, 0xab5a); (0xab5c, 0xab68);
    (0xab70, 0xabbf); (0xfb00, 0xfb06); (0xfb13, 0xfb17); (0xff21, 0xff3a); (0xff41, 0xff5a);
    (0x10400, 0x1044f); (0x104b0, 0x104d3); (0x104d8, 0x104fb); (0x10570, 0x1057a); (0x1057c, 0x1058a);
    (0x1058c, 0x10592); (0x10594, 0x10595); (0x10597, 0x105a1); (0x105a3, 0x105b1); (0x105b3, 0x105b9);
    (0x105bb, 0x105bc); (0x10780, 0x10780); (0x10783, 0x10785); (0x10787, 0x107b0); (0x107b2, 0x107ba);
    (0x10c80, 0x10cb2); (0x10cc0, 0x10cf2); (0x118a0, 0x118df); (0x16e40, 0x16e7f); (0x1d400, 0x1d454);
    (0x1d456, 0x1d49c); (0x1d49e, 0x1d49f); (0x1d4a2, 0x1d4a2); (0x1d4a5, 0x1d4a6); (0x1d4a9, 0x1d4ac);
    (0x1d4ae, 0x1d4b9); (0x1d4bb, 0x1d4bb); (0x1d4bd, 0x1d4c3); (0x1d4c5, 0x1d505); (0x1d507, 0x1d50a);
    (0x1d50d, 0x1d514); (0x1d516, 0x1d51c); (0x1d51e, 0x1d539); (0x1d53b, 0x1d53e); (0x1d540, 0x1d544);
    (0x1d546, 0x1d546); (0x1d54a, 0x1d550); (0x1d552, 0x1d6a5); (0x1d6a8, 0x1d6c0); (0x1d6c2, 0x1d6da);
    (0x1d6dc, 0x1d6fa); (0x1d6fc, 0x1d714); (0x1d716, 0x1d734); (0x1d736, 0x1d74e); (0x1d750, 0x1d76e);
    (0x1d770, 0x1d788); (0x1d78a, 0x1d7a8); (0x1d7aa, 0x1d7c2); (0x1d7c4, 0x1d7cb); (0x1df00, 0x1df09);
    (0x1df0b, 0x1df1e); (0x1e900, 0x1e943); (0x1f130, 0x1f149); (0x1f150, 0x1f169); (0x1f170, 0x1f189) ]%N.

(** The characters with the property Case_Ignorable. *)
Definition Case_Ignorable : list (N * N) :=
  [
    (0x27, 0x27); (0x2e, 0x2e); (0x3a, 0x3a); (0x5e, 0x5e); (0x60, 0x60);
    (0xa8, 0xa8); (0xad, 0xad); (0xaf, 0xaf); (0xb4, 0xb4); (0xb7, 0xb8);
    (0x2b0, 0x36f); (0x374, 0x375); (0x37a, 0x37a); (0x384, 0x385); (0x387, 0x387);
    (0x483, 0x489); (0x559, 0x559); (0x55f, 0x55f); (0x591, 0x5bd); (0x5bf, 0x5bf);
    (0x5c1, 0x5c2); (0x5c4, 0x5c5); (0x5c7, 0x5c7); (0x5f4, 0x5f4); (0x600, 0x605);
    (0x610, 0x61a); (0x61c, 0x61c); (0x640, 0x640); (0x64b, 0x65f); (0x670, 0x670);
    (0x6d6, 0x6dd); (0x6df, 0x6e8); (0x6ea, 0x6ed); (0x70f, 0x70f); (0x711, 0x711);
    (0x730, 0x74a); (0x7a6, 0x7b0); (0x7eb, 0x7f5); (0x7fa, 0x7fa); (0x7fd, 0x7fd);
    (0x816, 0x82d); (0x859, 0x85b); (0x888, 0x888); (0x890, 0x891); (0x898, 0x89f);
    (0x8c9, 0x902); (0x93a, 0x93a); (0x93c, 0x93c); (0x941, 0x948); (0x94d, 0x94d);
    (0x951, 0x957); (0x962, 0x963); (0x971, 0x971); (0x981, 0x981); (0x9bc, 0x9bc);
    (0x9c1, 0x9c4); (0x9cd, 0x9cd); (0x9e2, 0x9e3); (0x9fe, 0x9fe); (0xa01, 0xa02);
    (0xa3c, 0xa3c); (0xa41, 0xa42); (0xa47, 0xa48); (0xa4b, 0xa4d); (0xa51, 0xa51);
    (0xa70, 0xa71); (0xa75, 0xa75); (0xa81, 0xa82); (0xabc, 0xabc); (0xac1, 0xac5);
    (0xac7, 0xac8); (0xacd, 0xacd); (0xae2, 0xae3); (0xafa, 0xaff); (0xb01, 0xb01);
    (0xb3c, 0xb3c); (0xb3f, 0xb3f); (0xb41, 0xb44); (0xb4d, 0xb4d); (0xb55, 0xb56);
    (0xb62, 0xb63); (0xb82, 0xb82); (0xbc0, 0xbc0); (0xbcd, 0xbcd); (0xc00, 0xc00);
    (0xc04, 0xc04); (0xc3c, 0xc3c); (0xc3e, 0xc40); (0xc46, 0xc48); (0xc4a, 0xc4d);
    (0xc55, 0xc56); (0xc62, 0xc63); (0xc81, 0xc81); (0xcbc, 0xcbc); (0xcbf, 0xcbf);
    (0xcc6, 0xcc6); (0xccc, 0xccd); (0xce2, 0xce3); (0xd00, 0xd01); (0xd3b, 0xd3c);
    (0xd41, 0xd44); (0xd4d, 0xd4d); (0xd62, 0xd63); (0xd81, 0xd81); (0xdca, 0xdca);
    (0xdd2, 0xdd4); (0xdd6, 0xdd6); (0xe31, 0xe31); (0xe34, 0xe3a); (0xe46, 0xe4e);
    (0xeb1, 0xeb1); (0xeb4, 0xebc); (0xec6, 0xec6); (0xec8, 0xecd); (0xf18, 0xf19);
    (0xf35, 0xf35); (0xf37, 0xf37); (0xf39, 0xf39); (0xf71, 0xf7e); (0xf80, 0xf84);
    (0xf86, 0xf87); (0xf8d, 0xf97); (0xf99, 0xfbc); (0xfc6, 0xfc6); (0x102d, 0x1030);
    (0x1032, 0x1037); (0x1039, 0x103a); (0x103d, 0x103e); (0x1058, 0x1059); (0x105e, 0x1060);
    (0x1071, 0x1074); (0x1082, 0x1082); (0x1085, 0x1086); (0x108d, 0x108d); (0x109d, 0x109d);
    (0x10fc, 0x10fc); (0x135d, 0x135f); (0x1712, 0x1714); (0x1732, 0x1733); (0x1752, 0x1753);
    (0x1772, 0x1773); (0x17b4, 0x17b5); (0x17b7, 0x17bd); (0x17c6, 0x17c6); (0x17c9, 0x17d3);
    (0x17d7, 0x17d7); (0x17dd, 0x17dd); (0x180b, 0x180f); (0x1843, 0x1843); (0x1885, 0x1886);
    (0x18a9, 0x18a9); (0x1920, 0x1922); (0x1927, 0x1928); (0x1932, 0x1932); (0x1939, 0x193b);
    (0x1a17, 0x1a18); (0x1a1b, 0x1a1b); (0x1a56, 0x1a56); (0x1a58, 0x1a5e); (0x1a60, 0x1a60);
    (0x1a62, 0x1a62); (0x1a65, 0x1a6c); (0x1a73, 0x1a7c); (0x1a7f, 0x1a7f); (0x1aa7, 0x1aa7);
    (0x1ab0, 0x1ace); (0x1b00, 0x1b03); (0x1b34, 0x1b34); (0x1b36, 0x1b3a); (0x1b3c, 0x1b3c);
    (0x1b42, 0x1b42); (0x1b6b, 0x1b73); (0x1b80, 0x1b81); (0x1ba2, 0x1ba5); (0x1ba8, 0x1ba9);
    (0x1bab, 0x1bad); (0x1be6, 0x1be6); (0x1be8, 0x1be9); (0x1bed, 0x1bed); (0x1bef, 0x1bf1);
    (0x1c2c, 0x1c33); (0x1c36, 0x1c37); (0x1c78, 0x1c7d); (0x1cd0, 0x1cd2); (0x1cd4, 0x1ce0);
    (0x1ce2, 0x1ce8); (0x1ced, 0x1ced); (0x1cf4, 0x1cf4); (0x1cf8, 0x1cf9); (0x1d2c, 0x1d6a);
    (0x1d78, 0x1d78); (0x1d9b, 0x1dff); (0x1fbd, 0x1fbd); (0x1fbf, 0x1fc1); (0x1fcd, 0x1fcf);
    (0x1fdd, 0x1fdf); (0x1fed, 0x1fef); (0x1ffd, 0x1ffe); (0x200b, 0x200f); (0x2018, 0x2019);
    (0x2024, 0x2024); (0x2027, 0x2027); (0x202a, 0x202e); (0x2060, 0x2064); (0x2066, 0x206f);
    (0x2071, 0x2071); (0x207f, 0x207f); (0x2090, 0x209c); (0x20d0, 0x20f0); (0x2c7c, 0x2c7d);
    (0x2cef, 0x2cf1); (0x2d6f, 0x2d6f); (0x2d7f, 0x2d7f); (0x2de0, 0x2dff); (0x2e2f, 0x2e2f);
    (0x3005, 0x3005); (0x302a, 0x302d); (0x3031, 0x3035); (0x303b, 0x303b); (0x3099, 0x309e);
    (0x30fc, 0x30fe); (0xa015, 0xa015); (0xa4f8, 0xa4fd); (0xa60c, 0xa60c); (0xa66f, 0xa672);
    (0xa674, 0xa67d); (0xa67f, 0xa67f); (0xa69c, 0xa69f); (0xa6f0, 0xa6f1); (0xa700, 0xa721);
    (0xa770, 0xa770); (0xa788, 0xa78a); (0xa7f2, 0xa7f4); (0xa7f8, 0xa7f9); (0xa802, 0xa802);
    (0xa806, 0xa806); (0xa80b, 0xa80b); (0xa825, 0xa826); (0xa82c, 0xa82c); (0xa8c4, 0xa8c5);
    (0xa8e0, 0xa8f1); (0xa8ff, 0xa8ff); (0xa926, 0xa92d); (0xa947, 0xa951); (0xa980, 0xa982);
    (0xa9b3, 0xa9b3); (0xa9b6, 0xa9b9); (0xa9bc, 0xa9bd); (0xa9cf, 0xa9cf); (0xa9e5, 0xa9e6);
    (0xaa29, 0xaa2e); (0xaa31, 0xaa32); (0xaa35, 0xaa36); (0xaa43, 0xaa43); (0xaa4c, 0xaa4c);
    (0xaa70, 0xaa70); (0xaa7c, 0xaa7c); (0xaab0, 0xaab0); (0xaab2, 0xaab4); (0xaab7, 0xaab8);
    (0xaabe, 0xaabf); (0xaac1, 0xaac1); (0xaadd, 0xaadd); (0xaaec, 0xaaed); (0xaaf3, 0xaaf4);
    (0xaaf6, 0xaaf6); (0xab5b, 0xab5f); (0xab69, 0xab6b); (0xabe5, 0xabe5); (0xabe8, 0xabe8);
    (0xabed, 0xabed); (0xfb1e, 0xfb1e); (0xfbb2, 0xfbc2); (0xfe00, 0xfe0f); (0xfe13, 0xfe13);
    (0xfe20, 0xfe2f); (0xfe52, 0xfe52); (0xfe55, 0xfe55); (0xfeff, 0xfeff); (0xff07, 0xff07);
    (0xff0e, 0xff0e); (0xff1a, 0xff1a); (0xff3e, 0xff3e); (0xff40, 0xff40); (0xff70, 0xff70);
    (0xff9e, 0xff9f); (0xffe3, 0xffe3); (0xfff9, 0xfffb); (0x101fd, 0x101fd); (0x102e0, 0x102e0);
    (0x10376, 0x1037a); (0x10780, 0x10785); (0x10787, 0x107b0); (0x107b2, 0x107ba); (0x10a01, 0x10a03);
    (0x10a05, 0x10a06); (0x10a0c, 0x10a0f); (0x10a38, 0x10a3a); (0x10a3f, 0x10a3f); (0x10ae5, 0x10ae6);
    (0x10d24, 0x10d27); (0x10eab, 0x10eac); (0x10f46, 0x10f50); (0x10f82, 0x10f85); (0x11001, 0x11001);
    (0x11038, 0x11046); (0x11070, 0x11070); (0x11073, 0x11074); (0x1107f, 0x11081); (0x110b3, 0x110b6);
    (0x110b9, 0x110ba); (0x110bd, 0x110bd); (0x110c2, 0x110c2); (0x110cd, 0x110cd); (0x11100, 0x11102);
    (0x11127, 0x1112b); (0x1112d, 0x11134); (0x11173, 0x11173); (0x11180, 0x11181); (0x111b6, 0x111be);
    (0x111c9, 0x111cc); (0x111cf, 0x111cf); (0x1122f, 0x11231); (0x11234, 0x11234); (0x11236, 0x11237);
    (0x1123e, 0x1123e); (0x112df, 0x112df); (0x112e3, 0x112ea); (0x11300, 0x11301); (0x1133b, 0x1133c);
    (0x11340, 0x11340); (0x11366, 0x1136c); (0x11370, 0x11374); (0x11438, 0x1143f); (0x11442, 0x11444);
    (0x11446, 0x11446); (0x1145e, 0x1145e); (0x114b3, 0x114b8); (0x114ba, 0x114ba); (0x114bf, 0x114c0);
    (0x114c2, 0x114c3); (0x115b2, 0x115b5); (0x115bc, 0x115bd); (0x115bf, 0x115c0); (0x115dc, 0x115dd);
    (0x11633, 0x1163a); (0x1163d, 0x1163d); (0x1163f, 0x11640); (0x116ab, 0x116ab); (0x116ad, 0x116ad);
    (0x116b0, 0x116b5); (0x116b7, 0x116b7); (0x1171d, 0x1171f); (0x11722, 0x11725); (0x11727, 0x1172b);
    (0x1182f, 0x11837); (0x11839, 0x1183a); (0x1193b, 0x1193c); (0x1193e, 0x1193e); (0x11943, 0x11943);
    (0x119d4, 0x119d7); (0x119da, 0x119db); (0x119e0, 0x119e0); (0x11a01, 0x11a0a); (0x11a33, 0x11a38);
    (0x11a3b, 0x11a3e); (0x11a47, 0x11a47); (0x11a51, 0x11a56); (0x11a59, 0x11a5b); (0x11a8a, 0x11a96);
    (0x11a98, 0x11a99); (0x11c30, 0x11c36); (0x11c38, 0x11c3d); (0x11c3f, 0x11c3f); (0x11c92, 0x11ca7);
    (0x11caa, 0x11cb0); (0x11cb2, 0x11cb3); (0x11cb5, 0x11cb6); (0x11d31, 0x11d36); (0x11d3a, 0x11d3a);
    (0x11d3c, 0x11d3d); (0x11d3f, 0x11d45); (0x11d47, 0x11d47); (0x11d90, 0x11d91); (0x11d95, 0x11d95);
    (0x11d97, 0x11d97); (0x11ef3, 0x11ef4); (0x13430, 0x13438); (0x16af0, 0x16af4); (0x16b30, 0x16b36);
    (0x16b40, 0x16b43); (0x16f4f, 0x16f4f); (0x16f8f, 0x16f9f); (0x16fe0, 0x16fe1); (0x16fe3, 0x16fe4);
    (0x1aff0, 0x1aff3); (0x1aff5, 0x1affb); (0x1affd, 0x1affe); (0x1bc9d, 0x1bc9e); (0x1bca0, 0x1bca3);
    (0x1cf00, 0x1cf2d); (0x1cf30, 0x1cf46); (0x1d167, 0x1d169); (0x1d173, 0x1d182); (0x1d185, 0x1d18b);
    (0x1d1aa, 0x1d1ad); (0x1d242, 0x1d244); (0x1da00, 0x1da36); (0x1da3b, 0x1da6c); (0x1da75, 0x1da75);
    (0x1da84, 0x1da84); (0x1da9b, 0x1da9f); (0x1daa1, 0x1daaf); (0x1e000, 0x1e006); (0x1e008, 0x1e018);
    (0x1e01b, 0x1e021); (0x1e023, 0x1e024); (0x1e026, 0x1e02a); (0x1e130, 0x1e13d); (0x1e2ae, 0x1e2ae);
    (0x1e2ec, 0x1e2ef); (0x1e8d0, 0x1e8d6); (0x1e944, 0x1e94b); (0x1f3fb, 0x1f3ff); (0xe0001, 0xe0001);
    (0xe0020, 0xe007f); (0xe0100, 0xe01ef) ]%N.

(** The characters with a one-character lower case: first and last of
    a run, the step inside the run, and the image of the first. *)
Definition Lowercase_Mapping : list (N * N * N * N) :=
  [
    (0x41, 0x5a, 1, 0x61); (0xc0, 0xd6, 1, 0xe0); (0xd8, 0xde, 1, 0xf8);
    (0x100, 0x12e, 2, 0x101); (0x132, 0x136, 2, 0x133); (0x139, 0x147, 2, 0x13a);
    (0x14a, 0x176, 2, 0x14b); (0x178, 0x178, 1, 0xff); (0x179, 0x17d, 2, 0x17a);
    (0x181, 0x181, 1, 0x253); (0x182, 0x184, 2, 0x183); (0x186, 0x186, 1, 0x254);
    (0x187, 0x187, 1, 0x188); (0x189, 0x18a, 1, 0x256); (0x18b, 0x18b, 1, 0x18c);
    (0x18e, 0x18e, 1, 0x1dd); (0x18f, 0x18f, 1, 0x259); (0x190, 0x190, 1, 0x25b);
    (0x191, 0x191, 1, 0x192); (0x193, 0x193, 1, 0x260); (0x194, 0x194, 1, 0x263);
    (0x196, 0x196, 1, 0x269); (0x197, 0x197, 1, 0x268); (0x198, 0x198, 1, 0x199);
    (0x19c, 0x19c, 1, 0x26f); (0x19d, 0x19d, 1, 0x272); (0x19f, 0x19f, 1, 0x275);
    (0x1a0, 0x1a4, 2, 0x1a1); (0x1a6, 0x1a6, 1, 0x280); (0x1a7, 0x1a7, 1, 0x1a8);
    (0x1a9, 0x1a9, 1, 0x283); (0x1ac, 0x1ac, 1, 0x1ad); (0x1ae, 0x1ae, 1, 0x288);
    (0x1af, 0x1af, 1, 0x1b0); (0x1b1, 0x1b2, 1, 0x28a); (0x1b3, 0x1b5, 2, 0x1b4);
    (0x1b7, 0x1b7, 1, 0x292); (0x1b8, 0x1b8, 1, 0x1b9); (0x1bc, 0x1bc, 1, 0x1bd);
    (0x1c4, 0x1c4, 1, 0x1c6); (0x1c5, 0x1c5, 1, 0x1c6); (0x1c7, 0x1c7, 1, 0x1c9);
    (0x1c8, 0x1c8, 1, 0x1c9); (0x1ca, 0x1ca, 1, 0x1cc); (0x1cb, 0x1db, 2, 0x1cc);
    (0x1de, 0x1ee, 2, 0x1df); (0x1f1, 0x1f1, 1, 0x1f3); (0x1f2, 0x1f4, 2, 0x1f3);
    (0x1f6, 0x1f6, 1, 0x195); (0x1f7, 0x1f7, 1, 0x1bf); (0x1f8, 0x21e, 2, 0x1f9);
    (0x220, 0x220, 1, 0x19e); (0x222, 0x232, 2, 0x223); (0x23a, 0x23a, 1, 0x2c65);
    (0x23b, 0x23b, 1, 0x23c); (0x23d, 0x23d, 1, 0x19a); (0x23e, 0x23e, 1, 0x2c66);
    (0x241, 0x241, 1, 0x242); (0x243, 0x243, 1, 0x180); (0x244, 0x244, 1, 0x289);
    (0x245, 0x245, 1, 0x28c); (0x246, 0x24e, 2, 0x247); (0x370, 0x372, 2, 0x371);
    (0x376, 0x376, 1, 0x377); (0x37f, 0x37f, 1, 0x3f3); (0x386, 0x386, 1, 0x3ac);
    (0x388, 0x38a, 1, 0x3ad); (0x38c, 0x38c, 1, 0x3cc); (0x38e, 0x38f, 1, 0x3cd);
    (0x391, 0x3a1, 1, 0x3b1); (0x3a3, 0x3ab, 1, 0x3c3); (0x3cf, 0x3cf, 1, 0x3d7);
    (0x3d8, 0x3ee, 2, 0x3d9); (0x3f4, 0x3f4, 1, 0x3b8); (0x3f7, 0x3f7, 1, 0x3f8);
    (0x3f9, 0x3f9, 1, 0x3f2); (0x3fa, 0x3fa, 1, 0x3fb); (0x3fd, 0x3ff, 1, 0x37b);
    (0x400, 0x40f, 1, 0x450); (0x410, 0x42f, 1, 0x430); (0x460, 0x480, 2, 0x461);
    (0x48a, 0x4be, 2, 0x48b); (0x4c0, 0x4c0, 1, 0x4cf); (0x4c1, 0x4cd, 2, 0x4c2);
    (0x4d0, 0x52e, 2, 0x4d1); (0x531, 0x556, 1, 0x561); (0x10a0, 0x10c5, 1, 0x2d00);
    (0x10c7, 0x10c7, 1, 0x2d27); (0x10cd, 0x10cd, 1, 0x2d2d); (0x13a0, 0x13ef, 1, 0xab70);
    (0x13f0, 0x13f5, 1, 0x13f8); (0x1c90, 0x1cba, 1, 0x10d0); (0x1cbd, 0x1cbf, 1, 0x10fd);
    (0x1e00, 0x1e94, 2, 0x1e01); (0x1e9e, 0x1e9e, 1, 0xdf); (0x1ea0, 0x1efe, 2, 0x1ea1);
    (0x1f08, 0x1f0f, 1, 0x1f00); (0x1f18, 0x1f1d, 1, 0x1f10); (0x1f28, 0x1f2f, 1, 0x1f20);
    (0x1f38, 0x1f3f, 1, 0x1f30); (0x1f48, 0x1f4d, 1, 0x1f40); (0x1f59, 0x1f5f, 2, 0x1f51);
    (0x1f68, 0x1f6f, 1, 0x1f60); (0x1f88, 0x1f8f, 1, 0x1f80); (0x1f98, 0x1f9f, 1, 0x1f90);
    (0x1fa8, 0x1faf, 1, 0x1fa0); (0x1fb8, 0x1fb9, 1, 0x1fb0); (0x1fba, 0x1fbb, 1, 0x1f70);
    (0x1fbc, 0x1fbc, 1, 0x1fb3); (0x1fc8, 0x1fcb, 1, 0x1f72); (0x1fcc, 0x1fcc, 1, 0x1fc3);
    (0x1fd8, 0x1fd9, 1, 0x1fd0); (0x1fda, 0x1fdb, 1, 0x1f76); (0x1fe8, 0x1fe9, 1, 0x1fe0);
    (0x1fea, 0x1feb, 1, 0x1f7a); (0x1fec, 0x1fec, 1, 0x1fe5); (0x1ff8, 0x1ff9, 1, 0x1f78);
    (0x1ffa, 0x1ffb, 1, 0x1f7c); (0x1ffc, 0x1ffc, 1, 0x1ff3); (0x2126, 0x2126, 1, 0x3c9);
    (0x212a, 0x212a, 1, 0x6b); (0x212b, 0x212b, 1, 0xe5); (0x2132, 0x2132, 1, 0x214e);
    (0x2160, 0x216f, 1, 0x2170); (0x2183, 0x2183, 1, 0x2184); (0x24b6, 0x24cf, 1, 0x24d0);
    (0x2c00, 0x2c2f, 1, 0x2c30); (0x2c60, 0x2c60, 1, 0x2c61); (0x2c62, 0x2c62, 1, 0x26b);
    (0x2c63, 0x2c63, 1, 0x1d7d); (0x2c64, 0x2c64, 1, 0x27d); (0x2c67, 0x2c6b, 2, 0x2c68);
    (0x2c6d, 0x2c6d, 1, 0x251); (0x2c6e, 0x2c6e, 1, 0x271); (0x2c6f, 0x2c6f, 1, 0x250);
    (0x2c70, 0x2c70, 1, 0x252); (0x2c72, 0x2c72, 1, 0x2c73); (0x2c75, 0x2c75, 1, 0x2c76);
    (0x2c7e, 0x2c7f, 1, 0x23f); (0x2c80, 0x2ce2, 2, 0x2c81); (0x2ceb, 0x2ced, 2, 0x2cec);
    (0x2cf2, 0x2cf2, 1, 0x2cf3); (0xa640, 0xa66c, 2, 0xa641); (0xa680, 0xa69a, 2, 0xa681);
    (0xa722, 0xa72e, 2, 0xa723); (0xa732, 0xa76e, 2, 0xa733); (0xa779, 0xa77b, 2, 0xa77a);
    (0xa77d, 0xa77d, 1, 0x1d79); (0xa77e, 0xa786, 2, 0xa77f); (0xa78b, 0xa78b, 1, 0xa78c);
    (0xa78d, 0xa78d, 1, 0x265); (0xa790, 0xa792, 2, 0xa791); (0xa796, 0xa7a8, 2, 0xa797);
    (0xa7aa, 0xa7aa, 1, 0x266); (0xa7ab, 0xa7ab, 1, 0x25c); (0xa7ac, 0xa7ac, 1, 0x261);
    (0xa7ad, 0xa7ad, 1, 0x26c); (0xa7ae, 0xa7ae, 1, 0x26a); (0xa7b0, 0xa7b0, 1, 0x29e);
    (0xa7b1, 0xa7b1, 1, 0x287); (0xa7b2, 0xa7b2, 1, 0x29d); (0xa7b3, 0xa7b3, 1, 0xab53);
    (0xa7b4, 0xa7c2, 2, 0xa7b5); (0xa7c4, 0xa7c4, 1, 0xa794); (0xa7c5, 0xa7c5, 1, 0x282);
    (0xa7c6, 0xa7c6, 1, 0x1d8e); (0xa7c7, 0xa7c9, 2, 0xa7c8); (0xa7d0, 0xa7d0, 1, 0xa7d1);
    (0xa7d6, 0xa7d8, 2, 0xa7d7); (0xa7f5, 0xa7f5, 1, 0xa7f6); (0xff21, 0xff3a, 1, 0xff41);
    (0x10400, 0x10427, 1, 0x10428); (0x104b0, 0x104d3, 1, 0x104d8); (0x10570, 0x1057a, 1, 0x10597);
    (0x1057c, 0x1058a, 1, 0x105a3); (0x1058c, 0x10592, 1, 0x105b3); (0x10594, 0x10595, 1, 0x105bb);
    (0x10c80, 0x10cb2, 1, 0x10cc0); (0x118a0, 0x118bf, 1, 0x118c0); (0x16e40, 0x16e5f, 1, 0x16e60);
    (0x1e900, 0x1e921, 1, 0x1e922) ]%N.

(** The characters whose lower case is longer. *)
Definition Lowercase_Special : list (N * list N) :=
  [
    (0x130, [0x69; 0x307]) ]%N.

(** The same for the upper case. *)
Definition Uppercase_Mapping : list (N * N * N * N) :=
  [
    (0x61, 0x7a, 1, 0x41); (0xb5, 0xb5, 1, 0x39c); (0xe0, 0xf6, 1, 0xc0);
    (0xf8, 0xfe, 1, 0xd8); (0xff, 0xff, 1, 0x178); (0x101, 0x12f, 2, 0x100);
    (0x131, 0x131, 1, 0x49); (0x133, 0x137, 2, 0x132); (0x13a, 0x148, 2, 0x139);
    (0x14b, 0x177, 2, 0x14a); (0x17a, 0x17e, 2, 0x179); (0x17f, 0x17f, 1, 0x53);
    (0x180, 0x180, 1, 0x243); (0x183, 0x185, 2, 0x182); (0x188, 0x188, 1, 0x187);
    (0x18c, 0x18c, 1, 0x18b); (0x192, 0x192, 1, 0x191); (0x195, 0x195, 1, 0x1f6);
    (0x199, 0x199, 1, 0x198); (0x19a, 0x19a, 1, 0x23d); (0x19e, 0x19e, 1, 0x220);
    (0x1a1, 0x1a5, 2, 0x1a0); (0x1a8, 0x1a8, 1, 0x1a7); (0x1ad, 0x1ad, 1, 0x1ac);
    (0x1b0, 0x1b0, 1, 0x1af); (0x1b4, 0x1b6, 2, 0x1b3); (0x1b9, 0x1b9, 1, 0x1b8);
    (0x1bd, 0x1bd, 1, 0x1bc); (0x1bf, 0x1bf, 1, 0x1f7); (0x1c5, 0x1c5, 1, 0x1c4);
    (0x1c6, 0x1c6, 1, 0x1c4); (0x1c8, 0x1c8, 1, 0x1c7); (0x1c9, 0x1c9, 1, 0x1c7);
    (0x1cb, 0x1cb, 1, 0x1ca); (0x1cc, 0x1cc, 1, 0x1ca); (0x1ce, 0x1dc, 2, 0x1cd);
    (0x1dd, 0x1dd, 1, 0x18e); (0x1df, 0x1ef, 2, 0x1de); (0x1f2, 0x1f2, 1, 0x1f1);
    (0x1f3, 0x1f3, 1, 0x1f1); (0x1f5, 0x1f5, 1, 0x1f4); (0x1f9, 0x21f, 2, 0x1f8);
    (0x223, 0x233, 2, 0x222); (0x23c, 0x23c, 1, 0x23b); (0x23f, 0x240, 1, 0x2c7e);
    (0x242, 0x242, 1, 0x241); (0x247, 0x24f, 2, 0x246); (0x250, 0x250, 1, 0x2c6f);
    (0x251, 0x251, 1, 0x2c6d); (0x252, 0x252, 1, 0x2c70); (0x253, 0x253, 1, 0x181);
    (0x254, 0x254, 1, 0x186); (0x256, 0x257, 1, 0x189); (0x259, 0x259, 1, 0x18f);
    (0x25b, 0x25b, 1, 0x190); (0x25c, 0x25c, 1, 0xa7ab); (0x260, 0x260, 1, 0x193);
    (0x261, 0x261, 1, 0xa7ac); (0x263, 0x263, 1, 0x194); (0x265, 0x265, 1, 0xa78d);
    (0x266, 0x266, 1, 0xa7aa); (0x268, 0x268, 1, 0x197); (0x269, 0x269, 1, 0x196);
    (0x26a, 0x26a, 1, 0xa7ae); (0x26b, 0x26b, 1, 0x2c62); (0x26c, 0x26c, 1, 0xa7ad);
    (0x26f, 0x26f, 1, 0x19c); (0x271, 0x271, 1, 0x2c6e); (0x272, 0x272, 1, 0x19d);
    (0x275, 0x275, 1, 0x19f); (0x27d, 0x27d, 1, 0x2c64); (0x280, 0x280, 1, 0x1a6);
    (0x282, 0x282, 1, 0xa7c5); (0x283, 0x283, 1, 0x1a9); (0x287, 0x287, 1, 0xa7b1);
    (0x288, 0x288, 1, 0x1ae); (0x289, 0x289, 1, 0x244); (0x28a, 0x28b, 1, 0x1b1);
    (0x28c, 0x28c, 1, 0x245); (0x292, 0x292, 1, 0x1b7); (0x29d, 0x29d, 1, 0xa7b2);
    (0x29e, 0x29e, 1, 0xa7b0); (0x345, 0x345, 1, 0x399); (0x371, 0x373, 2, 0x370);
    (0x377, 0x377, 1, 0x376); (0x37b, 0x37d, 1, 0x3fd); (0x3ac, 0x3ac, 1, 0x386);
    (0x3ad, 0x3af, 1, 0x388); (0x3b1, 0x3c1, 1, 0x391); (0x3c2, 0x3c2, 1, 0x3a3);
    (0x3c3, 0x3cb, 1, 0x3a3); (0x3cc, 0x3cc, 1, 0x38c); (0x3cd, 0x3ce, 1, 0x38e);
    (0x3d0, 0x3d0, 1, 0x392); (0x3d1, 0x3d1, 1, 0x398); (0x3d5, 0x3d5, 1, 0x3a6);
    (0x3d6, 0x3d6, 1, 0x3a0); (0x3d7, 0x3d7, 1, 0x3cf); (0x3d9, 0x3ef, 2, 0x3d8);
    (0x3f0, 0x3f0, 1, 0x39a); (0x3f1, 0x3f1, 1, 0x3a1); (0x3f2, 0x3f2, 1, 0x3f9);
    (0x3f3, 0x3f3, 1, 0x37f); (0x3f5, 0x3f5, 1, 0x395); (0x3f8, 0x3f8, 1, 0x3f7);
    (0x3fb, 0x3fb, 1, 0x3fa); (0x430, 0x44f, 1, 0x410); (0x450, 0x45f, 1, 0x400);
    (0x461, 0x481, 2, 0x460); (0x48b, 0x4bf, 2, 0x48a); (0x4c2, 0x4ce, 2, 0x4c1);
    (0x4cf, 0x4cf, 1, 0x4c0); (0x4d1, 0x52f, 2, 0x4d0); (0x561, 0x586, 1, 0x531);
    (0x10d0, 0x10fa, 1, 0x1c90); (0x10fd, 0x10ff, 1, 0x1cbd); (0x13f8, 0x13fd, 1, 0x13f0);
    (0x1c80, 0x1c80, 1, 0x412); (0x1c81, 0x1c81, 1, 0x414); (0x1c82, 0x1c82, 1, 0x41e);
    (0x1c83, 0x1c84, 1, 0x421); (0x1c85, 0x1c85, 1, 0x422); (0x1c86, 0x1c86, 1, 0x42a);
    (0x1c87, 0x1c87, 1, 0x462); (0x1c88, 0x1c88, 1, 0xa64a); (0x1d79, 0x1d79, 1, 0xa77d);
    (0x1d7d, 0x1d7d, 1, 0x2c63); (0x1d8e, 0x1d8e, 1, 0xa7c6); (0x1e01, 0x1e95, 2, 0x1e00);
    (0x1e9b, 0x1e9b, 1, 0x1e60); (0x1ea1, 0x1eff, 2, 0x1ea0); (0x1f00, 0x1f07, 1, 0x1f08);
    (0x1f10, 0x1f15, 1, 0x1f18); (0x1f20, 0x1f27, 1, 0x1f28); (0x1f30, 0x1f37, 1, 0x1f38);
    (0x1f40, 0x1f45, 1, 0x1f48); (0x1f51, 0x1f57, 2, 0x1f59); (0x1f60, 0x1f67, 1, 0x1f68);
    (0x1f70, 0x1f71, 1, 0x1fba); (0x1f72, 0x1f75, 1, 0x1fc8); (0x1f76, 0x1f77, 1, 0x1fda);
    (0x1f78, 0x1f79, 1, 0x1ff8); (0x1f7a, 0x1f7b, 1, 0x1fea); (0x1f7c, 0x1f7d, 1, 0x1ffa);
    (0x1fb0, 0x1fb1, 1, 0x1fb8); (0x1fbe, 0x1fbe, 1, 0x399); (0x1fd0, 0x1fd1, 1, 0x1fd8);
    (0x1fe0, 0x1fe1, 1, 0x1fe8); (0x1fe5, 0x1fe5, 1, 0x1fec); (0x214e, 0x214e, 1, 0x2132);
    (0x2170, 0x217f, 1, 0x2160); (0x2184, 0x2184, 1, 0x2183); (0x24d0, 0x24e9, 1, 0x24b6);
    (0x2c30, 0x2c5f, 1, 0x2c00); (0x2c61, 0x2c61, 1, 0x2c60); (0x2c65, 0x2c65, 1, 0x23a);
    (0x2c66, 0x2c66, 1, 0x23e); (0x2c68, 0x2c6c, 2, 0x2c67); (0x2c73, 0x2c73, 1, 0x2c72);
    (0x2c76, 0x2c76, 1, 0x2c75); (0x2c81, 0x2ce3, 2, 0x2c80); (0x2cec, 0x2cee, 2, 0x2ceb);
    (0x2cf3, 0x2cf3, 1, 0x2cf2); (0x2d00, 0x2d25, 1, 0x10a0); (0x2d27, 0x2d27, 1, 0x10c7);
    (0x2d2d, 0x2d2d, 1, 0x10cd); (0xa641, 0xa66d, 2, 0xa640); (0xa681, 0xa69b, 2, 0xa680);
    (0xa723, 0xa72f, 2, 0xa722); (0xa733, 0xa76f, 2, 0xa732); (0xa77a, 0xa77c, 2, 0xa779);
    (0xa77f, 0xa787, 2, 0xa77e); (0xa78c, 0xa78c, 1, 0xa78b); (0xa791, 0xa793, 2, 0xa790);
    (0xa794, 0xa794, 1, 0xa7c4); (0xa797, 0xa7a9, 2, 0xa796); (0xa7b5, 0xa7c3, 2, 0xa7b4);
    (0xa7c8, 0xa7ca, 2, 0xa7c7); (0xa7d1, 0xa7d1, 1, 0xa7d0); (0xa7d7, 0xa7d9, 2, 0xa7d6);
    (0xa7f6, 0xa7f6, 1, 0xa7f5); (0xab53, 0xab53, 1, 0xa7b3); (0xab70, 0xabbf, 1, 0x13a0);
    (0xff41, 0xff5a, 1, 0xff21); (0x10428, 0x1044f, 1, 0x10400); (0x104d8, 0x104fb, 1, 0x104b0);
    (0x10597, 0x105a1, 1, 0x10570); (0x105a3, 0x105b1, 1, 0x1057c); (0x105b3, 0x105b9, 1, 0x1058c);
    (0x105bb, 0x105bc, 1, 0x10594); (0x10cc0, 0x10cf2, 1, 0x10c80); (0x118c0, 0x118df, 1, 0x118a0);
    (0x16e60, 0x16e7f, 1, 0x16e40); (0x1e922, 0x1e943, 1, 0x1e900) ]%N.

(** The characters whose upper case is longer. *)
Definition Uppercase_Special : list (N * list N) :=
  [
    (0xdf, [0x53; 0x53]); (0x149, [0x2bc; 0x4e]); (0x1f0, [0x4a; 0x30c]);
    (0x390, [0x399; 0x308; 0x301]); (0x3b0, [0x3a5; 0x308; 0x301]); (0x587, [0x535; 0x552]);
    (0x1e96, [0x48; 0x331]); (0x1e97, [0x54; 0x308]); (0x1e98, [0x57; 0x30a]);
    (0x1e99, [0x59; 0x30a]); (0x1e9a, [0x41; 0x2be]); (0x1f50, [0x3a5; 0x313]);
    (0x1f52, [0x3a5; 0x313; 0x300]); (0x1f54, [0x3a5; 0x313; 0x301]); (0x1f56, [0x3a5; 0x313; 0x342]);
    (0x1f80, [0x1f08; 0x399]); (0x1f81, [0x1f09; 0x399]); (0x1f82, [0x1f0a; 0x399]);
    (0x1f83, [0x1f0b; 0x399]); (0x1f84, [0x1f0c; 0x399]); (0x1f85, [0x1f0d; 0x399]);
    (0x1f86, [0x1f0e; 0x399]); (0x1f87, [0x1f0f; 0x399]); (0x1f88, [0x1f08; 0x399]);
    (0x1f89, [0x1f09; 0x399]); (0x1f8a, [0x1f0a; 0x399]); (0x1f8b, [0x1f0b; 0x399]);
    (0x1f8c, [0x1f0c; 0x399]); (0x1f8d, [0x1f0d; 0x399]); (0x1f8e, [0x1f0e; 0x399]);
    (0x1f8f, [0x1f0f; 0x399]); (0x1f90, [0x1f28; 0x399]); (0x1f91, [0x1f29; 0x399]);
    (0x1f92, [0x1f2a; 0x399]); (0x1f93, [0x1f2b; 0x399]); (0x1f94, [0x1f2c; 0x399]);
    (0x1f95, [0x1f2d; 0x399]); (0x1f96, [0x1f2e; 0x399]); (0x1f97, [0x1f2f; 0x399]);
    (0x1f98, [0x1f28; 0x399]); (0x1f99, [0x1f29; 0x399]); (0x1f9a, [0x1f2a; 0x399]);
    (0x1f9b, [0x1f2b; 0x399]); (0x1f9c, [0x1f2c; 0x399]); (0x1f9d, [0x1f2d; 0x399]);
    (0x1f9e, [0x1f2e; 0x399]); (0x1f9f, [0x1f2f; 0x399]); (0x1fa0, [0x1f68; 0x399]);
    (0x1fa1, [0x1f69; 0x399]); (0x1fa2, [0x1f6a; 0x399]); (0x1fa3, [0x1f6b; 0x399]);
    (0x1fa4, [0x1f6c; 0x399]); (0x1fa5, [0x1f6d; 0x399]); (0x1fa6, [0x1f6e; 0x399]);
    (0x1fa7, [0x1f6f; 0x399]); (0x1fa8, [0x1f68; 0x399]); (0x1fa9, [0x1f69; 0x399]);
    (0x1faa, [0x1f6a; 0x399]); (0x1fab, [0x1f6b; 0x399]); (0x1fac, [0x1f6c; 0x399]);
    (0x1fad, [0x1f6d; 0x399]); (0x1fae, [0x1f6e; 0x399]); (0x1faf, [0x1f6f; 0x399]);
    (0x1fb2, [0x1fba; 0x399]); (0x1fb3, [0x391; 0x399]); (0x1fb4, [0x386; 0x399]);
    (0x1fb6, [0x391; 0x342]); (0x1fb7, [0x391; 0x342; 0x399]); (0x1fbc, [0x391; 0x399]);
    (0x1fc2, [0x1fca; 0x399]); (0x1fc3, [0x397; 0x399]); (0x1fc4, [0x389; 0x399]);
    (0x1fc6, [0x397; 0x342]); (0x1fc7, [0x397; 0x342; 0x399]); (0x1fcc, [0x397; 0x399]);
    (0x1fd2, [0x399; 0x308; 0x300]); (0x1fd3, [0x399; 0x308; 0x301]); (0x1fd6, [0x399; 0x342]);
    (0x1fd7, [0x399; 0x308; 0x342]); (0x1fe2, [0x3a5; 0x308; 0x300]); (0x1fe3, [0x3a5; 0x308; 0x301]);
    (0x1fe4, [0x3a1; 0x313]); (0x1fe6, [0x3a5; 0x342]); (0x1fe7, [0x3a5; 0x308; 0x342]);
    (0x1ff2, [0x1ffa; 0x399]); (0x1ff3, [0x3a9; 0x399]); (0x1ff4, [0x38f; 0x399]);
    (0x1ff6, [0x3a9; 0x342]); (0x1ff7, [0x3a9; 0x342; 0x399]); (0x1ffc, [0x3a9; 0x399]);
    (0xfb00, [0x46; 0x46]); (0xfb01, [0x46; 0x49]); (0xfb02, [0x46; 0x4c]);
    (0xfb03, [0x46; 0x46; 0x49]); (0xfb04, [0x46; 0x46; 0x4c]); (0xfb05, [0x53; 0x54]);
    (0xfb06, [0x53; 0x54]); (0xfb13, [0x544; 0x546]); (0xfb14, [0x544; 0x535]);
    (0xfb15, [0x544; 0x53b]); (0xfb16, [0x54e; 0x546]); (0xfb17, [0x544; 0x53d]) ]%N.

(** [Py_UNICODE_ISSPACE] *)
Definition is_space (c : N) : bool := in_ranges White_Space c.

(** [Py_UNICODE_TODECIMAL]: the value of a decimal digit. *)
Definition decimal (c : N) : option N :=
  match List.find (within c) Decimal_Number with
  | Some r => Some ((c - r.1) mod 10)%N
  | None => None
  end.

(** [Py_UNICODE_ISDECIMAL] *)
Definition is_decimal (c : N) : bool :=
  match decimal c with Some _ => true | None => false end.

Definition is_cased (c : N) : bool := in_ranges Cased c.

Definition is_case_ignorable (c : N) : bool := in_ranges Case_Ignorable c.

Definition in_run (c : N) (r : N * N * N * N) : bool :=
  let '(first, last, step, _) := r in
  ((first <=? c) && (c <=? last) && ((c - first) mod step =? 0))%N.

(** The full case mapping of one character: the special mapping, else the
    one-character mapping, else the character itself. *)
Definition mapped (special : list (N * list N)) (runs : list (N * N * N * N))
    (c : N) : list N :=
  match List.find (fun e => (e.1 =? c)%N) special with
  | Some e => e.2
  | None =>
      match List.find (in_run c) runs with
      | Some (first, _, _, image) => [(image + (c - first))%N]
      | None => [c]
      end
  end.

(** [_PyUnicode_ToLowerFull] *)
Definition to_lower_full (c : N) : list N :=
  mapped Lowercase_Special Lowercase_Mapping c.

(** [_PyUnicode_ToUpperFull] *)
Definition to_upper_full (c : N) : list N :=
  mapped Uppercase_Special Uppercase_Mapping c.

(** *** UTF-8 *)

Definition continuation (b : N) : bool := ((0x80 <=? b) && (b <=? 0xbf))%N.

Definition seq2 (b0 b1 : N) : option N :=
  if ((0xc2 <=? b0) && (b0 <=? 0xdf))%N && continuation b1
  then Some ((b0 - 0xc0) * 0x40 + (b1 - 0x80))%N
  else None.

Definition seq3 (b0 b1 b2 : N) : option N :=
  let c := ((b0 - 0xe0) * 0x1000 + (b1 - 0x80) * 0x40 + (b2 - 0x80))%N in
  if ((0xe0 <=? b0) && (b0 <=? 0xef))%N && continuation b1 && continuation b2
     && (0x800 <=? c)%N
  then Some c else None.

Definition seq4 (b0 b1 b2 b3 : N) : option N :=
  let c := ((b0 - 0xf0) * 0x40000 + (b1 - 0x80) * 0x1000
            + (b2 - 0x80) * 0x40 + (b3 - 0x80))%N in
  if ((0xf0 <=? b0) && (b0 <=? 0xf4))%N && continuation b1 && continuation b2
     && continuation b3 && (0x10000 <=? c)%N && (c <=? 0x10ffff)%N
  then Some c else None.

(** The code points a sequence of UTF-8 bytes stands for. A byte that
    begins no well-formed sequence, which the bytes of a [str] never hold,
    is read as U+FFFD. *)
Fixpoint utf8_decode (l : list N) : list N :=
  match l with
  | [] => []
  | b0 :: l1 =>
      if (b0 <? 0x80)%N then b0 :: utf8_decode l1
      else
        match l1 with
        | [] => [0xfffd%N]
        | b1 :: l2 =>
            match seq2 b0 b1 with
            | Some c => c :: utf8_decode l2
            | None =>
                match l2 with
                | [] => 0xfffd%N :: utf8_decode l1
                | b2 :: l3 =>
                    match seq3 b0 b1 b2 with
                    | Some c => c :: utf8_decode l3
                    | None =>
                        match l3 with
                        | [] => 0xfffd%N :: utf8_decode l1
                        | b3 :: l4 =>
                            match seq4 b0 b1 b2 b3 with
                            | Some c => c :: utf8_decode l4
                            | None => 0xfffd%N :: utf8_decode l1
                            end
                        end
                    end
                end
            end
        end
  end.

End Unicode.

(** The characters of a text stored as bytes. *)
Definition chars (s : string) : str :=
  Unicode.utf8_decode (map N_of_ascii (list_ascii_of_string s)).

(** *** [int(x)] *)

(** The characters [0] to [9]. *)
Definition is_digit (c : ascii) : bool :=
  let n := nat_of_ascii c in ((48 <=? n) && (n <=? 57))%nat.

Definition digit_val (c : ascii) : Z := Z.of_nat (nat_of_ascii c) - 48.

Module PyInt.

(** [Py_ISSPACE]: the blanks of ASCII. *)
Definition is_space (c : N) : bool :=
  (((9 <=? c) && (c <=? 13)) || (c =? 32))%N.

Fixpoint lstrip (l : list N) : list N :=
  match l with
  | c :: l' => if is_space c then lstrip l' else l
  | [] => []
  end.

Definition strip (l : list N) : list N :=
  rev (lstrip (rev (lstrip l))).

(** What [int] does to a [str] before it reads it: an ASCII character
    stays, any other blank becomes a space, any other decimal digit
    becomes the ASCII digit of its value, and the text is cut after the
    first character that is none of these, which becomes a question mark. *)
Fixpoint to_ascii (l : str) : list N :=
  match l with
  | [] => []
  | c :: l' =>
      if (c <? 127)%N then c :: to_ascii l'
      else if Unicode.is_space c then 32%N :: to_ascii l'
      else match Unicode.decimal c with
           | Some d => (48 + d)%N :: to_ascii l'
           | None => [63%N]
           end
  end.

Definition is_digit (c : N) : bool := ((48 <=? c) && (c <=? 57))%N.

Definition digit_val (c : N) : Z := Z.of_N c - 48.

(** Decimal digits, single underscores allowed between two digits: the
    number read and how many digits it has. [prev] tells whether the
    previous character was a digit. *)
Fixpoint digits (acc : Z) (n : nat) (prev : bool) (l : list N)
    : option (Z * nat) :=
  match l with
  | [] => if prev then Some (acc, n) else None
  | c :: l' =>
      if is_digit c then digits (10 * acc + digit_val c) (S n) true l'
      else if ((c =? 95)%N && prev)%bool then
             match l' with
             | d :: _ => if is_digit d then digits acc n false l' else None
             | [] => None
             end
           else None
  end.

(** The default of [sys.get_int_max_str_digits()]: a longer literal is
    refused. *)
Definition max_str_digits : nat := 4300.

(** [int(s)]: surrounding blanks, an optional sign, base-10 digits; no
    value stands for [ValueError]. *)
Definition of_string (s : string) : option Z :=
  let l := strip (to_ascii (chars s)) in
  let signed :=
    match l with
    | 45%N :: l' => (true, l')
    | 43%N :: l' => (false, l')
    | _ => (false, l)
    end in
  match digits 0 0 false signed.2 with
  | Some (z, n) =>
      if (max_str_digits <? n)%nat then None
      else Some (if signed.1 then - z else z)
  | None => None
  end.

Definition py_int (v : PyVal) : Res Z :=
  match v with
  | VNone => Raise TypeError
  | VBool b => Ok (if b then 1 else 0)
  | VInt z => Ok z
  | VFloat f =>
      match PyFloat.trunc f with
      | Some z => Ok z
      | None => Raise (if PyFloat.is_nan f then ValueError else OverflowError)
      end
  | VStr s =>
      match of_string s with
      | Some z => Ok z
      | None => Raise ValueError
      end
  | VList _ | VDict _ => Raise TypeError
  end.

End PyInt.

(** ** Effects: state, exceptions and observable calls *)

(** Calls that leave the engine. *)
Inductive Event : Type :=
| EvUtcNow
| EvFromIso (ts : string)
| EvPathExists
| EvJoblibLoad
| EvHash (s : string)
| EvDecisionFunction (x : list float)
| EvPredict (x : list float)
| EvHistory (user_id : string).

(** A computation over a mutable state [S]: its outcome, the state it
    leaves (exceptions do not roll the state back) and the calls made. *)
Definition M (S A : Type) : Type := S -> Res A * S * list Event.

Definition ret {S A} (a : A) : M S A := fun s => (Ok a, s, []).

Definition bind {S A B} (m : M S A) (k : A -> M S B) : M S B :=
  fun s =>
    match m s with
    | (Ok a, s1, t1) =>
        match k a s1 with
        | (r, s2, t2) => (r, s2, t1 ++ t2)
        end
    | (Raise e, s1, t1) => (Raise e, s1, t1)
    end.

Definition raise {S A} (e : PyExc) : M S A := fun s => (Raise e, s, []).

Definition gets {S A} (f : S -> A) : M S A := fun s => (Ok (f s), s, []).

Definition modify {S} (f : S -> S) : M S unit := fun s => (Ok tt, f s, []).

Definition emit {S} (ev : Event) : M S unit := fun s => (Ok tt, s, [ev]).

Definition lift_res {S A} (r : Res A) : M S A := fun s => (r, s, []).

(** [try: body except Exception: handler]. *)
Definition try_except {S A} (body : M S A) (handler : PyExc -> M S A) : M S A :=
  fun s =>
    match body s with
    | (Ok a, s1, t1) => (Ok a, s1, t1)
    | (Raise e, s1, t1) =>
        match handler e s1 with
        | (r, s2, t2) => (r, s2, t1 ++ t2)
        end
    end.

Declare Scope py_scope.
Delimit Scope py_scope with py.
Notation "x <- m ;; k" := (bind m (fun x => k))
  (at level 100, m at next level, right associativity) : py_scope.
Notation "m ;;; k" := (bind m (fun _ => k))
  (at level 100, right associativity) : py_scope.
Open Scope py_scope.

Definition outcome {S A} (o : Res A * S * list Event) : Res A := o.1.1.
Definition final {S A} (o : Res A * S * list Event) : S := o.1.2.
Definition calls {S A} (o : Res A * S * list Event) : list Event := o.2.

(** ** The world outside the engine *)

Record datetime : Type := mkDatetime {
  dt_hour : Z;
  dt_minute : Z;
  dt_second : Z
}.

(** The classifier stored in the artifact: what [joblib.load] returns when
    it returns. *)
Record Model : Type := mkModel {
  decision_function : list float -> float;
  predict : list float -> Z
}.

Record World : Type := mkWorld {
  utcnow : datetime;                           (* datetime.utcnow() *)
  fromisoformat : string -> option datetime;   (* None: ValueError *)
  path_exists : bool;                          (* os.path.exists(ML_MODEL_PATH) *)
  joblib_load : Res Model;                     (* joblib.load(ML_MODEL_PATH) *)
  py_hash : string -> Z;                       (* hash(str) *)
  np_exp : float -> float                      (* numpy.exp *)
}.

(** What the [datetime] class guarantees of the hour field. *)
Definition hour_ok (h : Z) : Prop := 0 <= h <= 23.

Definition world_ok (w : World) : Prop :=
  hour_ok (dt_hour (utcnow w)) /\
  forall ts dt, fromisoformat w ts = Some dt -> hour_ok (dt_hour dt).

Definition call_path_exists {S} (w : World) : M S bool :=
  emit EvPathExists ;;; ret (path_exists w).

Definition call_joblib_load {S} (w : World) : M S Model :=
  emit EvJoblibLoad ;;; lift_res (joblib_load w).

Definition call_hash {S} (w : World) (s : string) : M S Z :=
  emit (EvHash s) ;;; ret (py_hash w s).

Definition call_decision_function {S} (m : Model) (x : list float) : M S float :=
  emit (EvDecisionFunction x) ;;; ret (decision_function m x).

Definition call_predict {S} (m : Model) (x : list float) : M S Z :=
  emit (EvPredict x) ;;; ret (predict m x).

Definition call_utcnow {S} (w : World) : M S datetime :=
  emit EvUtcNow ;;; ret (utcnow w).

Definition call_fromisoformat {S} (w : World) (ts : string) : M S datetime :=
  emit (EvFromIso ts) ;;;
  match fromisoformat w ts with
  | Some dt => ret dt
  | None => raise ValueError
  end.

(** ** Data model *)

Record TxIn : Type := mkTxIn {
  userId : string;
  amount : float;
  timestamp : string;
  merchant : string;
  merchant_category : string;
  is_international : bool;
  currency : string;
  meta : gmap string PyVal
}.

(** The user history dictionary: every key may be missing. *)
Record History : Type := mkHistory {
  avg_amount : option float;
  median_amount : option float;
  std_amount : option float;
  transactions_today : option Z;
  merchants : option (list string);
  country : option string;
  timezone_offset_hours : option float
}.

Definition get_user_history_stub (user_id : string) : History :=
  {| avg_amount := Some 600%float;
     median_amount := Some 350%float;
     std_amount := Some 400%float;
     transactions_today := Some 2;
     merchants := Some ["Zomato"; "SBI Card"; "Amazon"];
     country := Some "IN";
     timezone_offset_hours := Some 5.5%float |}.

(** ** Hour extraction *)

(** [ts.endswith("Z")] *)
Definition endswith_Z (ts : string) : bool :=
  match rev (list_ascii_of_string ts) with
  | c :: _ => Ascii.eqb c "Z"%char
  | [] => false
  end.

(** [ts[:-1]] *)
Definition drop_last (ts : string) : string :=
  string_of_list_ascii (removelast (list_ascii_of_string ts)).

(** [int(meta.get("hour", datetime.utcnow().hour))]: the default is
    evaluated before the lookup. *)
Definition meta_hour {S} (w : World) (meta : gmap string PyVal) : M S Z :=
  now <- call_utcnow w ;;
  lift_res (PyInt.py_int (default (VInt (dt_hour now)) (meta !! "hour"))).

Definition _parse_iso_hour {S} (w : World) (ts : string)
    (meta : gmap string PyVal) : M S Z :=
  if String.eqb ts "" then meta_hour w meta
  else
    try_except
      (let ts := if endswith_Z ts then String.append (drop_last ts) "+00:00" else ts in
       dt <- call_fromisoformat w ts ;;
       ret (dt_hour dt))
      (fun _ => meta_hour w meta).

(** ** PII masking

    [re.sub(r"\d{8,}", token, text)] over an alphabet [A] with a digit
    class [isd]. The pattern is a [str] pattern, so that [\d] is the class
    of the decimal digits of Unicode, the digits [0] to [9] among them;
    the facts proved of the scan hold for any digit class that contains no
    character of the token. *)

Section RegexSub.
Context {A : Type} (isd : A -> bool) (tok : list A).

Fixpoint take_while (p : A -> bool) (l : list A) : list A :=
  match l with
  | c :: l' => if p c then c :: take_while p l' else []
  | [] => []
  end.

Fixpoint drop_while (p : A -> bool) (l : list A) : list A :=
  match l with
  | c :: l' => if p c then drop_while p l' else l
  | [] => []
  end.

(** The longest prefix of digits: what a greedy [\d*] consumes. *)
Definition digits_at (l : list A) : list A := take_while isd l.

(** The match of [\d{8,}] anchored at the head of [l], by its length. *)
Definition match_at (l : list A) : option nat :=
  let n := length (digits_at l) in
  if (8 <=? n)%nat then Some n else None.

(** [re.sub(r"\d{8,}", tok, l)]: scan from the left; where the pattern
    matches, emit the token and resume after the match; elsewhere copy
    one character and resume at the next. *)
Equations? sub_digits8 (l : list A) : list A by wf (length l) lt :=
  sub_digits8 [] := [];
  sub_digits8 (c :: l') with Logic.inspect (match_at (c :: l')) := {
    | exist _ (Some n) Hm => tok ++ sub_digits8 (drop n (c :: l'));
    | exist _ None Hm => c :: sub_digits8 l' }.
Proof.
  all: try (simpl; lia).
  assert (Hlen : forall l, (length (digits_at l) <= length l)%nat).
  { clear. unfold digits_at. induction l as [|x l IH]; simpl; [lia|].
    destruct (isd x); simpl; lia. }
  unfold match_at in Hm. specialize (Hlen (c :: l')).
  destruct (Nat.leb_spec 8 (length (digits_at (c :: l')))); [|discriminate].
  injection Hm as <-. rewrite length_drop. simpl in *. lia.
Qed.

(** The words of the contract, independently of the scan: cut the text
    into its maximal runs of digits and of non-digits, and replace each
    run of 8 or more digits with the token. *)
Fixpoint runs (l : list A) : list (list A) :=
  match l with
  | [] => []
  | c :: l' =>
      match runs l' with
      | (d :: r) :: rs =>
          if Bool.eqb (isd c) (isd d) then (c :: d :: r) :: rs
          else [c] :: (d :: r) :: rs
      | rs => [c] :: rs
      end
  end.

Definition long_digit_run (r : list A) : bool :=
  forallb isd r && (8 <=? length r)%nat.

Definition redact (r : list A) : list A :=
  if long_digit_run r then tok else r.

Definition mask_runs (l : list A) : list A := concat (map redact (runs l)).

(** Some 8 or more consecutive digits occur in [l]. *)
Definition has_long_run (l : list A) : Prop :=
  exists pre r post,
    l = pre ++ r ++ post /\ forallb isd r = true /\ (8 <= length r)%nat.

(** The pattern matches at no position of [l]. *)
Fixpoint clean (l : list A) : Prop :=
  match l with
  | [] => True
  | c :: l' => match_at (c :: l') = None /\ clean l'
  end.

Definition no_digit (t : list A) : Prop :=
  forallb (fun x => negb (isd x)) t = true.

Definition same (c x : A) : bool := Bool.eqb (isd c) (isd x).

End RegexSub.

Definition MASKED_NUMBER : str := chars "[MASKED_NUMBER]".

Definition mask_personal_data (text : str) : str :=
  sub_digits8 Unicode.is_decimal MASKED_NUMBER text.

(** The contract of the masker. *)
Definition mask_contract (text : str) : str :=
  mask_runs Unicode.is_decimal MASKED_NUMBER text.

Definition has_digit_run8 (text : str) : Prop :=
  has_long_run Unicode.is_decimal text.

(** ** Rule-based detector *)

(** The two objects [rule_based_check] holds references to. *)
Record Frame : Type := mkFrame {
  f_tx : TxIn;
  f_history : History
}.

Definition Verdict : Type := bool * float * list string.

Record AnomalyResp : Type := mkAnomalyResp {
  anomaly : bool;
  score : float;
  reasons : list string
}.

Definition to_resp (v : Verdict) : AnomalyResp :=
  {| anomaly := v.1.1; score := v.1.2; reasons := v.2 |}.

(** [if c: reasons.append(msg)] on the local list. *)
Definition append_if (c : bool) (msg : string) (reasons : list string)
    : list string :=
  if c then reasons ++ [msg] else reasons.

(** [x in l] for a list of strings. *)
Definition py_in (x : string) (l : list string) : bool :=
  existsb (String.eqb x) l.

(** [rule_based_check(tx, user_history)]: the two arguments are the two
    objects of the frame; attribute reads and [dict.get] are reads of the
    state, [reasons] is a local list. *)
Definition rule_based_check (w : World) : M Frame Verdict :=
  let reasons : list string := [] in
  amount <- gets (fun fr => amount (f_tx fr)) ;;
  avg <- gets (fun fr => default 500%float (avg_amount (f_history fr))) ;;
  std <- gets (fun fr =>
           default (PyFloat.py_max 1 (avg * 0.6)) (std_amount (f_history fr))) ;;
  med <- gets (fun fr => default avg (median_amount (f_history fr))) ;;
  ts <- gets (fun fr => timestamp (f_tx fr)) ;;
  meta <- gets (fun fr => meta (f_tx fr)) ;;
  hour <- _parse_iso_hour w ts meta ;;
  let reasons :=
    append_if (PyFloat.gt amount 20000)
      "Very large transaction amount" reasons in
  let reasons :=
    append_if (PyFloat.gt amount (med * 3))
      "High compared to user's typical transaction" reasons in
  let reasons :=
    append_if (PyFloat.gt amount (avg + 3 * std))
      "Amount is far outside typical variance" reasons in
  let reasons :=
    append_if ((hour <? 6) || (23 <? hour))
      "Transaction at unusual hour" reasons in
  merchant <- gets (fun fr => merchant (f_tx fr)) ;;
  known <- gets (fun fr => default [] (merchants (f_history fr))) ;;
  let reasons :=
    append_if (negb (py_in merchant known))
      "Merchant is new/unfamiliar" reasons in
  intl <- gets (fun fr => is_international (f_tx fr)) ;;
  let reasons :=
    append_if (intl && PyFloat.gt amount 1000)
      "International high-value transaction" reasons in
  today <- gets (fun fr => default 0 (transactions_today (f_history fr))) ;;
  let reasons :=
    append_if (10 <? today)
      "Unusually high transaction frequency today" reasons in
  let anomaly := (0 <? length reasons)%nat in
  let score := PyFloat.py_min 1 (PyFloat.of_nat (length reasons) / 5) in
  ret (anomaly, score, reasons).

(** Run a computation on the request object together with a dictionary
    local to the caller; the local is dropped on exit. *)
Definition with_history {A} (h : History) (m : M Frame A) : M TxIn A :=
  fun tx =>
    match m (mkFrame tx h) with
    | (r, fr, t) => (r, f_tx fr, t)
    end.

(** The endpoint of the rule-based detector; its state is the request
    object. *)
Definition detect_rule (w : World) : M TxIn AnomalyResp :=
  uid <- gets userId ;;
  emit (EvHistory uid) ;;;
  let user_history := get_user_history_stub uid in
  m <- gets merchant ;;
  let masked_merchant := mask_personal_data (chars m) in
  v <- with_history user_history (rule_based_check w) ;;
  ret (to_resp v).

(** ** Statistical detector *)

(** The module-level state: the global [_ml_model]. *)
Record Proc : Type := mkProc {
  _ml_model : option Model
}.

Definition initial : Proc := {| _ml_model := None |}.

Definition load_ml_model (w : World) : M Proc (option Model) :=
  cur <- gets _ml_model ;;
  match cur with
  | None =>
      found <- call_path_exists w ;;
      if found : bool then
        m <- call_joblib_load w ;;
        modify (fun _ => {| _ml_model := Some m |})
      else ret tt
  | Some _ => ret tt
  end ;;;
  gets _ml_model.

Definition lift_opt {S A} (e : PyExc) (o : option A) : M S A :=
  match o with
  | Some a => ret a
  | None => raise e
  end.

(** [ml_detector(tx)]: the state is the module global; the request is
    only read. The feature vector is converted to floats as
    [np.array(..., dtype=float)] does. *)
Definition ml_detector (w : World) (tx : TxIn) : M Proc Verdict :=
  model <- load_ml_model w ;;
  match model with
  | None => raise (RuntimeError "ML model not found on server.")
  | Some model =>
      hour <- _parse_iso_hour w (timestamp tx) (meta tx) ;;
      h <- call_hash w (merchant tx) ;;
      let merchant_hash := Z.abs h mod 1000 in
      fhour <- lift_opt OverflowError (PyFloat.of_Z hour) ;;
      fhash <- lift_opt OverflowError (PyFloat.of_Z merchant_hash) ;;
      let x := [amount tx; fhour;
                (if is_international tx then 1 else 0)%float; fhash] in
      score_raw <- call_decision_function model x ;;
      pred <- call_predict model x ;;
      let is_anom := pred =? -1 in
      let score := (1 / (1 + np_exp w (- score_raw)))%float in
      let reasons :=
        append_if is_anom "ML model flagged as outlier (demo model)." [] in
      ret (is_anom, score, reasons)
  end.

Definition detect_ml (w : World) (tx : TxIn) : M Proc AnomalyResp :=
  v <- try_except (ml_detector w tx)
         (fun e =>
            match e with
            | RuntimeError msg => raise (HTTPException 503 msg)
            | _ => raise e
            end) ;;
  ret (to_resp v).

(** A process serving one request after another, each in the world of
    its moment. *)
Fixpoint serve_ml (reqs : list (World * TxIn)) (p : Proc)
    : list (Res AnomalyResp * list Event) * Proc :=
  match reqs with
  | [] => ([], p)
  | (w, tx) :: reqs' =>
      match detect_ml w tx p with
      | (r, p1, t) =>
          match serve_ml reqs' p1 with
          | (rs, p2) => ((r, t) :: rs, p2)
          end
      end
  end.

(** Successive calls of [load_ml_model]: what each returned, the state it
    left and the calls it made. *)
Fixpoint loads (ws : list World) (p : Proc)
    : list (Res (option Model) * Proc * list Event) :=
  match ws with
  | [] => []
  | w :: ws' =>
      let o := load_ml_model w p in
      o :: loads ws' (final o)
  end.

(** ** A sample world

    A fixed clock and a small parser for the one layout
    [YYYY-MM-DDTHH:MM:SS] with an optional [+HH:MM] or [-HH:MM] offset.
    It stands in for the library on the inputs used in the examples; the
    theorems hold for any [World]. *)

Definition two_digits (a b : ascii) : option Z :=
  if is_digit a && is_digit b then Some (10 * digit_val a + digit_val b)
  else None.

Definition iso_offset_ok (rest : list ascii) : bool :=
  match rest with
  | [] => true
  | [sg; h1; h2; ":"%char; m1; m2] =>
      (Ascii.eqb sg "+"%char || Ascii.eqb sg "-"%char)
      && match two_digits h1 h2, two_digits m1 m2 with
         | Some h, Some m => (h <? 24) && (m <? 60)
         | _, _ => false
         end
  | _ => false
  end.

Definition iso_fields (ts : string) : option datetime :=
  match list_ascii_of_string ts with
  | y1 :: y2 :: y3 :: y4 :: "-"%char :: o1 :: o2 :: "-"%char :: d1 :: d2
      :: "T"%char :: h1 :: h2 :: ":"%char :: m1 :: m2 :: ":"%char
      :: s1 :: s2 :: rest =>
      match two_digits y1 y2, two_digits y3 y4, two_digits o1 o2,
            two_digits d1 d2, two_digits h1 h2, two_digits m1 m2,
            two_digits s1 s2 with
      | Some _, Some _, Some mo, Some d, Some h, Some m, Some s =>
          if (1 <=? mo) && (mo <=? 12) && (1 <=? d) && (d <=? 31)
             && (0 <=? h) && (h <? 24) && (m <? 60) && (s <? 60)
             && iso_offset_ok rest
          then Some {| dt_hour := h; dt_minute := m; dt_second := s |}
          else None
      | _, _, _, _, _, _, _ => None
      end
  | _ => None
  end.

(** A [datetime] exists only with its hour within 0..23. *)
Definition iso_basic (ts : string) : option datetime :=
  match iso_fields ts with
  | Some dt =>
      if (0 <=? dt_hour dt) && (dt_hour dt <=? 23) then Some dt else None
  | None => None
  end.

(** A classifier that finds every sample an inlier, on the boundary. *)
Definition sample_model : Model :=
  {| decision_function := fun _ => 0%float; predict := fun _ => 1 |}.

Definition sample_world : World :=
  {| utcnow := {| dt_hour := 14; dt_minute := 30; dt_second := 0 |};
     fromisoformat := iso_basic;
     path_exists := false;
     joblib_load := Raise OSError;
     py_hash := fun s => Z.of_nat (String.length s);
     np_exp := fun _ => 1%float |}.

(** The same world with the artifact in place. *)
Definition stocked_world : World :=
  {| utcnow := utcnow sample_world;
     fromisoformat := iso_basic;
     path_exists := true;
     joblib_load := Ok sample_model;
     py_hash := py_hash sample_world;
     np_exp := np_exp sample_world |}.

Definition sample_tx : TxIn :=
  {| userId := "u1";
     amount := 250%float;
     timestamp := "2024-06-01T12:00:00Z";
     merchant := "Zomato";
     merchant_category := "";
     is_international := false;
     currency := "INR";
     meta := ∅ |}.

(** The end-to-end transaction of the test plan. *)
Definition risky_tx : TxIn :=
  {| userId := "u1";
     amount := 25000%float;
     timestamp := "2024-06-01T02:00:00Z";
     merchant := "Unknown Shop";
     merchant_category := "";
     is_international := true;
     currency := "INR";
     meta := ∅ |}.

Definition no_history : History :=
  {| avg_amount := None; median_amount := None; std_amount := None;
     transactions_today := None; merchants := None; country := None;
     timezone_offset_hours := None |}.

(** ** The rule table, for stating properties *)

(** The values the rules read from the history, defaults applied. *)
Definition avg_of (h : History) : float := default 500%float (avg_amount h).
Definition std_of (h : History) : float :=
  default (PyFloat.py_max 1 (avg_of h * 0.6)) (std_amount h).
Definition med_of (h : History) : float := default (avg_of h) (median_amount h).
Definition known_merchants (h : History) : list string :=
  default [] (merchants h).
Definition today_of (h : History) : Z := default 0 (transactions_today h).

(** Which of rules 1 to 7 trigger, given the extracted hour. *)
Definition triggered (tx : TxIn) (h : History) (hour : Z) : list bool :=
  [ PyFloat.gt (amount tx) 20000;
    PyFloat.gt (amount tx) (med_of h * 3);
    PyFloat.gt (amount tx) (avg_of h + 3 * std_of h);
    (hour <? 6) || (23 <? hour);
    negb (py_in (merchant tx) (known_merchants h));
    is_international tx && PyFloat.gt (amount tx) 1000;
    10 <? today_of h ].

(** The reason of each rule, in rule order. *)
Definition rule_reasons : list string :=
  [ "Very large transaction amount";
    "High compared to user's typical transaction";
    "Amount is far outside typical variance";
    "Transaction at unusual hour";
    "Merchant is new/unfamiliar";
    "International high-value transaction";
    "Unusually high transaction frequency today" ].

(** The entries of [l] at the positions where [mask] is true. *)
Fixpoint select {A} (mask : list bool) (l : list A) : list A :=
  match mask, l with
  | b :: mask', x :: l' =>
      if b then x :: select mask' l' else select mask' l'
  | _, _ => []
  end.

Fixpoint count_true (mask : list bool) : nat :=
  match mask with
  | b :: mask' => (if b then 1 else 0) + count_true mask'
  | [] => 0
  end.

(** The request that shows the unchecked metadata hour. *)
Definition tx_meta_hour (v : PyVal) : TxIn :=
  {| userId := "u1";
     amount := 250%float;
     timestamp := "";
     merchant := "Zomato";
     merchant_category := "";
     is_international := false;
     currency := "INR";
     meta := {[ "hour" := v ]} |}.

(** A process whose handle may or may not be loaded already. *)
Definition loaded (m : Model) : Proc := {| _ml_model := Some m |}.

Definition is_load (ev : Event) : bool :=
  match ev with EvJoblibLoad => true | _ => false end.

(** A call that read the artifact from disk and got a model. *)
Definition disk_load {A} (o : Res A * Proc * list Event) : bool :=
  existsb is_load (calls o)
  && match outcome o with Ok _ => true | Raise _ => false end.

(** A computation that only observes: it hands the state back. *)
Definition read_only {S A} (m : M S A) : Prop := forall s, final (m s) = s.

(** The verdict built from the list of reasons. *)
Definition verdict_of (rs : list string) : Verdict :=
  ((0 <? length rs)%nat,
   PyFloat.py_min 1 (PyFloat.of_nat (length rs) / 5),
   rs).

(** The message of the model-unavailable error. *)
Definition not_found : string := "ML model not found on server.".

(** ** Demo detector *)

(** The generator behind [random.random()]: the draws to come and how many
    have been taken. *)
Record Rng : Type := mkRng {
  draws : nat -> float;
  taken : nat
}.

Definition random_random : M Rng float :=
  r <- gets (fun g => draws g (taken g)) ;;
  modify (fun g => {| draws := draws g; taken := S (taken g) |}) ;;;
  ret r.

Definition fake_detector (tx : TxIn) : M Rng Verdict :=
  r <- random_random ;;
  if PrimFloat.ltb r 0.05 then
    ret (true, 0.95%float, ["Simulated high anomaly (demo)"])
  else if PrimFloat.ltb r 0.2 then
    ret (true, 0.6%float, ["Simulated medium anomaly (demo)"])
  else ret (false, 0.05%float, []).

Definition detect_fake (tx : TxIn) : M Rng AnomalyResp :=
  v <- fake_detector tx ;;
  ret (to_resp v).

(** The generator after one draw. *)
Definition advance (g : Rng) : Rng :=
  {| draws := draws g; taken := S (taken g) |}.

(** ** Reading the detectors *)

(** The timestamp as handed to [datetime.fromisoformat]. *)
Definition normalized (ts : string) : string :=
  if endswith_Z ts then String.append (drop_last ts) "+00:00" else ts.

(** The feature vector of the statistical detector, when its integer
    entries convert to floats. *)
Definition features (w : World) (tx : TxIn) (hour : Z) : option (list float) :=
  match PyFloat.of_Z hour, PyFloat.of_Z (Z.abs (py_hash w (merchant tx)) mod 1000) with
  | Some fhour, Some fhash =>
      Some [amount tx; fhour;
            (if is_international tx then 1 else 0)%float; fhash]
  | _, _ => None
  end.

(** The verdict the classifier gives on a feature vector. *)
Definition classify (w : World) (m : Model) (x : list float) : Verdict :=
  let is_anom := predict m x =? -1 in
  (is_anom,
   (1 / (1 + np_exp w (- decision_function m x)))%float,
   if is_anom then ["ML model flagged as outlier (demo model)."] else []).

(** Two worlds that differ at most in the model artifact. *)
Definition same_clock (w1 w2 : World) : Prop :=
  utcnow w1 = utcnow w2 /\ fromisoformat w1 = fromisoformat w2.

Definition same_but_artifact (w1 w2 : World) : Prop :=
  same_clock w1 w2 /\ py_hash w1 = py_hash w2 /\ np_exp w1 = np_exp w2.

(** The request with other bookkeeping fields. *)
Definition relabel (uid cat cur : string) (tx : TxIn) : TxIn :=
  {| userId := uid;
     amount := amount tx;
     timestamp := timestamp tx;
     merchant := merchant tx;
     merchant_category := cat;
     is_international := is_international tx;
     currency := cur;
     meta := meta tx |}.

Definition is_runtime_error (e : PyExc) : bool :=
  match e with RuntimeError _ => true | _ => false end.

(** A request with an amount that is not a number. *)
Definition nan_tx : TxIn :=
  {| userId := "u1";
     amount := PrimFloat.nan;
     timestamp := "2024-06-01T12:00:00Z";
     merchant := "Unknown Shop";
     merchant_category := "";
     is_international := true;
     currency := "INR";
     meta := ∅ |}.

(** A generator that always draws the same number. *)
Definition constant_rng (r : float) : Rng := {| draws := fun _ => r; taken := 0 |}.

(** What [ml_detector] does once it holds the model. *)
Definition score_with (w : World) (tx : TxIn) (model : Model) : M Proc Verdict :=
  hour <- _parse_iso_hour w (timestamp tx) (meta tx) ;;
  h <- call_hash w (merchant tx) ;;
  let merchant_hash := Z.abs h mod 1000 in
  fhour <- lift_opt OverflowError (PyFloat.of_Z hour) ;;
  fhash <- lift_opt OverflowError (PyFloat.of_Z merchant_hash) ;;
  let x := [amount tx; fhour;
            (if is_international tx then 1 else 0)%float; fhash] in
  score_raw <- call_decision_function model x ;;
  pred <- call_predict model x ;;
  let is_anom := pred =? -1 in
  let score := (1 / (1 + np_exp w (- score_raw)))%float in
  let reasons :=
    append_if is_anom "ML model flagged as outlier (demo model)." [] in
  ret (is_anom, score, reasons).

(** The endpoint's translation of an error of the detector. *)
Definition as_http (e : PyExc) : PyExc :=
  match e with
  | RuntimeError msg => HTTPException 503 msg
  | _ => e
  end.

(** A world whose artifact exists but does not load. *)
Definition broken_world : World :=
  {| utcnow := utcnow sample_world;
     fromisoformat := iso_basic;
     path_exists := true;
     joblib_load := Raise OSError;
     py_hash := py_hash sample_world;
     np_exp := np_exp sample_world |}.

(** * The chat application (main.py) *)

(** ** Text helpers

    [str.strip], [str.split], [str.lower], [str.upper], [in] and [==] on
    [str]. *)

Definition nl : str := [10%N].
Definition dq : str := [34%N].

(** [sep.join(l)] *)
Fixpoint join (sep : str) (l : list str) : str :=
  match l with
  | [] => []
  | [x] => x
  | x :: l' => x ++ sep ++ join sep l'
  end.

(** The lines of a text, joined with newlines. *)
Definition unlines (l : list str) : str := join nl l.

Definition py_isspace (c : N) : bool := Unicode.is_space c.

Fixpoint lstrip_ws (l : str) : str :=
  match l with
  | c :: l' => if py_isspace c then lstrip_ws l' else l
  | [] => []
  end.

(** [s.strip()] *)
Definition str_strip (s : str) : str :=
  rev (lstrip_ws (rev (lstrip_ws s))).

(** [s.split()[0]], when there is a first word. *)
Definition first_word (s : str) : option str :=
  match lstrip_ws s with
  | [] => None
  | l => Some (take_while (fun c => negb (py_isspace c)) l)
  end.

(** Whether a capital sigma is the last letter of its word: a cased
    letter comes before it and none after it, characters that case
    ignores set aside. [before] is what precedes the sigma, nearest
    first. *)
Definition final_sigma (before after : str) : bool :=
  match drop_while Unicode.is_case_ignorable before with
  | c :: _ =>
      Unicode.is_cased c
      && match drop_while Unicode.is_case_ignorable after with
         | d :: _ => negb (Unicode.is_cased d)
         | [] => true
         end
  | [] => false
  end.

(** The lower case of the character [c] between [before] and [after]. *)
Definition lower_char (before : str) (c : N) (after : str) : str :=
  if (c =? 0x3a3)%N
  then [if final_sigma before after then 0x3c2%N else 0x3c3%N]
  else Unicode.to_lower_full c.

Fixpoint lower_from (before : str) (s : str) : str :=
  match s with
  | [] => []
  | c :: s' => lower_char before c s' ++ lower_from (c :: before) s'
  end.

(** [s.lower()] *)
Definition str_lower (s : str) : str := lower_from [] s.

(** [s.upper()] *)
Definition str_upper (s : str) : str := flat_map Unicode.to_upper_full s.

(** [a == b] *)
Fixpoint str_eqb (a b : str) : bool :=
  match a, b with
  | [], [] => true
  | c :: a', d :: b' => (c =? d)%N && str_eqb a' b'
  | _, _ => false
  end.

(** [x in l] for a list [l] *)
Definition str_in (x : str) (l : list str) : bool := existsb (str_eqb x) l.

(** [hay.startswith(needle)] *)
Fixpoint str_prefix (needle hay : str) : bool :=
  match needle, hay with
  | [], _ => true
  | c :: needle', d :: hay' => (c =? d)%N && str_prefix needle' hay'
  | _ :: _, [] => false
  end.

(** [needle in hay] on texts: [needle] occurs at some position. *)
Fixpoint str_contains (needle hay : str) : bool :=
  str_prefix needle hay
  || match hay with
     | [] => false
     | _ :: hay' => str_contains needle hay'
     end.

(** The characters of ASCII in a text. *)
Definition ascii_only (s : str) : str :=
  List.filter (fun c => (c <? 128)%N) s.

Definition is_ascii (s : str) : Prop := Forall (fun c => (c < 128)%N) s.

Module Chat.

Record Client : Type := mkClient {
  api_key : string
}.

(** What [generate_content] gives back: the [text] attribute, which may be
    absent or [None], or fail to compute, and [str(response)]. *)
Record GenResponse : Type := mkGenResponse {
  resp_text : Res (option str);
  resp_str : str
}.

(** The environment variable read at import and the Gemini library. *)
Record Gemini : Type := mkGemini {
  _GEMINI_KEY : option string;                   (* os.getenv("GEMINI_API_KEY") *)
  new_client : string -> Res Client;             (* genai.Client(api_key=...) *)
  generate_content :
    Client -> string -> str -> Res GenResponse;  (* model, contents *)
  json_dumps : PyVal -> str                      (* json.dumps *)
}.

(** The module global [_client] and the requests made to the service so
    far, each with its model name and contents. *)
Record ChatProc : Type := mkChatProc {
  _client : option Client;
  sent : list (string * str)
}.

Definition get_genai_client (g : Gemini) : M ChatProc (option Client) :=
  cur <- gets _client ;;
  match cur with
  | Some c => ret (Some c)
  | None =>
      match _GEMINI_KEY g with
      | None => ret None
      | Some key =>
          if String.eqb key "" then ret None
          else
            c <- lift_res (new_client g key) ;;
            modify (fun p => {| _client := Some c; sent := sent p |}) ;;;
            ret (Some c)
      end
  end.

Definition FINANCE_KEYWORDS : list str :=
  map chars
    [ "expense"; "spend"; "spending"; "budget"; "savings"; "save"; "loan"; "emi";
      "interest"; "credit card"; "card"; "transactions"; "balance"; "investment";
      "mutual fund"; "sip"; "tax"; "insurance"; "mortgage"; "net worth";
      "salary"; "paycheck"; "retirement"; "financial"; "broker" ].

Definition REFUSAL : str :=
  chars "I can only answer finance-related questions inside this app.".

Definition SYSTEM_PROMPT : str :=
  unlines
    [ chars "";
      chars "You are SmartFinanceBot, an assistant inside a personal finance app.";
      chars "";
      chars "Rules:";
      chars "- Only respond to finance-related user queries:";
      chars "  budgeting, savings, loans, EMI, credit cards, insurance, investments,";
      chars "  taxes, spending analysis, financial literacy, and user's own finance data.";
      chars "- If question is NOT finance-related, reply exactly:";
      chars "  " ++ dq ++ REFUSAL ++ dq;
      chars "";
      chars "- Never reveal unmasked personal data (card numbers, account numbers).";
      chars "- Provide helpful and simple explanations.";
      chars "- For legal/tax advice, tell user to contact a real professional.";
      chars "" ].

Record ChatRequest : Type := mkChatRequest {
  userId : string;
  message : str;
  locale : option string
}.

Record ChatResponse : Type := mkChatResponse {
  reply : str;
  intent : string;
  topic : str;
  usedUserData : bool
}.

Definition FINANCE : str := chars "FINANCE".
Definition NON_FINANCE : str := chars "NON_FINANCE".

Definition looks_finance_by_keywords (text : str) : bool :=
  let text_l := str_lower text in
  existsb (fun kw => str_contains kw text_l) FINANCE_KEYWORDS.

Definition GEMINI_MODEL : string := "gemini-2.5-flash".

(** [client.models.generate_content(model=..., contents=...)] *)
Definition call_generate (g : Gemini) (c : Client) (contents : str)
    : M ChatProc GenResponse :=
  modify (fun p => {| _client := _client p;
                      sent := sent p ++ [(GEMINI_MODEL, contents)] |}) ;;;
  lift_res (generate_content g c GEMINI_MODEL contents).

(** [getattr(resp, "text", None) or str(resp)] *)
Definition text_or_str (resp : GenResponse) : M ChatProc str :=
  t <- lift_res (resp_text resp) ;;
  match t with
  | Some t => if str_eqb t [] then ret (resp_str resp) else ret t
  | None => ret (resp_str resp)
  end.

Definition classify_prompt (text : str) : str :=
  concat
    [ chars "Classify this message as FINANCE or NON_FINANCE."; nl;
      chars "Return only the one word."; nl; nl;
      chars "Message: "; dq; text; dq ].

(** The [try] block returns the token or falls through; the [except]
    clause swallows whatever was raised (the console output of [print] is
    not part of the state). An answer with no first word makes [split()[0]]
    raise; the handler does not look at the error, raised here as
    [ValueError]. *)
Definition classify_with_gemini (g : Gemini) (text : str)
    : M ChatProc str :=
  client <- get_genai_client g ;;
  match client with
  | None => ret NON_FINANCE
  | Some client =>
      let prompt := classify_prompt text in
      found <- try_except
                 (resp <- call_generate g client prompt ;;
                  content <- text_or_str resp ;;
                  word <- lift_opt ValueError (first_word (str_strip content)) ;;
                  let token := str_upper word in
                  if str_in token [FINANCE; NON_FINANCE]
                  then ret (Some token) else ret None)
                 (fun _ => ret None) ;;
      match found with
      | Some token => ret token
      | None => ret NON_FINANCE
      end
  end.

Definition get_user_finance_context (user_id : string) : PyVal :=
  VDict
    [ ("healthScore", VInt 72);
      ("recentTransactions",
       VList
         [ VDict [ ("date", VStr "2025-11-10"); ("merchant", VStr "Zomato");
                   ("amount", VFloat 420.50); ("category", VStr "Food & Dining") ];
           VDict [ ("date", VStr "2025-11-09"); ("merchant", VStr "SBI Card");
                   ("amount", VFloat 15000.0); ("category", VStr "EMI") ] ]);
      ("budgets", VDict [ ("food", VInt 5000); ("entertainment", VInt 2000) ]);
      ("anomalies", VList []) ].

(** The generation prompt, an f-string over the context and the masked
    message. *)
Definition full_prompt (context_json masked_msg : str) : str :=
  unlines
    [ chars "";
      chars "System instructions:";
      SYSTEM_PROMPT;
      chars "";
      chars "User Finance Context (JSON, masked):";
      context_json;
      chars "";
      chars "User question:";
      masked_msg;
      chars "";
      chars "Respond concisely using the data above.";
      chars "" ].

(** [main.py] repeats [mask_personal_data] of [anomaly_router.py] word for
    word; the same definition serves both. *)
Definition chat_endpoint (g : Gemini) (req : ChatRequest)
    : M ChatProc ChatResponse :=
  let user_id := userId req in
  let msg := str_strip (message req) in
  if String.eqb user_id "" || str_eqb msg [] then
    raise (HTTPException 400 "userId and message required")
  else
    topic <- (if looks_finance_by_keywords msg then ret FINANCE
              else classify_with_gemini g msg) ;;
    if negb (str_eqb topic FINANCE) then
      ret {| reply := REFUSAL; intent := "OUT_OF_DOMAIN"; topic := topic;
             usedUserData := false |}
    else
      client <- get_genai_client g ;;
      match client with
      | None => raise (HTTPException 503 "LLM not configured. Contact admin.")
      | Some client =>
          let context := get_user_finance_context user_id in
          let context_json := json_dumps g context in
          let masked_msg := mask_personal_data msg in
          let prompt := full_prompt context_json masked_msg in
          reply_text <- try_except
                          (response <- call_generate g client prompt ;;
                           text_or_str response)
                          (fun _ => raise (HTTPException 502 "LLM service error")) ;;
          ret {| reply := str_strip reply_text; intent := "FINANCE_QUERY";
                 topic := FINANCE; usedUserData := true |}
      end.

(** The state after a request to the service. *)
Definition record_sent (contents : str) (p : ChatProc) : ChatProc :=
  {| _client := _client p; sent := sent p ++ [(GEMINI_MODEL, contents)] |}.

(** The state after the client was created. *)
Definition with_client (c : Client) (p : ChatProc) : ChatProc :=
  {| _client := Some c; sent := sent p |}.

(** The key, when the environment gives a usable one. *)
Definition usable_key (g : Gemini) : option string :=
  match _GEMINI_KEY g with
  | Some key => if String.eqb key "" then None else Some key
  | None => None
  end.

(** The text read off a response. *)
Definition answer_text (resp : GenResponse) : Res str :=
  match resp_text resp with
  | Ok (Some t) => if str_eqb t [] then Ok (resp_str resp) else Ok t
  | Ok None => Ok (resp_str resp)
  | Raise e => Raise e
  end.

(** The topic the classifier path arrives at, given the client. *)
Definition classified (g : Gemini) (c : Client) (text : str) : str :=
  match generate_content g c GEMINI_MODEL (classify_prompt text) with
  | Ok resp =>
      match answer_text resp with
      | Ok content =>
          match first_word (str_strip content) with
          | Some word =>
              if str_in (str_upper word) [FINANCE; NON_FINANCE]
              then str_upper word else NON_FINANCE
          | None => NON_FINANCE
          end
      | Raise _ => NON_FINANCE
      end
  | Raise _ => NON_FINANCE
  end.

(** The generation request for a message. *)
Definition generation_prompt (g : Gemini) (user_id : string) (msg : str) : str :=
  full_prompt (json_dumps g (get_user_finance_context user_id))
    (mask_personal_data msg).

Definition http_400 : PyExc := HTTPException 400 "userId and message required".
Definition http_503 : PyExc := HTTPException 503 "LLM not configured. Contact admin.".
Definition http_502 : PyExc := HTTPException 502 "LLM service error".

Definition refusal (topic : str) : ChatResponse :=
  {| reply := REFUSAL; intent := "OUT_OF_DOMAIN"; topic := topic;
     usedUserData := false |}.

(** The same endpoint as a case tree over what the library returns: the
    outcome and the state it leaves. *)
Definition client_step (g : Gemini) (p : ChatProc)
    : Res (option Client) * ChatProc :=
  match _client p with
  | Some c => (Ok (Some c), p)
  | None =>
      match usable_key g with
      | None => (Ok None, p)
      | Some key =>
          match new_client g key with
          | Ok c => (Ok (Some c), with_client c p)
          | Raise e => (Raise e, p)
          end
      end
  end.

Definition generated (g : Gemini) (c : Client) (prompt : str)
    : Res ChatResponse :=
  match generate_content g c GEMINI_MODEL prompt with
  | Ok resp =>
      match answer_text resp with
      | Ok t => Ok {| reply := str_strip t; intent := "FINANCE_QUERY";
                      topic := FINANCE; usedUserData := true |}
      | Raise _ => Raise http_502
      end
  | Raise _ => Raise http_502
  end.

Definition answer_phase (g : Gemini) (user_id : string) (msg : str)
    (p : ChatProc) : Res ChatResponse * ChatProc :=
  match client_step g p with
  | (Ok (Some c), p1) =>
      (generated g c (generation_prompt g user_id msg),
       record_sent (generation_prompt g user_id msg) p1)
  | (Ok None, p1) => (Raise http_503, p1)
  | (Raise e, p1) => (Raise e, p1)
  end.

Definition chat_outcome (g : Gemini) (req : ChatRequest) (p : ChatProc)
    : Res ChatResponse * ChatProc :=
  let msg := str_strip (message req) in
  if String.eqb (userId req) "" || str_eqb msg [] then (Raise http_400, p)
  else if looks_finance_by_keywords msg then answer_phase g (userId req) msg p
  else
    match client_step g p with
    | (Ok (Some c), p1) =>
        let p2 := record_sent (classify_prompt msg) p1 in
        if str_eqb (classified g c msg) FINANCE
        then answer_phase g (userId req) msg p2
        else (Ok (refusal (classified g c msg)), p2)
    | (Ok None, p1) => (Ok (refusal NON_FINANCE), p1)
    | (Raise e, p1) => (Raise e, p1)
    end.

(** A service that answers every request with the same text. *)
Definition echo_service (key : option string) (answer : str) : Gemini :=
  {| _GEMINI_KEY := key;
     new_client := fun k => Ok {| api_key := k |};
     generate_content := fun _ _ _ =>
       Ok {| resp_text := Ok (Some answer); resp_str := chars "<response>" |};
     json_dumps := fun _ => chars "{}" |}.

Definition fresh : ChatProc := {| _client := None; sent := [] |}.

End Chat.

(** * The advice server (serverFinAI/server/main.py) *)

Module Advice.

Record TextPrompt : Type := mkTextPrompt {
  prompt : str;
  context : option (list (string * PyVal))
}.

Record APIResponse : Type := mkAPIResponse {
  success : bool;
  response : str;
  error : option string
}.

(** The [text] attribute of what the model returns: absent or [None], a
    string, or an error raised on access. *)
Record GenResponse : Type := mkGenResponse {
  text : Res (option str)
}.

Record Service : Type := mkService {
  generate_content : str -> Res GenResponse;      (* model.generate_content *)
  json_dumps : PyVal -> Res str                   (* json.dumps(..., indent=2) *)
}.

Definition FINANCE_SYSTEM_PROMPT : str :=
  unlines
    (map chars
    [ "You are FinAI, an AI-powered personal finance assistant inside a mobile app.";
      "Your ONLY job is to help users understand, analyze, and improve their personal finances.";
      "";
      "CRITICAL BEHAVIOR RULES:";
      "- Stay strictly within the domain of personal finance, budgeting, savings, spending analysis, debt management, credit cards, and basic investing concepts.";
      "- If the user asks for anything unrelated to money/finance, politely refuse and redirect them back to financial topics.";
      "- Never roleplay, tell stories, generate code, or answer questions about unrelated domains (e.g., medicine, politics, entertainment, relationships, exams, coding, agriculture, etc.).";
      "";
      "APP CONTEXT:";
      "- The app automatically reads and categorizes transaction SMS and bank data (using NLP).";
      "- It computes a Financial Health Score based on income, expenses, savings, debts, and risk signals.";
      "- It detects unusual/anomalous spending patterns and risky transactions.";
      "- It provides personalized, actionable tips to help users budget better, save more, and avoid unnecessary risk.";
      "";
      "TONE & STYLE:";
      "- Be concise, clear, and friendly.";
      "- Explain concepts in simple language so that a non-expert can understand.";
      "- Prefer short paragraphs and bullet points.";
      "- When giving suggestions, be practical and realistic. Avoid generic motivational quotes.";
      "";
      "HOW TO ANSWER:";
      "1. When the user asks general finance questions:";
      "   - Explain the concept briefly.";
      "   - Show simple, concrete examples with numbers.";
      "   - If relevant, suggest simple actions they can take.";
      "";
      "2. When the user asks about their own finances (e.g., “Am I spending too much on X?”):";
      "   - Ask for any missing key details (income, typical monthly expenses, debts, timeframe).";
      "   - Then respond with a structured analysis and 2–4 specific recommendations.";
      "";
      "3. When the user mentions risky behavior (e.g., high-interest loans, heavy credit card usage):";
      "   - Clearly highlight the risk.";
      "   - Suggest safer alternatives or mitigation steps.";
      "   - Emphasize long-term financial health.";
      "";
      "4. When you are NOT sure or data is missing:";
      "   - Be honest. Say “I don’t have enough information to be precise, but here is a safe general guideline…”";
      "   - Never fabricate numbers, transactions, or user data.";
      "";
      "SAFETY & LIMITS:";
      "- Do NOT give legal, tax, or investment advice that sounds like a guarantee.";
      "- Use language like “general information”, “this is not professional advice”, and “please consult a qualified financial advisor or tax professional for decisions involving large amounts or legal implications.”";
      "- Do NOT recommend specific stocks, individual crypto coins, or high-risk speculative products.";
      "- You may talk about broad asset classes (e.g., equity mutual funds, index funds, fixed deposits) in a generic, educational way.";
      "";
      "IF THE USER'S MESSAGE IS OFF-TOPIC:";
      "- Say something like: “I am designed only for personal finance guidance. Let us talk about your money, spending, saving, or financial goals.”";
      "- Then offer a helpful finance-related follow-up question.";
      "";
      "Your primary goal: help the user make better day-to-day financial decisions, understand their money patterns, and build healthier financial habits over time.";
      "" ]).

Definition NO_QUESTION : string := "Please provide a finance-related question.".
Definition NO_ANSWER : string := "No response generated. Please try again.".
Definition TROUBLE : string :=
  "Sorry, I'm having trouble processing your request. Please try again later.".

Definition failure (msg : string) : APIResponse :=
  {| success := false; response := []; error := Some msg |}.

(** The f-string of the request. *)
Definition full_prompt (context_json user_prompt : str) : str :=
  unlines
    [ chars "";
      FINANCE_SYSTEM_PROMPT;
      chars "";
      chars "Below is the user's current financial data in JSON format.";
      chars "Use ONLY this data for any numbers, amounts, or statistics.";
      chars "If something is missing, say so and give general guidance instead of guessing.";
      chars "";
      chars "USER DATA (JSON):";
      context_json;
      chars "";
      chars "USER QUESTION:";
      user_prompt;
      chars "";
      chars "INSTRUCTIONS:";
      chars "- Do not invent or assume any transactions or amounts.";
      chars "- If you mention any number, it must come from the JSON above.";
      chars "- If the question asks for a summary, first restate the key numbers, then give 2–4 practical suggestions.";
      chars "- Keep the answer concise and friendly.";
      chars "" ].

(** The state is the list of prompts sent to the model so far. *)
Definition call_generate (sv : Service) (contents : str)
    : M (list str) GenResponse :=
  modify (fun sent => sent ++ [contents]) ;;;
  lift_res (generate_content sv contents).

(** The whole body is inside [try]; the handler answers with the generic
    failure (the console output of [print] is not part of the state). *)
Definition generate_finance_advice (sv : Service) (body : TextPrompt)
    : M (list str) APIResponse :=
  try_except
    (let user_prompt := str_strip (prompt body) in
     if str_eqb user_prompt [] then ret (failure NO_QUESTION)
     else
       let context_data := default [] (context body) in
       context_json <- lift_res (json_dumps sv (VDict context_data)) ;;
       response <- call_generate sv (full_prompt context_json user_prompt) ;;
       t <- lift_res (text response) ;;
       match t with
       | Some t =>
           if str_eqb t [] then ret (failure NO_ANSWER)
           else ret {| success := true; response := t; error := None |}
       | None => ret (failure NO_ANSWER)
       end)
    (fun _ => ret (failure TROUBLE)).

(** A model that answers every prompt with the same text. *)
Definition constant_model (answer : option str) : Service :=
  {| generate_content := fun _ => Ok {| text := Ok answer |};
     json_dumps := fun _ => Ok (chars "{}") |}.

End Advice.

(** * Properties *)

(** ** Floats *)

Section FloatFacts.

Lemma SF_le_not_gt x y : SFleb x y = true -> SFltb y x = false.
Proof.
  unfold SFleb, SFltb.
  destruct x as [[]|[]| |[] mx ex], y as [[]|[]| |[] my ey]; simpl; try easy;
    rewrite (Z.compare_antisym ex ey); destruct (ex ?= ey); simpl; try easy;
    rewrite !Pos.compare_cont_spec; simpl; rewrite (Pos.compare_antisym mx my);
    destruct (mx ?= my)%positive; simpl; easy.
Qed.

Lemma le_not_gt a b : PyFloat.le a b = true -> PyFloat.gt a b = false.
Proof.
  unfold PyFloat.le, PyFloat.gt. rewrite leb_spec, ltb_spec.
  apply SF_le_not_gt.
Qed.

Lemma SFmul_comm p e x y : SFmul p e x y = SFmul p e y x.
Proof.
  destruct x as [sx|sx| |sx mx ex], y as [sy|sy| |sy my ey]; simpl;
    try reflexivity; try (f_equal; apply xorb_comm).
  by rewrite (xorb_comm sx sy), (Pos.mul_comm mx my), (Z.add_comm ex ey).
Qed.

Lemma fmul_comm a b : (a * b = b * a)%float.
Proof. apply Prim2SF_inj. rewrite !mul_spec. apply SFmul_comm. Qed.

(** The score for each possible number of reasons. *)
Lemma score_table :
  map (fun k => PyFloat.py_min 1 (PyFloat.of_nat k / 5)) (seq 0 8) =
  [0; 0.2; 0.4; 0.6; 0.8; 1; 1; 1]%float.
Proof. vm_compute. reflexivity. Qed.

End FloatFacts.

(** ** Running computations *)

Lemma bind_run {S A B} (m : M S A) (k : A -> M S B) (s : S) :
  bind m k s =
  match m s with
  | (Ok a, s1, t1) => (outcome (k a s1), final (k a s1), t1 ++ calls (k a s1))
  | (Raise e, s1, t1) => (Raise e, s1, t1)
  end.
Proof.
  unfold bind, outcome, final, calls.
  destruct (m s) as [[[a|e] s1] t1]; [|reflexivity].
  by destruct (k a s1) as [[r s2] t2].
Qed.

Lemma read_only_ret {S A} (a : A) : read_only (S:=S) (ret a).
Proof. by intros s. Qed.

Lemma read_only_raise {S A} e : read_only (S:=S) (A:=A) (raise e).
Proof. by intros s. Qed.

Lemma read_only_gets {S A} (f : S -> A) : read_only (gets f).
Proof. by intros s. Qed.

Lemma read_only_emit {S} ev : read_only (S:=S) (emit ev).
Proof. by intros s. Qed.

Lemma read_only_lift {S A} (r : Res A) : read_only (S:=S) (lift_res r).
Proof. by intros s. Qed.

Lemma read_only_bind {S A B} (m : M S A) (k : A -> M S B) :
  read_only m -> (forall a, read_only (k a)) -> read_only (bind m k).
Proof.
  intros Hm Hk s. rewrite bind_run. specialize (Hm s).
  destruct (m s) as [[[a|e] s1] t1]; unfold final in *; simpl in *; subst.
  - apply Hk.
  - reflexivity.
Qed.

Lemma read_only_try {S A} (m : M S A) (h : PyExc -> M S A) :
  read_only m -> (forall e, read_only (h e)) -> read_only (try_except m h).
Proof.
  intros Hm Hh s. unfold try_except. specialize (Hm s).
  destruct (m s) as [[[a|e] s1] t1]; unfold final in *; simpl in *; subst.
  - reflexivity.
  - specialize (Hh e s). unfold final in Hh.
    by destruct (h e s) as [[r s2] t2].
Qed.

Create HintDb frame discriminated.
#[local] Hint Resolve read_only_ret read_only_raise read_only_gets
  read_only_emit read_only_lift : frame.
#[local] Hint Extern 2 (read_only (bind _ _)) =>
  apply read_only_bind; [|intros ?] : frame.
#[local] Hint Extern 2 (read_only (try_except _ _)) =>
  apply read_only_try; [|intros ?] : frame.
#[local] Hint Extern 3 (read_only (match ?x with _ => _ end)) =>
  destruct x : frame.
#[local] Hint Extern 3 (read_only (if ?x then _ else _)) =>
  destruct x : frame.

(** ** Hour extraction *)

Lemma meta_hour_run {S} (w : World) (meta : gmap string PyVal) (s : S) :
  meta_hour w meta s =
  (PyInt.py_int (default (VInt (dt_hour (utcnow w))) (meta !! "hour")),
   s, [EvUtcNow]).
Proof. reflexivity. Qed.

Lemma meta_hour_read_only {S} w meta : read_only (S:=S) (meta_hour w meta).
Proof. by intros s. Qed.
#[local] Hint Resolve meta_hour_read_only : frame.

Lemma parse_iso_hour_read_only {S} w ts meta :
  read_only (S:=S) (_parse_iso_hour w ts meta).
Proof.
  unfold _parse_iso_hour, call_fromisoformat. auto 10 with frame.
Qed.
#[local] Hint Resolve parse_iso_hour_read_only : frame.

(** The outcome of the extraction does not depend on the state it runs in. *)
Lemma parse_iso_hour_outcome {S T} w ts meta (s : S) (t : T) :
  outcome (_parse_iso_hour w ts meta s) = outcome (_parse_iso_hour w ts meta t).
Proof.
  unfold _parse_iso_hour. destruct (String.eqb ts ""); [reflexivity|].
  unfold try_except, call_fromisoformat, bind, emit, ret, raise, outcome.
  simpl. by destruct (fromisoformat w _).
Qed.

(** With an empty timestamp the answer is the metadata hour, unchecked. *)
Lemma parse_iso_hour_empty {S} w meta (s : S) :
  _parse_iso_hour w "" meta s = meta_hour w meta s.
Proof. reflexivity. Qed.

(** A timestamp the library parses gives the parsed hour. *)
Lemma parse_iso_hour_parsed {S} w ts meta dt (s : S) :
  ts <> "" ->
  fromisoformat w
    (if endswith_Z ts then String.append (drop_last ts) "+00:00" else ts)
    = Some dt ->
  outcome (_parse_iso_hour w ts meta s) = Ok (dt_hour dt).
Proof.
  intros Hne Hp. unfold _parse_iso_hour.
  destruct (String.eqb_spec ts ""); [done|].
  unfold try_except, call_fromisoformat, bind, emit, ret, outcome. simpl.
  by rewrite Hp.
Qed.

Lemma sample_world_ok : world_ok sample_world.
Proof.
  split; [unfold hour_ok; simpl; lia|].
  intros ts dt. simpl. unfold iso_basic.
  destruct (iso_fields ts) as [d|]; [|done].
  destruct ((0 <=? dt_hour d) && (dt_hour d <=? 23)) eqn:E; [|done].
  intros [= <-]. unfold hour_ok. lia.
Qed.

Example hour_of_utc_timestamp :
  outcome (_parse_iso_hour sample_world "2024-01-01T23:00:00Z" ∅ tt) = Ok 23.
Proof. vm_compute. reflexivity. Qed.

Example hour_of_metadata :
  outcome (_parse_iso_hour sample_world "" {[ "hour" := VInt 3 ]} tt) = Ok 3.
Proof. vm_compute. reflexivity. Qed.

Example hour_of_clock :
  _parse_iso_hour sample_world "next tuesday" ∅ tt
  = (Ok 14, tt, [EvFromIso "next tuesday"; EvUtcNow]).
Proof. vm_compute. reflexivity. Qed.

(** Without a metadata hour the extraction returns, within 0..23. *)
Lemma parse_iso_hour_no_meta {S} w ts meta (s : S) :
  world_ok w -> meta !! "hour" = None ->
  exists h, outcome (_parse_iso_hour w ts meta s) = Ok h /\ hour_ok h.
Proof.
  intros [Hnow Hiso] Hm. unfold _parse_iso_hour.
  destruct (String.eqb ts "").
  - rewrite meta_hour_run, Hm. eauto.
  - unfold try_except, call_fromisoformat, bind, emit, ret, raise, outcome.
    simpl. destruct (fromisoformat w _) as [dt|] eqn:E; simpl.
    + eauto.
    + rewrite Hm. simpl. eauto.
Qed.

(** ** Rule-based detector *)

Lemma append_chain (b1 b2 b3 b4 b5 b6 b7 : bool) (m1 m2 m3 m4 m5 m6 m7 : string) :
  append_if b7 m7 (append_if b6 m6 (append_if b5 m5 (append_if b4 m4
    (append_if b3 m3 (append_if b2 m2 (append_if b1 m1 []))))))
  = select [b1; b2; b3; b4; b5; b6; b7] [m1; m2; m3; m4; m5; m6; m7].
Proof. by destruct b1, b2, b3, b4, b5, b6, b7. Qed.

Lemma select_length {A} (mask : list bool) (l : list A) :
  length mask = length l -> length (select mask l) = count_true mask.
Proof.
  revert l. induction mask as [|b mask IH]; intros [|x l]; simpl; try done.
  intros [= Hl]. destruct b; simpl; by rewrite IH.
Qed.

Lemma select_sublist {A} (mask : list bool) (l : list A) :
  select mask l `sublist_of` l.
Proof.
  revert l. induction mask as [|b mask IH]; intros [|x l]; simpl;
    try apply sublist_nil_l.
  destruct b; [apply sublist_skip | apply sublist_cons]; apply IH.
Qed.

Lemma rule_reasons_NoDup : NoDup rule_reasons.
Proof. compute_done. Qed.

(** What one call of the detector does: extract the hour, then report the
    reasons of the triggered rules. *)
Lemma rule_based_check_run (w : World) (fr : Frame) :
  rule_based_check w fr =
  match _parse_iso_hour w (timestamp (f_tx fr)) (meta (f_tx fr)) fr with
  | (Ok hour, _, t) =>
      (Ok (verdict_of
             (select (triggered (f_tx fr) (f_history fr) hour) rule_reasons)),
       fr, t)
  | (Raise e, _, t) => (Raise e, fr, t)
  end.
Proof.
  pose proof (parse_iso_hour_read_only (S:=Frame) w (timestamp (f_tx fr))
                (meta (f_tx fr)) fr) as Hfr.
  unfold rule_based_check. unfold bind at 1 2 3 4 5 6. simpl.
  rewrite bind_run.
  destruct (_parse_iso_hour w (timestamp (f_tx fr)) (meta (f_tx fr)) fr)
    as [[[hour|e] fr1] t] eqn:E; unfold final in Hfr; simpl in Hfr; subst fr1;
    [|reflexivity].
  unfold bind, gets, ret, outcome, final, calls. simpl.
  rewrite append_chain, app_nil_r. reflexivity.
Qed.

(** The end-to-end transaction against the stub history: rules 1 to 6. *)
Example risky_tx_verdict :
  outcome (detect_rule sample_world risky_tx)
  = Ok {| anomaly := true; score := 1%float;
          reasons := firstn 6 rule_reasons |}.
Proof. vm_compute. reflexivity. Qed.

Lemma rule_based_check_outcome (w : World) (fr : Frame) :
  outcome (rule_based_check w fr) =
  match outcome (_parse_iso_hour w (timestamp (f_tx fr)) (meta (f_tx fr)) fr) with
  | Ok hour =>
      Ok (verdict_of
            (select (triggered (f_tx fr) (f_history fr) hour) rule_reasons))
  | Raise e => Raise e
  end.
Proof.
  rewrite rule_based_check_run. unfold outcome.
  by destruct (_parse_iso_hour _ _ _ _) as [[[hour|e] fr1] t].
Qed.

Lemma triggered_length tx h hour :
  length (triggered tx h hour) = length rule_reasons.
Proof. reflexivity. Qed.

(** C1. The verdict aggregates the triggered rules: with [k] the number of
    rules that trigger, the anomaly flag is true exactly when [k > 0], the
    score is [min(1.0, k / 5.0)] and there are exactly [k] reasons. The
    detector raises only when the hour extraction does. *)
Theorem rule_based_check_aggregation (w : World) (fr : Frame) :
  match outcome (_parse_iso_hour w (timestamp (f_tx fr)) (meta (f_tx fr)) fr) with
  | Ok hour =>
      let k := count_true (triggered (f_tx fr) (f_history fr) hour) in
      exists a s rs,
        outcome (rule_based_check w fr) = Ok (a, s, rs) /\
        (a = true <-> (0 < k)%nat) /\
        s = PyFloat.py_min 1 (PyFloat.of_nat k / 5) /\
        length rs = k
  | Raise e => outcome (rule_based_check w fr) = Raise e
  end.
Proof.
  rewrite rule_based_check_outcome.
  destruct (outcome (_parse_iso_hour _ _ _ _)) as [hour|e]; [|reflexivity].
  intros k. unfold verdict_of.
  rewrite (select_length _ _ (triggered_length _ _ hour)). fold k.
  eexists _, _, _. split; [reflexivity|]. repeat split.
  - by intros ?%Nat.ltb_lt.
  - by intros ?%Nat.ltb_lt.
  - by apply select_length.
Qed.

(** C5. The reasons come out in rule order 1 to 7: they are the entries of
    the fixed reason table at the triggered positions, hence a subsequence
    of the table with no reason twice. *)
Theorem rule_based_check_reason_order (w : World) (fr : Frame) :
  match outcome (_parse_iso_hour w (timestamp (f_tx fr)) (meta (f_tx fr)) fr) with
  | Ok hour =>
      exists a s rs,
        outcome (rule_based_check w fr) = Ok (a, s, rs) /\
        rs = select (triggered (f_tx fr) (f_history fr) hour) rule_reasons /\
        rs `sublist_of` rule_reasons /\
        NoDup rs
  | Raise e => outcome (rule_based_check w fr) = Raise e
  end.
Proof.
  rewrite rule_based_check_outcome.
  destruct (outcome (_parse_iso_hour _ _ _ _)) as [hour|e]; [|reflexivity].
  eexists _, _, _. split; [reflexivity|]. split; [reflexivity|].
  pose proof (select_sublist (triggered (f_tx fr) (f_history fr) hour)
                rule_reasons) as Hsub.
  split; [exact Hsub|]. exact (sublist_NoDup _ _ rule_reasons_NoDup Hsub).
Qed.

Lemma py_in_In (x : string) (l : list string) : In x l -> py_in x l = true.
Proof.
  intros H. unfold py_in. apply existsb_exists. exists x. split; [done|].
  apply String.eqb_refl.
Qed.

(** C2. A transaction within every threshold, at a usual hour, with a
    known merchant, is not flagged: no anomaly, score 0.0, no reasons. *)
Theorem rule_based_check_quiet (w : World) (fr : Frame) (hour : Z) :
  let tx := f_tx fr in
  let h := f_history fr in
  outcome (_parse_iso_hour w (timestamp tx) (meta tx) fr) = Ok hour ->
  6 <= hour <= 23 ->
  PyFloat.le (amount tx) 20000 = true ->
  PyFloat.le (amount tx) (3 * med_of h) = true ->
  PyFloat.le (amount tx) (avg_of h + 3 * std_of h) = true ->
  In (merchant tx) (known_merchants h) ->
  ~ (is_international tx = true /\ PyFloat.gt (amount tx) 1000 = true) ->
  today_of h <= 10 ->
  outcome (rule_based_check w fr) = Ok (false, 0%float, []).
Proof.
  intros tx h Hhour Hrange H1 H2 H3 H5 H6 H7.
  rewrite rule_based_check_outcome. fold tx h. rewrite Hhour.
  unfold triggered.
  rewrite (le_not_gt _ _ H1), (fmul_comm (med_of h) 3), (le_not_gt _ _ H2),
    (le_not_gt _ _ H3), (py_in_In _ _ H5).
  replace ((hour <? 6) || (23 <? hour)) with false by lia.
  replace (is_international tx && PyFloat.gt (amount tx) 1000) with false
    by (destruct (is_international tx), (PyFloat.gt (amount tx) 1000); tauto).
  replace (10 <? today_of h) with false by lia.
  reflexivity.
Qed.

Lemma rule_based_check_quiet_witness :
  outcome (rule_based_check sample_world
             (mkFrame sample_tx (get_user_history_stub "u1")))
  = Ok (false, 0%float, []).
Proof.
  apply (rule_based_check_quiet sample_world
           (mkFrame sample_tx (get_user_history_stub "u1")) 12).
  - vm_compute. reflexivity.
  - lia.
  - vm_compute. reflexivity.
  - vm_compute. reflexivity.
  - vm_compute. reflexivity.
  - simpl. tauto.
  - simpl. intros [H _]. discriminate H.
  - simpl. unfold today_of. simpl. lia.
Defined.

Lemma fifth_rule_verdict (b1 b2 b3 b4 b6 b7 : bool) :
  let rs := select [b1; b2; b3; b4; true; b6; b7] rule_reasons in
  (0 <? length rs)%nat = true /\
  PyFloat.le 0.2 (PyFloat.py_min 1 (PyFloat.of_nat (length rs) / 5)) = true /\
  In "Merchant is new/unfamiliar" rs.
Proof.
  destruct b1, b2, b3, b4, b6, b7; (split; [|split]);
    try (vm_compute; reflexivity); simpl; tauto.
Qed.

(** Rule 5 with no merchant list: whenever the hour extraction yields an
    hour, the transaction is flagged, with score at least 0.2. *)
Lemma unknown_merchant_fires (w : World) (fr : Frame) :
  merchants (f_history fr) = None ->
  match outcome (_parse_iso_hour w (timestamp (f_tx fr)) (meta (f_tx fr)) fr) with
  | Ok hour =>
      exists s rs,
        outcome (rule_based_check w fr) = Ok (true, s, rs) /\
        PyFloat.le 0.2 s = true /\
        In "Merchant is new/unfamiliar" rs
  | Raise e => outcome (rule_based_check w fr) = Raise e
  end.
Proof.
  intros Hm. rewrite rule_based_check_outcome.
  destruct (outcome (_parse_iso_hour _ _ _ _)) as [hour|e]; [|reflexivity].
  unfold triggered, known_merchants. rewrite Hm. simpl (negb _).
  match goal with
  | |- context [select [?b1; ?b2; ?b3; ?b4; true; ?b6; ?b7] _] =>
      destruct (fifth_rule_verdict b1 b2 b3 b4 b6 b7) as (Ha & Hs & Hin)
  end.
  unfold verdict_of. rewrite Ha. eauto.
Qed.

(** C10. At a request whose metadata hour is [None] and whose timestamp is
    empty, with a history that has no merchant list, the detector raises
    before it reaches rule 5. *)
Theorem rule_based_check_raises_before_rule5 (w : World) :
  merchants no_history = None /\
  outcome (rule_based_check w (mkFrame (tx_meta_hour VNone) no_history))
  = Raise TypeError.
Proof. split; [reflexivity|]. rewrite rule_based_check_outcome. reflexivity. Qed.

(** C3. The metadata hour is returned as it is: with an empty timestamp and
    [meta = {"hour": 99}] the extraction returns 99, outside 0..23, and
    rule 4 then fires through its [hour > 23] branch. *)
Theorem parse_iso_hour_unchecked_meta_hour (w : World) :
  outcome (_parse_iso_hour w "" {[ "hour" := VInt 99 ]} tt) = Ok 99 /\
  ~ hour_ok 99 /\
  (99 <? 6) = false /\
  outcome (rule_based_check w
             (mkFrame (tx_meta_hour (VInt 99)) (get_user_history_stub "u1")))
  = Ok (true, 0.2%float, ["Transaction at unusual hour"]).
Proof.
  split; [reflexivity|]. split; [unfold hour_ok; lia|]. split; [reflexivity|].
  rewrite rule_based_check_outcome. vm_compute. reflexivity.
Qed.

(** C4. The fallback conversion is outside the [try]: a metadata hour that
    [int] rejects makes the extraction, and the endpoint over it, raise. *)
Theorem parse_iso_hour_raises (w : World) :
  outcome (_parse_iso_hour w "" {[ "hour" := VNone ]} tt) = Raise TypeError /\
  outcome (_parse_iso_hour w "" {[ "hour" := VStr "noon" ]} tt)
    = Raise ValueError /\
  outcome (_parse_iso_hour sample_world "yesterday" {[ "hour" := VNone ]} tt)
    = Raise TypeError /\
  outcome (detect_rule w (tx_meta_hour (VStr "noon"))) = Raise ValueError.
Proof.
  split; [reflexivity|]. split; [reflexivity|]. split; [reflexivity|].
  reflexivity.
Qed.

Lemma with_history_read_only {A} (h : History) (m : M Frame A) :
  read_only m -> read_only (with_history h m).
Proof.
  intros Hm tx. unfold with_history. specialize (Hm (mkFrame tx h)).
  unfold final in *. destruct (m _) as [[r fr] t]. simpl in *. by subst.
Qed.

Lemma rule_based_check_read_only (w : World) : read_only (rule_based_check w).
Proof.
  intros fr. rewrite rule_based_check_run.
  by destruct (_parse_iso_hour _ _ _ _) as [[[hour|e] fr1] t].
Qed.

(** C9. The rule-based detector leaves the transaction and the history as
    they were, whether it returns or raises; so does the endpoint, whose
    masked merchant is a local value and whose verdict is computed on the
    transaction as received. *)
Theorem rule_based_check_frame (w : World) :
  (forall fr, final (rule_based_check w fr) = fr) /\
  (forall tx, final (detect_rule w tx) = tx) /\
  (forall tx,
     outcome (detect_rule w tx) =
     match outcome (rule_based_check w
                      (mkFrame tx (get_user_history_stub (userId tx)))) with
     | Ok v => Ok (to_resp v)
     | Raise e => Raise e
     end).
Proof.
  split; [apply rule_based_check_read_only|]. split.
  - intros tx. unfold detect_rule.
    assert (Hro : read_only (detect_rule w)); [|exact (Hro tx)].
    unfold detect_rule.
    pose proof (fun h => with_history_read_only h _
                           (rule_based_check_read_only w)).
    auto 10 with frame.
  - intros tx. unfold detect_rule, with_history, bind, gets, emit, ret, outcome.
    simpl. by destruct (rule_based_check w _) as [[[v|e] fr] t].
Qed.

(** ** PII masking *)

Section RegexSubFacts.
Context {A : Type} (isd : A -> bool) (tok : list A).


Lemma sub_nil : (sub_digits8 isd tok) [] = [].
Proof. by simp sub_digits8. Qed.

Lemma sub_match c l n :
(match_at isd) (c :: l) = Some n -> (sub_digits8 isd tok) (c :: l) = tok ++ (sub_digits8 isd tok) (drop n (c :: l)).
Proof.
intros H. rewrite sub_digits8_equation_2.
destruct (Logic.inspect ((match_at isd) (c :: l))) as [[m|] Hm]; simpl; congruence.
Qed.

Lemma sub_nomatch c l :
(match_at isd) (c :: l) = None -> (sub_digits8 isd tok) (c :: l) = c :: (sub_digits8 isd tok) l.
Proof.
intros H. rewrite sub_digits8_equation_2.
destruct (Logic.inspect ((match_at isd) (c :: l))) as [[m|] Hm]; simpl; congruence.
Qed.

Lemma take_drop_while p (l : list A) : take_while p l ++ drop_while p l = l.
Proof.
induction l as [|c l IH]; simpl; [done|]. destruct (p c); simpl; congruence.
Qed.

Lemma drop_take_while p (l : list A) :
drop (length (take_while p l)) l = drop_while p l.
Proof.
induction l as [|c l IH]; simpl; [done|]. destruct (p c); simpl; congruence.
Qed.

Lemma take_while_all p (l : list A) : forallb p (take_while p l) = true.
Proof.
induction l as [|c l IH]; simpl; [done|].
destruct (p c) eqn:E; simpl; [|done]. by rewrite E.
Qed.

Lemma take_while_ext p q (l : list A) :
(forall x, p x = q x) -> take_while p l = take_while q l.
Proof. intros E. induction l as [|c l IH]; simpl; [done|]. by rewrite E, IH. Qed.

Lemma drop_while_ext p q (l : list A) :
(forall x, p x = q x) -> drop_while p l = drop_while q l.
Proof. intros E. induction l as [|c l IH]; simpl; [done|]. by rewrite E, IH. Qed.

Lemma take_while_drop_while p (l : list A) : take_while p (drop_while p l) = [].
Proof.
induction l as [|c l IH]; simpl; [done|].
destruct (p c) eqn:E; [done|]. simpl. by rewrite E.
Qed.

Lemma take_while_app_all p (b rest : list A) :
forallb p b = true -> take_while p rest = [] -> take_while p (b ++ rest) = b.
Proof.
induction b as [|c b IH]; simpl; [done|].
intros [-> Hb]%andb_prop Hr. by rewrite IH.
Qed.

Lemma match_at_Some l n :
(match_at isd) l = Some n -> n = length ((digits_at isd) l) /\ (8 <= n)%nat.
Proof.
unfold match_at.
destruct (Nat.leb_spec 8 (length ((digits_at isd) l))); [|discriminate].
by intros [= <-].
Qed.

Lemma match_at_None l : (match_at isd) l = None <-> (length ((digits_at isd) l) < 8)%nat.
Proof.
unfold match_at.
destruct (Nat.leb_spec 8 (length ((digits_at isd) l))); split; (lia || done).
Qed.

Lemma match_at_nondigit c l : isd c = false -> (match_at isd) (c :: l) = None.
Proof.
intros H. apply match_at_None. unfold digits_at. simpl.
rewrite H. simpl. lia.
Qed.

Lemma match_at_digit_tail c l :
(match_at isd) (c :: l) = None -> isd c = true -> (match_at isd) l = None.
Proof.
rewrite !match_at_None. unfold digits_at. simpl.
intros H E. rewrite E in H. simpl in H. lia.
Qed.

(** Where the pattern matches nowhere, the substitution copies. *)
Lemma sub_clean_id l : (clean isd) l -> (sub_digits8 isd tok) l = l.
Proof.
induction l as [|c l IH]; [intros _; apply sub_nil|].
intros [Hm Hc]. by rewrite (sub_nomatch _ _ Hm), (IH Hc).
Qed.

Lemma digits_at_sub l : (match_at isd) l = None -> (digits_at isd) ((sub_digits8 isd tok) l) = (digits_at isd) l.
Proof.
induction l as [|c l IH]; intros Hm; [by rewrite sub_nil|].
rewrite (sub_nomatch _ _ Hm). unfold digits_at. simpl.
destruct (isd c) eqn:E; [|done]. f_equal. apply IH.
by apply (match_at_digit_tail c).
Qed.

Lemma match_at_cons_sub c l :
(match_at isd) (c :: l) = None -> (match_at isd) (c :: (sub_digits8 isd tok) l) = None.
Proof.
intros Hm. destruct (isd c) eqn:E; [|by apply match_at_nondigit].
pose proof (digits_at_sub l (match_at_digit_tail _ _ Hm E)) as Hd.
apply match_at_None. apply match_at_None in Hm.
unfold digits_at in *. simpl in *. rewrite E in *. simpl in *.
rewrite Hd. lia.
Qed.

Lemma clean_app_nodigit t l : (no_digit isd) t -> (clean isd) l -> (clean isd) (t ++ l).
Proof.
unfold no_digit. induction t as [|x t IH]; simpl; [done|].
intros [Hx Ht]%andb_prop Hl. split; [|by apply IH].
apply match_at_nondigit. by destruct (isd x).
Qed.

(** The output holds no match, provided the token holds no digit. *)
Lemma sub_clean l : (no_digit isd) tok -> (clean isd) ((sub_digits8 isd tok) l).
Proof.
intros Htok.
induction l as [l IH] using (induction_ltof1 _ (@length A)).
unfold ltof in IH. destruct l as [|c l]; [by rewrite sub_nil|].
destruct ((match_at isd) (c :: l)) as [n|] eqn:Hm.
- rewrite (sub_match _ _ _ Hm). apply clean_app_nodigit; [done|].
  apply IH. apply match_at_Some in Hm as [_ Hn].
  rewrite length_drop. simpl. lia.
- rewrite (sub_nomatch _ _ Hm). split.
  + by apply match_at_cons_sub.
  + apply IH. simpl. lia.
Qed.

Lemma sub_idempotent l : (no_digit isd) tok -> (sub_digits8 isd tok) ((sub_digits8 isd tok) l) = (sub_digits8 isd tok) l.
Proof. intros Htok. apply sub_clean_id, sub_clean, Htok. Qed.

Lemma has_long_run_cons c l : has_long_run isd l -> has_long_run isd (c :: l).
Proof. intros (pre & r & post & -> & Hr & Hn). by exists (c :: pre), r, post. Qed.

Lemma no_long_run_clean l : ~ has_long_run isd l -> (clean isd) l.
Proof.
induction l as [|c l IH]; [done|]. intros Hno. split.
- destruct ((match_at isd) (c :: l)) as [n|] eqn:Hm; [|done].
  exfalso. apply Hno. apply match_at_Some in Hm as [-> Hn].
  exists [], ((digits_at isd) (c :: l)), (drop_while isd (c :: l)).
  split; [|split; [apply take_while_all | done]].
  unfold digits_at. by rewrite take_drop_while.
- apply IH. intros H. by apply Hno, has_long_run_cons.
Qed.

Lemma sub_no_long_run l : ~ has_long_run isd l -> (sub_digits8 isd tok) l = l.
Proof. intros H. by apply sub_clean_id, no_long_run_clean. Qed.

(** The first maximal run and what follows it. *)
Lemma runs_cons c l :
runs isd (c :: l) =
(c :: take_while ((same isd) c) l) :: runs isd (drop_while ((same isd) c) l).
Proof.
revert c. induction l as [|d l IH]; intros c; [done|].
change (runs isd (c :: d :: l)) with
  (match runs isd (d :: l) with
   | (d' :: r) :: rs =>
       if Bool.eqb (isd c) (isd d') then (c :: d' :: r) :: rs
       else [c] :: (d' :: r) :: rs
   | rs => [c] :: rs
   end).
rewrite (IH d). simpl take_while. simpl drop_while.
change ((same isd) c d) with (Bool.eqb (isd c) (isd d)).
destruct (Bool.eqb (isd c) (isd d)) eqn:E; [|by rewrite (IH d)].
apply eqb_prop in E.
rewrite (take_while_ext ((same isd) c) ((same isd) d)), (drop_while_ext ((same isd) c) ((same isd) d));
  [done| |]; intros x; unfold same; by rewrite E.
Qed.

Lemma sub_copy_nodigit b rest : (no_digit isd) b -> (sub_digits8 isd tok) (b ++ rest) = b ++ (sub_digits8 isd tok) rest.
Proof.
unfold no_digit. induction b as [|c b IH]; simpl; [done|].
intros [Hc Hb]%andb_prop. rewrite sub_nomatch, IH; [done..|].
apply match_at_nondigit. by destruct (isd c).
Qed.

Lemma sub_copy_short b rest :
forallb isd b = true -> (length b < 8)%nat -> (digits_at isd) rest = [] ->
(sub_digits8 isd tok) (b ++ rest) = b ++ (sub_digits8 isd tok) rest.
Proof.
induction b as [|c b IH]; simpl; [done|].
intros Hall Hlen Hr. pose proof Hall as [Hc Hb]%andb_prop.
rewrite sub_nomatch, IH; [done|done|lia|done|].
apply match_at_None. unfold digits_at.
change (c :: b ++ rest) with ((c :: b) ++ rest).
rewrite take_while_app_all; [simpl; lia|done|done].
Qed.

(** The scan computes the contract: every maximal run of 8 or more
  digits becomes the token, everything else stays. *)
Lemma sub_refines_runs l : (sub_digits8 isd tok) l = mask_runs isd tok l.
Proof.
induction l as [l IH] using (induction_ltof1 _ (@length A)).
unfold ltof in IH. destruct l as [|c l]; [by rewrite sub_nil|].
unfold mask_runs. rewrite runs_cons. simpl.
change (concat (map (redact isd tok) (runs isd (drop_while ((same isd) c) l))))
  with (mask_runs isd tok (drop_while ((same isd) c) l)).
assert (Hlen : (length (drop_while ((same isd) c) l) < length (c :: l))%nat).
{ rewrite <- (take_drop_while ((same isd) c) l) at 2. simpl.
  rewrite length_app. lia. }
rewrite <- (IH _ Hlen).
rewrite <- (take_drop_while ((same isd) c) l) at 1.
change (c :: take_while ((same isd) c) l ++ drop_while ((same isd) c) l)
  with ((c :: take_while ((same isd) c) l) ++ drop_while ((same isd) c) l).
destruct (isd c) eqn:E.
- assert (Hs : forall x, (same isd) c x = isd x).
  { intros x. unfold same. rewrite E. by destruct (isd x). }
  rewrite !(take_while_ext _ _ _ Hs), !(drop_while_ext _ _ _ Hs).
  assert (Hall : forallb isd (c :: take_while isd l) = true).
  { simpl. by rewrite E, take_while_all. }
  unfold redact, long_digit_run. rewrite Hall, andb_true_l.
  destruct (Nat.leb_spec 8 (length (c :: take_while isd l))) as [Hge|Hlt].
  + simpl app. rewrite (take_drop_while isd l).
    assert (Hm : (match_at isd) (c :: l) = Some (length (c :: take_while isd l))).
    { unfold match_at, digits_at. simpl take_while.
      rewrite E.
      destruct (Nat.leb_spec 8 (length (c :: take_while isd l))); [done|lia]. }
    rewrite (sub_match _ _ _ Hm). simpl drop. by rewrite drop_take_while.
  + apply sub_copy_short; [done|done|]. apply take_while_drop_while.
- assert (Hs : forall x, (same isd) c x = negb (isd x)).
  { intros x. unfold same. rewrite E. by destruct (isd x). }
  rewrite !(take_while_ext _ _ _ Hs), !(drop_while_ext _ _ _ Hs).
  unfold redact, long_digit_run. simpl forallb. rewrite E, !andb_false_l.
  apply sub_copy_nodigit. unfold no_digit. simpl. rewrite E. simpl.
  apply take_while_all.
Qed.

End RegexSubFacts.

(** Among the characters of ASCII the decimal digits are [0] to [9], with
    their values. *)
Lemma decimal_ascii (c : N) :
  (c < 128)%N ->
  Unicode.decimal c
  = if ((48 <=? c) && (c <=? 57))%N then Some (c - 48)%N else None.
Proof.
  intros Hc.
  assert (H : forallb
                (fun n =>
                   match Unicode.decimal n,
                         (if ((48 <=? n) && (n <=? 57))%N then Some (n - 48)%N
                          else None) with
                   | Some a, Some b => (a =? b)%N
                   | None, None => true
                   | _, _ => false
                   end)
                (map N.of_nat (seq 0 128)) = true) by (vm_compute; reflexivity).
  rewrite forallb_forall in H. specialize (H c).
  destruct (Unicode.decimal c) as [a|],
    (if ((48 <=? c) && (c <=? 57))%N then Some (c - 48)%N else None) as [b|];
    try reflexivity.
  - f_equal. apply N.eqb_eq, H, in_map_iff.
    exists (N.to_nat c). split; [apply N2Nat.id|]. apply in_seq. lia.
  - exfalso. apply diff_false_true, H, in_map_iff.
    exists (N.to_nat c). split; [apply N2Nat.id|]. apply in_seq. lia.
  - exfalso. apply diff_false_true, H, in_map_iff.
    exists (N.to_nat c). split; [apply N2Nat.id|]. apply in_seq. lia.
Qed.

Lemma MASKED_NUMBER_no_digit : no_digit Unicode.is_decimal MASKED_NUMBER.
Proof. vm_compute. reflexivity. Qed.

Example mask_card_number :
  mask_personal_data (chars "Card ending 123456789012")
  = chars "Card ending [MASKED_NUMBER]".
Proof. vm_compute. reflexivity. Qed.

Example mask_short_run :
  mask_personal_data (chars "PIN 1234567 ok") = chars "PIN 1234567 ok".
Proof. vm_compute. reflexivity. Qed.

(** A digit of another script counts: seven ASCII digits followed by the
    fullwidth digit eight are a run of eight. *)
Example mask_fullwidth_digit :
  mask_personal_data (chars "1234567" ++ [0xff18%N]) = MASKED_NUMBER.
Proof. vm_compute. reflexivity. Qed.

(** C6. The masker replaces exactly the maximal runs of 8 or more digits
    with the token (it computes [mask_contract]), it is a function of its
    argument alone, masking twice is masking once, and a text with no 8
    consecutive digits is returned as it is. A digit is what [\d] matches:
    a decimal digit of any script. *)
Theorem mask_personal_data_contract :
  (forall t, mask_personal_data t = mask_contract t) /\
  (forall t, mask_personal_data (mask_personal_data t) = mask_personal_data t) /\
  (forall t, ~ has_digit_run8 t -> mask_personal_data t = t).
Proof.
  split; [|split].
  - intros t. unfold mask_personal_data, mask_contract.
    by rewrite sub_refines_runs.
  - intros t. unfold mask_personal_data.
    apply sub_idempotent, MASKED_NUMBER_no_digit.
  - intros t Hno. unfold mask_personal_data, has_digit_run8 in *.
    by apply sub_no_long_run.
Qed.

Lemma clean_app_r {A} (isd : A -> bool) (pre l : list A) :
  clean isd (pre ++ l) -> clean isd l.
Proof. induction pre as [|x pre IH]; simpl; [done|]. intros [_ H]. by apply IH. Qed.

Lemma digits_at_app_all {A} (isd : A -> bool) (r post : list A) :
  forallb isd r = true -> (length r <= length (digits_at isd (r ++ post)))%nat.
Proof.
  unfold digits_at. induction r as [|x r IH]; simpl; [lia|].
  intros [-> Hr]%andb_prop. simpl. specialize (IH Hr). lia.
Qed.

(** A text where the pattern matches nowhere has no 8 consecutive digits. *)
Lemma clean_no_long_run {A} (isd : A -> bool) (l : list A) :
  clean isd l -> ~ has_long_run isd l.
Proof.
  intros Hc (pre & r & post & -> & Hr & Hn).
  apply clean_app_r in Hc. destruct r as [|x r]; [simpl in Hn; lia|].
  destruct Hc as [Hm _]. apply match_at_None in Hm.
  pose proof (digits_at_app_all isd (x :: r) post Hr). simpl in *. lia.
Qed.

Lemma mask_personal_data_contract_witness :
  ~ has_digit_run8 (chars "PIN 1234567 ok") /\
  mask_personal_data (chars "PIN 1234567 ok") = chars "PIN 1234567 ok" /\
  mask_personal_data (chars "Card ending 123456789012")
  = mask_contract (chars "Card ending 123456789012") /\
  mask_personal_data (mask_personal_data (chars "1234567" ++ [0xff18%N]))
  = mask_personal_data (chars "1234567" ++ [0xff18%N]).
Proof.
  assert (H : ~ has_digit_run8 (chars "PIN 1234567 ok")).
  { apply clean_no_long_run. vm_compute. tauto. }
  split; [exact H|]. split; [|split].
  - exact (proj2 (proj2 mask_personal_data_contract) (chars "PIN 1234567 ok") H).
  - exact (proj1 mask_personal_data_contract (chars "Card ending 123456789012")).
  - exact (proj1 (proj2 mask_personal_data_contract)
             (chars "1234567" ++ [0xff18%N])).
Defined.

(** ** Statistical detector *)

Lemma load_ml_model_absent (w : World) (p : Proc) :
  _ml_model p = None -> path_exists w = false ->
  load_ml_model w p = (Ok None, p, [EvPathExists]).
Proof.
  destruct p as [[m|]]; [done|]. intros _ Hw.
  unfold load_ml_model, call_path_exists, bind, gets, emit, ret. simpl.
  by rewrite Hw.
Qed.

Lemma load_ml_model_cached (w : World) (m : Model) :
  load_ml_model w (loaded m) = (Ok (Some m), loaded m, []).
Proof. reflexivity. Qed.

Lemma ml_detector_absent (w : World) (tx : TxIn) (p : Proc) :
  _ml_model p = None -> path_exists w = false ->
  ml_detector w tx p = (Raise (RuntimeError not_found), p, [EvPathExists]).
Proof.
  intros Hp Hw. unfold ml_detector. rewrite bind_run.
  by rewrite (load_ml_model_absent w p Hp Hw).
Qed.

Lemma detect_ml_absent (w : World) (tx : TxIn) (p : Proc) :
  _ml_model p = None -> path_exists w = false ->
  detect_ml w tx p = (Raise (HTTPException 503 not_found), p, [EvPathExists]).
Proof.
  intros Hp Hw. unfold detect_ml. rewrite bind_run. unfold try_except.
  by rewrite (ml_detector_absent w tx p Hp Hw).
Qed.

(** C7. With no artifact on disk and no handle loaded, the statistical
    detector raises the model-unavailable error, which the endpoint turns
    into a 503, for every transaction; the only call made is the existence
    test of the artifact: no history read, no hour extraction, no merchant
    hash, no call to the classifier. A process that never sees the
    artifact answers every request that way. *)
Theorem ml_detector_unavailable :
  (forall w tx p,
     _ml_model p = None -> path_exists w = false ->
     ml_detector w tx p = (Raise (RuntimeError not_found), p, [EvPathExists]) /\
     detect_ml w tx p
       = (Raise (HTTPException 503 not_found), p, [EvPathExists])) /\
  (forall reqs,
     Forall (fun r => path_exists r.1 = false) reqs ->
     serve_ml reqs initial =
     (map (fun _ => (Raise (HTTPException 503 not_found), [EvPathExists])) reqs,
      initial)).
Proof.
  split.
  - intros w tx p Hp Hw.
    split; [by apply ml_detector_absent | by apply detect_ml_absent].
  - intros reqs Hall. induction Hall as [|[w tx] reqs Hw _ IH]; [done|].
    simpl in *. rewrite (detect_ml_absent w tx initial eq_refl Hw).
    by rewrite IH.
Qed.

Lemma ml_detector_unavailable_witness :
  detect_ml sample_world risky_tx initial
  = (Raise (HTTPException 503 not_found), initial, [EvPathExists]).
Proof.
  apply (proj1 ml_detector_unavailable sample_world risky_tx initial);
    reflexivity.
Defined.

Lemma loads_cached (ws : list World) (m : Model) :
  Forall (fun o => o = (Ok (Some m), loaded m, [])) (loads ws (loaded m)).
Proof.
  induction ws as [|w ws IH]; simpl; constructor; [reflexivity|exact IH].
Qed.

Lemma loads_cached_no_disk (ws : list World) (m : Model) :
  List.filter disk_load (loads ws (loaded m)) = [].
Proof.
  induction ws as [|w ws IH]; [done|].
  simpl loads. rewrite load_ml_model_cached. simpl. exact IH.
Qed.

Lemma loads_at_most_once (ws : list World) (p : Proc) :
  (length (List.filter disk_load (loads ws p)) <= 1)%nat.
Proof.
  revert p. induction ws as [|w ws IH]; intros p; [simpl; lia|].
  destruct p as [[m|]].
  - change {| _ml_model := Some m |} with (loaded m).
    rewrite loads_cached_no_disk. simpl. lia.
  - simpl loads.
    unfold load_ml_model at 1 2, call_path_exists, call_joblib_load, bind,
      gets, emit, ret, modify, lift_res, final, disk_load, outcome, calls.
    simpl. destruct (path_exists w); simpl.
    + destruct (joblib_load w) as [m|e]; simpl.
      * change {| _ml_model := Some m |} with (loaded m).
        rewrite loads_cached_no_disk. simpl. lia.
      * apply IH.
    + apply IH.
Qed.

Lemma ml_detector_keeps_handle (w : World) (tx : TxIn) (m : Model) :
  final (ml_detector w tx (loaded m)) = loaded m /\
  final (detect_ml w tx (loaded m)) = loaded m.
Proof.
  assert (H : final (ml_detector w tx (loaded m)) = loaded m).
  { unfold ml_detector. rewrite bind_run, load_ml_model_cached.
    unfold final at 1. simpl.
    match goal with |- final (?c _) = _ => assert (Hro : read_only c) end.
    { unfold call_hash, call_decision_function, call_predict, lift_opt.
      auto 20 with frame. }
    apply Hro. }
  split; [exact H|].
  unfold detect_ml. rewrite bind_run. unfold try_except, final in *.
  destruct (ml_detector w tx (loaded m)) as [[[v|e] p1] t]; simpl in *;
    [done|]. by destruct e.
Qed.

(** C8. Once the handle is loaded, every call of [load_ml_model] returns
    that same handle, touches neither the disk nor the state, and the
    detector leaves the handle in place; so over any sequence of calls, in
    any worlds and from any state, at most one call reads a model from
    disk. *)
Theorem load_ml_model_once :
  (forall w m, load_ml_model w (loaded m) = (Ok (Some m), loaded m, [])) /\
  (forall ws m,
     Forall (fun o => o = (Ok (Some m), loaded m, [])) (loads ws (loaded m))) /\
  (forall w tx m,
     final (ml_detector w tx (loaded m)) = loaded m /\
     final (detect_ml w tx (loaded m)) = loaded m) /\
  (forall ws p, (length (List.filter disk_load (loads ws p)) <= 1)%nat).
Proof.
  split; [exact load_ml_model_cached|].
  split; [exact loads_cached|].
  split; [exact ml_detector_keeps_handle|exact loads_at_most_once].
Qed.

Example ml_served :
  outcome (detect_ml stocked_world sample_tx initial)
    = Ok {| anomaly := false; score := 0.5%float; reasons := [] |} /\
  final (detect_ml stocked_world sample_tx initial) = loaded sample_model /\
  calls (detect_ml stocked_world sample_tx initial)
    = [EvPathExists; EvJoblibLoad; EvFromIso "2024-06-01T12:00:00+00:00";
       EvHash "Zomato";
       EvDecisionFunction [250; 12; 0; 6]%float;
       EvPredict [250; 12; 0; 6]%float].
Proof. vm_compute. auto. Qed.

(** The first load: an unloaded process that finds the artifact reads it
    once and keeps it. *)
Lemma load_ml_model_first (w : World) (m : Model) :
  path_exists w = true -> joblib_load w = Ok m ->
  load_ml_model w initial = (Ok (Some m), loaded m, [EvPathExists; EvJoblibLoad]).
Proof.
  intros Hw Hl.
  unfold load_ml_model, call_path_exists, call_joblib_load, bind, gets, emit,
    ret, modify, lift_res. simpl. by rewrite Hw, Hl.
Qed.

(** ** More on floats *)

Lemma SFltb_trans x y z :
  SFltb x y = true -> SFltb y z = true -> SFltb x z = true.
Proof.
  unfold SFltb.
  destruct x as [[]|[]| |[] mx ex], y as [[]|[]| |[] my ey],
           z as [[]|[]| |[] mz ez]; simpl; try easy;
    rewrite ?Pos.compare_cont_spec; simpl;
    destruct (Z.compare_spec ex ey), (Z.compare_spec ey ez),
             (Z.compare_spec ex ez); simpl; try easy; try lia;
    destruct (Pos.compare_spec mx my), (Pos.compare_spec my mz),
             (Pos.compare_spec mx mz); simpl; try easy; try lia.
Qed.

Lemma ltb_trans (a b c : float) :
  PrimFloat.ltb a b = true -> PrimFloat.ltb b c = true ->
  PrimFloat.ltb a c = true.
Proof. rewrite !ltb_spec. apply SFltb_trans. Qed.

Lemma gt_trans (a b c : float) :
  PyFloat.gt a b = true -> PyFloat.gt b c = true -> PyFloat.gt a c = true.
Proof. unfold PyFloat.gt. intros H1 H2. exact (ltb_trans _ _ _ H2 H1). Qed.

Lemma nan_not_gt (a b : float) :
  PyFloat.is_nan a = true -> PyFloat.gt a b = false.
Proof.
  unfold PyFloat.is_nan, PyFloat.gt. rewrite ltb_spec.
  destruct (Prim2SF a); try discriminate. intros _.
  unfold SFltb. by destruct (Prim2SF b).
Qed.

(** ** Demo detector *)

Lemma fake_detector_run (tx : TxIn) (g : Rng) :
  fake_detector tx g =
  (Ok (let r := draws g (taken g) in
       if PrimFloat.ltb r 0.05 then
         (true, 0.95%float, ["Simulated high anomaly (demo)"])
       else if PrimFloat.ltb r 0.2 then
         (true, 0.6%float, ["Simulated medium anomaly (demo)"])
       else (false, 0.05%float, [])),
   advance g, []).
Proof.
  unfold fake_detector, random_random, bind, gets, modify, ret, advance.
  simpl. generalize (draws g (taken g)). intros r.
  by destruct (PrimFloat.ltb r 0.05), (PrimFloat.ltb r 0.2).
Qed.

(** X1. The demo endpoint never raises and never looks at the
    transaction: it takes exactly one draw [r] from the generator, makes no
    outside call, flags an anomaly exactly when [r < 0.2], and gives one
    reason exactly when it flags. *)
Theorem detect_fake_draw (tx : TxIn) (g : Rng) :
  exists resp,
    detect_fake tx g = (Ok resp, advance g, []) /\
    anomaly resp = PrimFloat.ltb (draws g (taken g)) 0.2 /\
    length (reasons resp) = (if anomaly resp then 1 else 0)%nat /\
    (forall tx', detect_fake tx' g = detect_fake tx g).
Proof.
  unfold detect_fake. eexists. split.
  - rewrite bind_run, fake_detector_run. reflexivity.
  - generalize (draws g (taken g)). intros r. split; [|split].
    + simpl. destruct (PrimFloat.ltb r 0.05) eqn:E5; simpl.
      * symmetry. apply (ltb_trans _ 0.05); [exact E5|]. vm_compute. reflexivity.
      * by destruct (PrimFloat.ltb r 0.2).
    + simpl. by destruct (PrimFloat.ltb r 0.05), (PrimFloat.ltb r 0.2).
    + intros tx'. by rewrite !bind_run, !fake_detector_run.
Qed.

(** ** More on the hour extraction *)

Lemma list_ascii_of_string_append (a b : string) :
  list_ascii_of_string (String.append a b)
  = list_ascii_of_string a ++ list_ascii_of_string b.
Proof. induction a as [|c a IH]; simpl; [done|]. by rewrite IH. Qed.

Lemma append_nonempty (a b : string) :
  b <> "" -> String.eqb (String.append a b) "" = false.
Proof. destruct a; simpl; [|done]. intros H. by destruct b. Qed.

Lemma endswith_Z_append_Z (body : string) :
  endswith_Z (String.append body "Z") = true.
Proof.
  unfold endswith_Z. rewrite list_ascii_of_string_append, rev_app_distr.
  reflexivity.
Qed.

Lemma drop_last_append_Z (body : string) :
  drop_last (String.append body "Z") = body.
Proof.
  unfold drop_last. rewrite list_ascii_of_string_append. simpl.
  rewrite removelast_last. apply string_of_list_ascii_of_string.
Qed.

Lemma endswith_Z_append_offset (body : string) :
  endswith_Z (String.append body "+00:00") = false.
Proof.
  unfold endswith_Z. rewrite list_ascii_of_string_append, rev_app_distr.
  reflexivity.
Qed.

Lemma parse_iso_hour_nonempty {S} (w : World) (ts : string)
    (meta : gmap string PyVal) (s : S) :
  String.eqb ts "" = false ->
  _parse_iso_hour w ts meta s =
  match fromisoformat w (normalized ts) with
  | Some dt => (Ok (dt_hour dt), s, [EvFromIso (normalized ts)])
  | None =>
      (PyInt.py_int (default (VInt (dt_hour (utcnow w))) (meta !! "hour")),
       s, [EvFromIso (normalized ts); EvUtcNow])
  end.
Proof.
  intros Hne. unfold _parse_iso_hour. rewrite Hne.
  unfold try_except, call_fromisoformat, bind, emit, ret, raise. simpl.
  fold (normalized ts). by destruct (fromisoformat w (normalized ts)).
Qed.

(** X8. A timestamp the library parses decides the hour alone: the result
    is the parsed hour, the only outside call is the parse of the
    normalized timestamp, and neither the metadata (whatever it holds) nor
    the clock is consulted. *)
Theorem parse_iso_hour_timestamp_wins {S} (w : World) (ts : string)
    (meta : gmap string PyVal) (dt : datetime) (s : S) :
  ts <> "" ->
  fromisoformat w (normalized ts) = Some dt ->
  _parse_iso_hour w ts meta s = (Ok (dt_hour dt), s, [EvFromIso (normalized ts)]).
Proof.
  intros Hne Hp. rewrite parse_iso_hour_nonempty, Hp; [done|].
  by destruct (String.eqb_spec ts "").
Qed.

Lemma parse_iso_hour_timestamp_wins_witness :
  _parse_iso_hour sample_world "2024-01-01T23:00:00Z" {[ "hour" := VNone ]} tt
  = (Ok 23, tt, [EvFromIso "2024-01-01T23:00:00+00:00"]).
Proof.
  apply (parse_iso_hour_timestamp_wins sample_world "2024-01-01T23:00:00Z"
           {[ "hour" := VNone ]}
           {| dt_hour := 23; dt_minute := 0; dt_second := 0 |} tt).
  - discriminate.
  - vm_compute. reflexivity.
Defined.

(** X9. A trailing [Z] is read as the offset [+00:00]: the two spellings of
    a timestamp give the same outcome and the same outside calls, for any
    text before the suffix. *)
Theorem parse_iso_hour_Z_is_utc {S} (w : World) (body : string)
    (meta : gmap string PyVal) (s : S) :
  _parse_iso_hour w (String.append body "Z") meta s
  = _parse_iso_hour w (String.append body "+00:00") meta s.
Proof.
  rewrite !parse_iso_hour_nonempty by (by apply append_nonempty).
  unfold normalized.
  by rewrite endswith_Z_append_Z, drop_last_append_Z, endswith_Z_append_offset.
Qed.

(** X10. A timestamp the library rejects is treated as an empty one: the
    outcome is that of the metadata-or-clock fallback. *)
Theorem parse_iso_hour_rejected_as_empty {S} (w : World) (ts : string)
    (meta : gmap string PyVal) (s : S) :
  fromisoformat w (normalized ts) = None ->
  outcome (_parse_iso_hour w ts meta s) = outcome (_parse_iso_hour w "" meta s).
Proof.
  intros Hp. destruct (String.eqb ts "") eqn:E.
  - apply String.eqb_eq in E. by subst.
  - by rewrite parse_iso_hour_nonempty, Hp.
Qed.

Lemma parse_iso_hour_rejected_as_empty_witness :
  outcome (_parse_iso_hour sample_world "next tuesday" {[ "hour" := VInt 7 ]} tt)
  = outcome (_parse_iso_hour sample_world "" {[ "hour" := VInt 7 ]} tt).
Proof.
  apply (parse_iso_hour_rejected_as_empty sample_world "next tuesday"
           {[ "hour" := VInt 7 ]} tt).
  vm_compute. reflexivity.
Defined.

(** X18. Without an "hour" entry in meta the hour extraction cannot fail:
    whatever the timestamp, it returns an hour within 0..23 and leaves the
    state as it was, provided the clock and the ISO parser give hours
    within 0..23. *)
Theorem parse_iso_hour_without_meta_hour {S} (w : World) (ts : string)
    (meta : gmap string PyVal) (s : S) :
  world_ok w -> meta !! "hour" = None ->
  exists h,
    outcome (_parse_iso_hour w ts meta s) = Ok h /\
    hour_ok h /\
    final (_parse_iso_hour w ts meta s) = s.
Proof.
  intros Hw Hm.
  destruct (parse_iso_hour_no_meta w ts meta s Hw Hm) as (h & Hh & Hok).
  exists h. split; [exact Hh|]. split; [exact Hok|].
  apply parse_iso_hour_read_only.
Qed.

Lemma parse_iso_hour_without_meta_hour_witness :
  exists h,
    outcome (_parse_iso_hour sample_world "next tuesday" ∅ tt) = Ok h /\
    hour_ok h /\
    final (_parse_iso_hour sample_world "next tuesday" ∅ tt) = tt.
Proof.
  apply (parse_iso_hour_without_meta_hour sample_world "next tuesday" ∅ tt).
  - split; [unfold hour_ok; simpl; lia|].
    intros ts dt. simpl. unfold iso_basic.
    destruct (iso_fields ts) as [d|]; [|discriminate].
    destruct ((0 <=? dt_hour d) && (dt_hour d <=? 23)) eqn:E; [|discriminate].
    intros [= <-]. unfold hour_ok. lia.
  - reflexivity.
Defined.

Lemma parse_iso_hour_same_clock {S} (w1 w2 : World) (ts : string)
    (meta : gmap string PyVal) (s : S) :
  same_clock w1 w2 ->
  _parse_iso_hour w1 ts meta s = _parse_iso_hour w2 ts meta s.
Proof.
  intros [Hnow Hiso]. destruct (String.eqb ts "") eqn:E.
  - apply String.eqb_eq in E. subst. rewrite !parse_iso_hour_empty.
    rewrite !meta_hour_run. by rewrite Hnow.
  - rewrite !parse_iso_hour_nonempty by done. by rewrite Hnow, Hiso.
Qed.

(** ** More on the rule-based detector *)

Lemma select_lookup {A} (mask : list bool) (l : list A) (x : A) :
  In x (select mask l) <->
  exists i, mask !! i = Some true /\ l !! i = Some x.
Proof.
  revert l. induction mask as [|b mask IH]; intros l.
  - simpl. split; [done|]. by intros (i & Hi & _).
  - destruct l as [|y l]; simpl.
    + split; [done|]. by intros (i & _ & Hi).
    + destruct b; simpl; rewrite ?IH; split.
      * intros [->|(i & Hm & Hl)]; [by exists 0%nat|by exists (S i)].
      * intros ([|i] & Hm & Hl); simpl in *; [left; congruence|right; eauto].
      * intros (i & Hm & Hl). by exists (S i).
      * intros ([|i] & Hm & Hl); simpl in *; [congruence|eauto].
Qed.

(** A reason is reported exactly when its rule triggers. *)
Lemma reason_reported (mask : list bool) (i : nat) (r : string) :
  rule_reasons !! i = Some r ->
  In r (select mask rule_reasons) <-> mask !! i = Some true.
Proof.
  intros Hr. rewrite select_lookup. split.
  - intros (j & Hm & Hj).
    by rewrite (NoDup_lookup _ _ _ _ rule_reasons_NoDup Hr Hj).
  - intros Hm. eauto.
Qed.

Lemma select_length_le {A} (mask : list bool) (l : list A) :
  (length (select mask l) <= length mask)%nat.
Proof.
  revert l. induction mask as [|b mask IH]; intros [|x l]; simpl; try lia.
  specialize (IH l). destruct b; simpl; lia.
Qed.

Lemma verdict_of_range (rs : list string) :
  (length rs <= 7)%nat ->
  In (verdict_of rs).1.2 [0; 0.2; 0.4; 0.6; 0.8; 1]%float /\
  PyFloat.le 0 (verdict_of rs).1.2 = true /\
  PyFloat.le (verdict_of rs).1.2 1 = true /\
  PyFloat.gt (verdict_of rs).1.2 0 = (verdict_of rs).1.1.
Proof.
  intros Hlen. unfold verdict_of. simpl.
  do 8 (destruct rs as [|? rs]; [vm_compute; tauto|]). simpl in Hlen. lia.
Qed.

Lemma detect_rule_run (w : World) (tx : TxIn) :
  detect_rule w tx =
  match rule_based_check w
          (mkFrame tx (get_user_history_stub (userId tx))) with
  | (Ok v, _, t) => (Ok (to_resp v), tx, EvHistory (userId tx) :: t)
  | (Raise e, _, t) => (Raise e, tx, EvHistory (userId tx) :: t)
  end.
Proof.
  pose proof (rule_based_check_read_only w
                (mkFrame tx (get_user_history_stub (userId tx)))) as Hro.
  unfold detect_rule, with_history, bind, gets, emit, ret. simpl.
  unfold final in Hro.
  destruct (rule_based_check w _) as [[[v|e] fr] t]; simpl in *; subst;
    [|reflexivity].
  by rewrite app_nil_r.
Qed.

(** What the endpoint answers, given the extracted hour. *)
Lemma detect_rule_outcome (w : World) (tx : TxIn) :
  outcome (detect_rule w tx) =
  match outcome (_parse_iso_hour w (timestamp tx) (meta tx) tt) with
  | Ok hour =>
      Ok (to_resp (verdict_of
            (select (triggered tx (get_user_history_stub (userId tx)) hour)
               rule_reasons)))
  | Raise e => Raise e
  end.
Proof.
  rewrite detect_rule_run.
  pose proof (rule_based_check_outcome w
                (mkFrame tx (get_user_history_stub (userId tx)))) as Ho.
  rewrite (parse_iso_hour_outcome w _ _ _ tt) in Ho. simpl in Ho.
  unfold outcome in *.
  destruct (rule_based_check w _) as [[[v|e] fr] t]; simpl in *;
    destruct (_parse_iso_hour w (timestamp tx) (meta tx) tt) as [[[h|e'] u] t'];
    simpl in *; congruence.
Qed.

(** X3. Whatever the transaction and the history, the rule-based detector
    reports at most seven reasons and a score that is one of 0, 0.2, 0.4,
    0.6, 0.8, 1, hence within 0..1; the score is positive exactly when the
    anomaly flag is set. *)
Theorem rule_based_check_score_range (w : World) (fr : Frame)
    (a : bool) (s : float) (rs : list string) :
  outcome (rule_based_check w fr) = Ok (a, s, rs) ->
  (length rs <= 7)%nat /\
  In s [0; 0.2; 0.4; 0.6; 0.8; 1]%float /\
  PyFloat.le 0 s = true /\ PyFloat.le s 1 = true /\
  PyFloat.gt s 0 = a.
Proof.
  rewrite rule_based_check_outcome.
  destruct (outcome (_parse_iso_hour _ _ _ _)) as [hour|e]; [|done].
  intros [= <- <- <-].
  assert (Hlen : (length (select (triggered (f_tx fr) (f_history fr) hour)
                            rule_reasons) <= 7)%nat).
  { etrans; [apply select_length_le|]. by rewrite triggered_length. }
  split; [exact Hlen|]. exact (verdict_of_range _ Hlen).
Qed.

Lemma rule_based_check_score_range_witness :
  (length (firstn 6 rule_reasons) <= 7)%nat /\
  In 1%float [0; 0.2; 0.4; 0.6; 0.8; 1]%float /\
  PyFloat.le 0 1 = true /\ PyFloat.le 1 1 = true /\
  PyFloat.gt 1 0 = true.
Proof.
  apply (rule_based_check_score_range sample_world
           (mkFrame risky_tx (get_user_history_stub "u1"))).
  vm_compute. reflexivity.
Defined.

(** X4. The rule endpoint judges every user against the same history and
    reads neither the merchant category nor the currency: changing the
    user id, the category and the currency of a request changes nothing in
    the answer. *)
Theorem detect_rule_ignores_labels (w : World) (tx : TxIn)
    (uid cat cur : string) :
  outcome (detect_rule w (relabel uid cat cur tx)) = outcome (detect_rule w tx).
Proof. rewrite !detect_rule_outcome. reflexivity. Qed.

Lemma py_in_spec (x : string) (l : list string) :
  py_in x l = true <-> In x l.
Proof.
  unfold py_in. rewrite existsb_exists. split.
  - intros (y & Hy & ->%String.eqb_eq). exact Hy.
  - intros H. exists x. split; [exact H|apply String.eqb_refl].
Qed.

Lemma reasons_of_verdict (rs : list string) :
  reasons (to_resp (verdict_of rs)) = rs.
Proof. reflexivity. Qed.

Lemma select_length_count {A} (mask : list bool) (l : list A) :
  (length (select mask l) <= count_true mask)%nat.
Proof.
  revert l. induction mask as [|b mask IH]; intros [|x l]; simpl; try lia.
  specialize (IH l). destruct b; simpl; lia.
Qed.

Lemma count_true_le (mask : list bool) : (count_true mask <= length mask)%nat.
Proof. induction mask as [|[] mask IH]; simpl; lia. Qed.

Lemma count_true_app (m1 m2 : list bool) :
  count_true (m1 ++ m2) = (count_true m1 + count_true m2)%nat.
Proof. induction m1 as [|b m1 IH]; simpl; [done|]. rewrite IH. lia. Qed.

(** X5. At the rule endpoint, whose history is the stub, the frequency
    rule never fires, so an answer holds at most six reasons, and the
    unfamiliar-merchant reason is given exactly when the merchant is none
    of [Zomato], [SBI Card], [Amazon], compared as exact strings. *)
Theorem detect_rule_stub_rules (w : World) (tx : TxIn) (resp : AnomalyResp) :
  outcome (detect_rule w tx) = Ok resp ->
  (length (reasons resp) <= 6)%nat /\
  ~ In "Unusually high transaction frequency today" (reasons resp) /\
  (In "Merchant is new/unfamiliar" (reasons resp) <->
   ~ In (merchant tx) ["Zomato"; "SBI Card"; "Amazon"]).
Proof.
  rewrite detect_rule_outcome.
  destruct (outcome (_parse_iso_hour _ _ _ _)) as [hour|e]; [|done].
  set (mask := triggered tx (get_user_history_stub (userId tx)) hour).
  intros H.
  assert (resp = to_resp (verdict_of (select mask rule_reasons))) as ->
    by congruence.
  clear H. rewrite reasons_of_verdict.
  split; [|split].
  - etrans; [apply select_length_count|].
    change mask with (firstn 6 mask ++ [false]).
    rewrite count_true_app. simpl (count_true [false]).
    pose proof (count_true_le (firstn 6 mask)) as Hle.
    unfold mask, triggered in Hle. simpl length in Hle.
    unfold mask, triggered. lia.
  - rewrite (reason_reported mask 6) by reflexivity. unfold mask. simpl.
    intros [=].
  - rewrite (reason_reported mask 4) by reflexivity.
    change (mask !! 4%nat) with
      (Some (negb (py_in (merchant tx) ["Zomato"; "SBI Card"; "Amazon"]))).
    rewrite <- py_in_spec.
    destruct (py_in (merchant tx) ["Zomato"; "SBI Card"; "Amazon"]); simpl;
      split; congruence.
Qed.

Lemma detect_rule_stub_rules_witness :
  (length (firstn 6 rule_reasons) <= 6)%nat /\
  ~ In "Unusually high transaction frequency today" (firstn 6 rule_reasons) /\
  (In "Merchant is new/unfamiliar" (firstn 6 rule_reasons) <->
   ~ In "Unknown Shop" ["Zomato"; "SBI Card"; "Amazon"]).
Proof.
  apply (detect_rule_stub_rules sample_world risky_tx
           {| anomaly := true; score := 1%float;
              reasons := firstn 6 rule_reasons |}).
  vm_compute. reflexivity.
Defined.

(** X6. At the rule endpoint an amount above 20000 also exceeds three
    times the stub median and the stub variance bound: the answer starts
    with the three amount reasons, in rule order, and its score is at
    least 0.6. *)
Theorem detect_rule_large_amount (w : World) (tx : TxIn) (resp : AnomalyResp) :
  PyFloat.gt (amount tx) 20000 = true ->
  outcome (detect_rule w tx) = Ok resp ->
  firstn 3 (reasons resp) = firstn 3 rule_reasons /\
  anomaly resp = true /\
  PyFloat.le 0.6 (score resp) = true.
Proof.
  intros Hbig. rewrite detect_rule_outcome.
  destruct (outcome (_parse_iso_hour _ _ _ _)) as [hour|e]; [|done].
  intros H.
  assert (resp = to_resp (verdict_of
            (select (triggered tx (get_user_history_stub (userId tx)) hour)
               rule_reasons))) as -> by congruence.
  clear H. unfold triggered.
  assert (H2 : PyFloat.gt (amount tx)
                 (med_of (get_user_history_stub (userId tx)) * 3) = true).
  { apply (gt_trans _ 20000); [exact Hbig|]. vm_compute. reflexivity. }
  assert (H3 : PyFloat.gt (amount tx)
                 (avg_of (get_user_history_stub (userId tx))
                  + 3 * std_of (get_user_history_stub (userId tx))) = true).
  { apply (gt_trans _ 20000); [exact Hbig|]. vm_compute. reflexivity. }
  rewrite Hbig, H2, H3.
  change (10 <? today_of (get_user_history_stub (userId tx))) with false.
  destruct ((hour <? 6) || (23 <? hour)),
    (negb (py_in (merchant tx)
             (known_merchants (get_user_history_stub (userId tx))))),
    (is_international tx && PyFloat.gt (amount tx) 1000);
    vm_compute; tauto.
Qed.

Lemma detect_rule_large_amount_witness :
  firstn 3 (firstn 6 rule_reasons) = firstn 3 rule_reasons /\
  true = true /\
  PyFloat.le 0.6 1 = true.
Proof.
  apply (detect_rule_large_amount sample_world risky_tx
           {| anomaly := true; score := 1%float;
              reasons := firstn 6 rule_reasons |}).
  - vm_compute. reflexivity.
  - vm_compute. reflexivity.
Defined.

(** X7. A transaction whose amount is not a number passes every amount
    test: whatever the history, none of the four reasons that compare the
    amount is reported. *)
Theorem rule_based_check_nan_amount (w : World) (fr : Frame)
    (a : bool) (s : float) (rs : list string) :
  PyFloat.is_nan (amount (f_tx fr)) = true ->
  outcome (rule_based_check w fr) = Ok (a, s, rs) ->
  forall r,
    In r rs ->
    In r ["Transaction at unusual hour"; "Merchant is new/unfamiliar";
          "Unusually high transaction frequency today"].
Proof.
  intros Hnan. rewrite rule_based_check_outcome.
  destruct (outcome (_parse_iso_hour _ _ _ _)) as [hour|e]; [|done].
  intros H r.
  assert (rs = select (triggered (f_tx fr) (f_history fr) hour) rule_reasons)
    as -> by (unfold verdict_of in H; congruence).
  clear H. unfold triggered.
  rewrite !(nan_not_gt _ _ Hnan), andb_false_r.
  destruct ((hour <? 6) || (23 <? hour)),
    (negb (py_in (merchant (f_tx fr)) (known_merchants (f_history fr)))),
    (10 <? today_of (f_history fr)); simpl; tauto.
Qed.

Lemma rule_based_check_nan_amount_witness :
  In "Merchant is new/unfamiliar"
     ["Transaction at unusual hour"; "Merchant is new/unfamiliar";
      "Unusually high transaction frequency today"].
Proof.
  apply (rule_based_check_nan_amount sample_world
           (mkFrame nan_tx (get_user_history_stub "u1")) true 0.2%float
           ["Merchant is new/unfamiliar"]).
  - vm_compute. reflexivity.
  - vm_compute. reflexivity.
  - simpl. tauto.
Defined.

Lemma rule_based_check_same_clock (w1 w2 : World) (fr : Frame) :
  same_clock w1 w2 -> rule_based_check w1 fr = rule_based_check w2 fr.
Proof.
  intros H. rewrite !rule_based_check_run.
  by rewrite (parse_iso_hour_same_clock w1 w2 _ _ _ H).
Qed.

(** X11. The rule endpoint depends on the outside only through the clock
    and the timestamp parser: in two worlds that agree on these, whatever
    the model artifact, the hash or the generator, it gives the same
    answer, leaves the same state and makes the same calls, the first of
    which is the history read. *)
Theorem detect_rule_same_clock (w1 w2 : World) (tx : TxIn) :
  same_clock w1 w2 ->
  detect_rule w1 tx = detect_rule w2 tx /\
  head (calls (detect_rule w1 tx)) = Some (EvHistory (userId tx)).
Proof.
  intros H. rewrite !detect_rule_run.
  rewrite (rule_based_check_same_clock w1 w2 _ H). split; [done|].
  unfold calls. by destruct (rule_based_check w2 _) as [[[v|e] fr] t].
Qed.

Lemma detect_rule_same_clock_witness :
  detect_rule sample_world risky_tx = detect_rule stocked_world risky_tx /\
  head (calls (detect_rule sample_world risky_tx)) = Some (EvHistory "u1").
Proof.
  apply (detect_rule_same_clock sample_world stocked_world risky_tx).
  split; reflexivity.
Defined.

(** ** More on the statistical detector *)

Lemma ml_detector_split (w : World) (tx : TxIn) :
  ml_detector w tx =
  (model <- load_ml_model w ;;
   match model with
   | None => raise (RuntimeError not_found)
   | Some model => score_with w tx model
   end).
Proof. reflexivity. Qed.

(** The four ways a call of [load_ml_model] can go. *)
Lemma load_ml_model_cases (w : World) (p : Proc) :
  load_ml_model w p =
  match _ml_model p with
  | Some m => (Ok (Some m), p, [])
  | None =>
      if path_exists w then
        match joblib_load w with
        | Ok m => (Ok (Some m), loaded m, [EvPathExists; EvJoblibLoad])
        | Raise e => (Raise e, p, [EvPathExists; EvJoblibLoad])
        end
      else (Ok None, p, [EvPathExists])
  end.
Proof.
  destruct p as [[m|]]; [reflexivity|].
  unfold load_ml_model, call_path_exists, call_joblib_load, bind, gets, emit,
    ret, modify, lift_res. simpl.
  destruct (path_exists w); [|reflexivity]. simpl.
  by destruct (joblib_load w).
Qed.

Lemma score_with_read_only (w : World) (tx : TxIn) (m : Model) :
  read_only (score_with w tx m).
Proof.
  unfold score_with, call_hash, call_decision_function, call_predict, lift_opt.
  auto 20 with frame.
Qed.

Lemma of_Z_small (n : Z) : 0 <= n < 1000 -> PyFloat.of_Z n <> None.
Proof.
  intros Hn.
  assert (H : forallb (fun k => match PyFloat.of_Z (Z.of_nat k) with
                                | Some _ => true | None => false end)
                (seq 0 1000) = true) by (vm_compute; reflexivity).
  rewrite forallb_forall in H. specialize (H (Z.to_nat n)).
  rewrite Z2Nat.id in H by lia.
  destruct (PyFloat.of_Z n); [done|].
  assert (Hin : In (Z.to_nat n) (seq 0 1000)) by (apply in_seq; lia).
  specialize (H Hin). discriminate.
Qed.

(** The run of the scoring part, given the extracted hour. *)
Lemma score_with_run (w : World) (tx : TxIn) (m : Model) (p : Proc) :
  score_with w tx m p =
  match _parse_iso_hour w (timestamp tx) (meta tx) p with
  | (Ok hour, _, t) =>
      match features w tx hour with
      | Some x =>
          (Ok (classify w m x), p,
           t ++ [EvHash (merchant tx); EvDecisionFunction x; EvPredict x])
      | None => (Raise OverflowError, p, t ++ [EvHash (merchant tx)])
      end
  | (Raise e, _, t) => (Raise e, p, t)
  end.
Proof.
  pose proof (parse_iso_hour_read_only (S:=Proc) w (timestamp tx) (meta tx) p)
    as Hro.
  unfold score_with. rewrite bind_run. unfold final in Hro.
  destruct (_parse_iso_hour w (timestamp tx) (meta tx) p)
    as [[[hour|e] p1] t]; simpl in Hro; subst p1; [|reflexivity].
  unfold features, classify, call_hash, call_decision_function, call_predict,
    lift_opt, bind, emit, ret, raise, outcome, final, calls, append_if. simpl.
  destruct (PyFloat.of_Z hour) as [fhour|]; simpl; [|reflexivity].
  destruct (PyFloat.of_Z (Z.abs (py_hash w (merchant tx)) mod 1000))
    as [fhash|]; simpl; [|reflexivity].
  by destruct (predict m _ =? -1).
Qed.

Lemma detect_ml_run (w : World) (tx : TxIn) (p : Proc) :
  detect_ml w tx p =
  match ml_detector w tx p with
  | (Ok v, p1, t) => (Ok (to_resp v), p1, t)
  | (Raise e, p1, t) => (Raise (as_http e), p1, t)
  end.
Proof.
  unfold detect_ml, try_except, bind, ret, raise.
  destruct (ml_detector w tx p) as [[[v|e] p1] t]; simpl.
  - by rewrite app_nil_r.
  - destruct e; simpl; by rewrite app_nil_r.
Qed.

Lemma ml_detector_loaded (w : World) (tx : TxIn) (m : Model) :
  ml_detector w tx (loaded m) = score_with w tx m (loaded m).
Proof.
  rewrite ml_detector_split, bind_run, load_ml_model_cases. simpl.
  unfold outcome, final, calls.
  by destruct (score_with w tx m (loaded m)) as [[r p1] t].
Qed.

(** X12. Once the model is cached the statistical endpoint no longer
    depends on the artifact: in two worlds that differ only in whether the
    file exists and what loading it gives, it answers the same, with the
    same calls, none of them to the disk. *)
Theorem detect_ml_cached_ignores_disk (w1 w2 : World) (tx : TxIn) (m : Model) :
  same_but_artifact w1 w2 ->
  detect_ml w1 tx (loaded m) = detect_ml w2 tx (loaded m) /\
  existsb (fun ev => match ev with
                     | EvPathExists | EvJoblibLoad => true
                     | _ => false
                     end) (calls (detect_ml w1 tx (loaded m))) = false.
Proof.
  intros (Hclock & Hhash & Hexp).
  assert (Heq : ml_detector w1 tx (loaded m) = ml_detector w2 tx (loaded m)).
  { rewrite !ml_detector_loaded, !score_with_run.
    rewrite (parse_iso_hour_same_clock w1 w2 _ _ _ Hclock).
    unfold features, classify. by rewrite Hhash, Hexp. }
  split; [by rewrite !detect_ml_run, Heq|].
  rewrite detect_ml_run, ml_detector_loaded, score_with_run.
  pose proof (parse_iso_hour_nonempty (S:=Proc) w1 (timestamp tx) (meta tx)
                (loaded m)) as Hne.
  destruct (String.eqb (timestamp tx) "") eqn:E.
  - apply String.eqb_eq in E. rewrite E, parse_iso_hour_empty, meta_hour_run.
    destruct (PyInt.py_int _) as [hour|e]; [|reflexivity].
    by destruct (features w1 tx hour).
  - rewrite Hne by done.
    destruct (fromisoformat w1 (normalized (timestamp tx))) as [dt|].
    + by destruct (features w1 tx (dt_hour dt)).
    + destruct (PyInt.py_int _) as [hour|e]; [|reflexivity].
      by destruct (features w1 tx hour).
Qed.

Lemma detect_ml_cached_ignores_disk_witness :
  detect_ml sample_world sample_tx (loaded sample_model)
  = detect_ml stocked_world sample_tx (loaded sample_model) /\
  existsb (fun ev => match ev with
                     | EvPathExists | EvJoblibLoad => true
                     | _ => false
                     end)
    (calls (detect_ml sample_world sample_tx (loaded sample_model))) = false.
Proof.
  apply (detect_ml_cached_ignores_disk sample_world stocked_world sample_tx
           sample_model).
  repeat split; reflexivity.
Defined.

(** X13. The first request that finds the artifact loads the model and
    leaves it cached, whether the request itself then succeeds or raises:
    the state after it is the loaded one and its first two calls are the
    existence test and the load. *)
Theorem detect_ml_first_request_loads (w : World) (tx : TxIn) (p : Proc)
    (m : Model) :
  _ml_model p = None -> path_exists w = true -> joblib_load w = Ok m ->
  final (detect_ml w tx p) = loaded m /\
  firstn 2 (calls (detect_ml w tx p)) = [EvPathExists; EvJoblibLoad].
Proof.
  intros Hp Hw Hl.
  pose proof (score_with_read_only w tx m (loaded m)) as Hro.
  rewrite detect_ml_run, ml_detector_split, bind_run, load_ml_model_cases.
  rewrite Hp, Hw, Hl. unfold outcome, final, calls in *.
  by destruct (score_with w tx m (loaded m)) as [[[v|e] p1] t]; simpl in *;
    subst.
Qed.

Lemma detect_ml_first_request_loads_witness :
  final (detect_ml stocked_world (tx_meta_hour VNone) initial)
  = loaded sample_model /\
  firstn 2 (calls (detect_ml stocked_world (tx_meta_hour VNone) initial))
  = [EvPathExists; EvJoblibLoad].
Proof.
  apply (detect_ml_first_request_loads stocked_world (tx_meta_hour VNone)
           initial sample_model); reflexivity.
Defined.

(** The errors the hour extraction can raise. *)
Lemma py_int_raises (v : PyVal) (e : PyExc) :
  PyInt.py_int v = Raise e -> In e [TypeError; ValueError; OverflowError].
Proof.
  destruct v; simpl; try (intros [= <-]; tauto); try discriminate.
  - destruct (PyFloat.trunc f); [discriminate|].
    intros [= <-]. destruct (PyFloat.is_nan f); tauto.
  - destruct (PyInt.of_string s); [discriminate|]. intros [= <-]. tauto.
Qed.

Lemma hour_extraction_raises_only {S} (w : World) (ts : string)
    (meta : gmap string PyVal) (s : S) (e : PyExc) :
  outcome (_parse_iso_hour w ts meta s) = Raise e ->
  In e [TypeError; ValueError; OverflowError].
Proof.
  destruct (String.eqb ts "") eqn:E.
  - apply String.eqb_eq in E. subst. rewrite parse_iso_hour_empty, meta_hour_run.
    apply py_int_raises.
  - rewrite parse_iso_hour_nonempty by done.
    destruct (fromisoformat w (normalized ts)); [discriminate|].
    apply py_int_raises.
Qed.

(** X14. The statistical endpoint never lets a [RuntimeError] through:
    every one becomes an HTTP 503 carrying its message, be it the missing
    model or one raised while loading the artifact. Every other error of
    the detector reaches the caller unchanged; in particular, with the
    model cached, an error of the hour extraction is the endpoint's
    error. *)
Theorem detect_ml_error_mapping (w : World) (tx : TxIn) (p : Proc) :
  outcome (detect_ml w tx p) =
    match outcome (ml_detector w tx p) with
    | Ok v => Ok (to_resp v)
    | Raise e => Raise (as_http e)
    end /\
  (forall msg, outcome (detect_ml w tx p) <> Raise (RuntimeError msg)) /\
  (forall m e,
     p = loaded m ->
     outcome (_parse_iso_hour w (timestamp tx) (meta tx) p) = Raise e ->
     outcome (detect_ml w tx p) = Raise e).
Proof.
  assert (H1 : outcome (detect_ml w tx p) =
               match outcome (ml_detector w tx p) with
               | Ok v => Ok (to_resp v)
               | Raise e => Raise (as_http e)
               end).
  { rewrite detect_ml_run. unfold outcome.
    by destruct (ml_detector w tx p) as [[[v|e] p1] t]. }
  split; [exact H1|]. split.
  - intros msg. rewrite H1.
    destruct (outcome (ml_detector w tx p)) as [v|e]; [done|]. by destruct e.
  - intros m e -> He. rewrite H1, ml_detector_loaded, score_with_run.
    pose proof (hour_extraction_raises_only _ _ _ _ _ He) as Hk.
    unfold outcome in *.
    destruct (_parse_iso_hour w (timestamp tx) (meta tx) (loaded m))
      as [[[hour|e'] p1] t]; simpl in *; [done|].
    injection He as ->. simpl in Hk.
    by destruct Hk as [<-|[<-|[<-|[]]]].
Qed.

Lemma detect_ml_error_mapping_witness :
  outcome (detect_ml stocked_world (tx_meta_hour VNone) (loaded sample_model))
  = Raise TypeError.
Proof.
  apply (proj2 (proj2 (detect_ml_error_mapping stocked_world
                         (tx_meta_hour VNone) (loaded sample_model)))
           sample_model TypeError); reflexivity.
Defined.

(** X15. An artifact that exists but fails to load: the loader's error
    comes out of the detector before any feature is computed, and the
    handle stays unloaded, so the next request goes to the disk again. *)
Theorem ml_detector_load_failure (w : World) (tx : TxIn) (p : Proc)
    (e : PyExc) :
  _ml_model p = None -> path_exists w = true -> joblib_load w = Raise e ->
  ml_detector w tx p = (Raise e, p, [EvPathExists; EvJoblibLoad]) /\
  detect_ml w tx p = (Raise (as_http e), p, [EvPathExists; EvJoblibLoad]).
Proof.
  intros Hp Hw Hl.
  assert (H : ml_detector w tx p = (Raise e, p, [EvPathExists; EvJoblibLoad])).
  { rewrite ml_detector_split, bind_run, load_ml_model_cases.
    by rewrite Hp, Hw, Hl. }
  split; [exact H|]. by rewrite detect_ml_run, H.
Qed.

Lemma ml_detector_load_failure_witness :
  ml_detector broken_world sample_tx initial
    = (Raise OSError, initial, [EvPathExists; EvJoblibLoad]) /\
  detect_ml broken_world sample_tx initial
    = (Raise (as_http OSError), initial, [EvPathExists; EvJoblibLoad]).
Proof.
  apply (ml_detector_load_failure broken_world sample_tx initial OSError);
    reflexivity.
Defined.

(** X16. With the model cached and an hour that fits a float, the
    statistical endpoint answers with the classifier's verdict on the four
    features amount, hour, international flag and merchant hash reduced to
    0..999: anomaly exactly when [predict] gives -1. The classifier is
    asked twice, for the margin and then for the label, on that same
    vector, after the hash; the state is left as it was. *)
Theorem detect_ml_verdict (w : World) (tx : TxIn) (m : Model) (hour : Z) :
  outcome (_parse_iso_hour w (timestamp tx) (meta tx) (loaded m)) = Ok hour ->
  PyFloat.of_Z hour <> None ->
  exists x,
    features w tx hour = Some x /\
    length x = 4%nat /\
    0 <= Z.abs (py_hash w (merchant tx)) mod 1000 < 1000 /\
    detect_ml w tx (loaded m) =
      (Ok (to_resp (classify w m x)), loaded m,
       calls (_parse_iso_hour w (timestamp tx) (meta tx) (loaded m))
       ++ [EvHash (merchant tx); EvDecisionFunction x; EvPredict x]) /\
    (anomaly (to_resp (classify w m x)) = true <-> predict m x = -1).
Proof.
  intros Hh Hf.
  assert (Hrange : 0 <= Z.abs (py_hash w (merchant tx)) mod 1000 < 1000)
    by (apply Z.mod_pos_bound; lia).
  pose proof (of_Z_small _ Hrange) as Hhash.
  unfold features.
  destruct (PyFloat.of_Z hour) as [fhour|] eqn:E1; [|done].
  destruct (PyFloat.of_Z (Z.abs (py_hash w (merchant tx)) mod 1000))
    as [fhash|] eqn:E2; [|done].
  eexists. split; [reflexivity|]. split; [reflexivity|].
  split; [exact Hrange|]. split.
  - rewrite detect_ml_run, ml_detector_loaded, score_with_run.
    unfold outcome, calls in *.
    destruct (_parse_iso_hour w (timestamp tx) (meta tx) (loaded m))
      as [[[h|e] p1] t]; simpl in *; [|done].
    injection Hh as ->. unfold features. by rewrite E1, E2.
  - unfold classify. simpl. apply Z.eqb_eq.
Qed.

Lemma detect_ml_verdict_witness :
  exists x,
    features stocked_world sample_tx 12 = Some x /\
    length x = 4%nat /\
    0 <= Z.abs (py_hash stocked_world (merchant sample_tx)) mod 1000 < 1000 /\
    detect_ml stocked_world sample_tx (loaded sample_model) =
      (Ok (to_resp (classify stocked_world sample_model x)),
       loaded sample_model,
       calls (_parse_iso_hour stocked_world (timestamp sample_tx)
                (meta sample_tx) (loaded sample_model))
       ++ [EvHash (merchant sample_tx); EvDecisionFunction x; EvPredict x]) /\
    (anomaly (to_resp (classify stocked_world sample_model x)) = true
     <-> predict sample_model x = -1).
Proof.
  apply (detect_ml_verdict stocked_world sample_tx sample_model 12).
  - vm_compute. reflexivity.
  - vm_compute. discriminate.
Defined.

(** X17. When the hour extraction raises, the cause is the metadata: the
    [meta] dictionary has an [hour] entry that [int] rejects, the error is
    the one [int] raised, a [TypeError], [ValueError] or [OverflowError],
    and the timestamp was empty or rejected by the parser. *)
Theorem parse_iso_hour_raise_cause {S} (w : World) (ts : string)
    (meta : gmap string PyVal) (s : S) (e : PyExc) :
  outcome (_parse_iso_hour w ts meta s) = Raise e ->
  (exists v, meta !! "hour" = Some v /\ PyInt.py_int v = Raise e) /\
  In e [TypeError; ValueError; OverflowError] /\
  (ts = "" \/ fromisoformat w (normalized ts) = None).
Proof.
  intros He. split; [|split].
  - revert He. destruct (String.eqb ts "") eqn:E.
    + apply String.eqb_eq in E. subst.
      rewrite parse_iso_hour_empty, meta_hour_run.
      destruct (meta !! "hour") as [v|]; [eauto|done].
    + rewrite parse_iso_hour_nonempty by done.
      destruct (fromisoformat w (normalized ts)); [done|].
      destruct (meta !! "hour") as [v|]; [eauto|done].
  - exact (hour_extraction_raises_only _ _ _ _ _ He).
  - destruct (String.eqb ts "") eqn:E.
    + left. by apply String.eqb_eq.
    + right. rewrite parse_iso_hour_nonempty in He by done.
      by destruct (fromisoformat w (normalized ts)).
Qed.

Lemma parse_iso_hour_raise_cause_witness :
  (exists v, ({[ "hour" := VStr "noon" ]} : gmap string PyVal) !! "hour" = Some v
             /\ PyInt.py_int v = Raise ValueError) /\
  In ValueError [TypeError; ValueError; OverflowError] /\
  ("next tuesday" = "" \/
   fromisoformat sample_world (normalized "next tuesday") = None).
Proof.
  apply (parse_iso_hour_raise_cause sample_world "next tuesday"
           {[ "hour" := VStr "noon" ]} tt ValueError).
  vm_compute. reflexivity.
Defined.

(** X2. In every answer of the three endpoints the anomaly flag is set
    exactly when the list of reasons is not empty. *)
Theorem anomaly_iff_reasons :
  (forall w tx resp,
     outcome (detect_rule w tx) = Ok resp ->
     (anomaly resp = true <-> reasons resp <> [])) /\
  (forall tx g resp,
     outcome (detect_fake tx g) = Ok resp ->
     (anomaly resp = true <-> reasons resp <> [])) /\
  (forall w tx p resp,
     outcome (detect_ml w tx p) = Ok resp ->
     (anomaly resp = true <-> reasons resp <> [])).
Proof.
  split; [|split].
  - intros w tx resp. rewrite detect_rule_outcome.
    destruct (outcome (_parse_iso_hour _ _ _ _)) as [hour|e]; [|done].
    set (rs := select _ rule_reasons). intros H.
    assert (resp = to_resp (verdict_of rs)) as -> by congruence.
    clearbody rs. by destruct rs.
  - intros tx g resp. unfold detect_fake. rewrite bind_run, fake_detector_run.
    unfold outcome. simpl. intros [= <-].
    destruct (PrimFloat.ltb _ 0.05); [by simpl|].
    destruct (PrimFloat.ltb _ 0.2); by simpl.
  - intros w tx p resp. rewrite detect_ml_run, ml_detector_split, bind_run.
    rewrite load_ml_model_cases.
    assert (Hs : forall m q r,
              outcome (score_with w tx m q) = Ok r ->
              (r.1.1 = true <-> r.2 <> [])).
    { intros m q r. rewrite score_with_run. unfold outcome.
      destruct (_parse_iso_hour _ _ _ q) as [[[hour|e] p1] t]; [|done].
      destruct (features w tx hour) as [x|]; [|done]. simpl.
      intros [= <-]. unfold classify. simpl.
      by destruct (predict m x =? -1). }
    unfold outcome in *.
    destruct (_ml_model p) as [m|].
    + simpl. specialize (Hs m p).
      destruct (score_with w tx m p) as [[[v|e] p1] t]; simpl in *; [|done].
      intros [= <-]. by apply Hs.
    + destruct (path_exists w); [|done].
      destruct (joblib_load w) as [m|e]; [|done]. simpl.
      specialize (Hs m (loaded m)).
      destruct (score_with w tx m (loaded m)) as [[[v|e] p1] t]; simpl in *;
        [|done].
      intros [= <-]. by apply Hs.
Qed.

Lemma anomaly_iff_reasons_witness :
  anomaly {| anomaly := true; score := 1%float;
             reasons := firstn 6 rule_reasons |} = true
  <-> reasons {| anomaly := true; score := 1%float;
                 reasons := firstn 6 rule_reasons |} <> [].
Proof.
  apply (proj1 anomaly_iff_reasons sample_world risky_tx).
  vm_compute. reflexivity.
Defined.

(** ** More on the masker *)

Lemma take_while_app_stop {A} (p : A -> bool) (a b : list A) :
  take_while p b = [] -> take_while p (a ++ b) = take_while p a.
Proof.
  intros Hb. induction a as [|c a IH]; simpl; [exact Hb|].
  destruct (p c); [by rewrite IH|done].
Qed.

Lemma take_while_length {A} (p : A -> bool) (l : list A) :
  (length (take_while p l) <= length l)%nat.
Proof.
  induction l as [|c l IH]; simpl; [lia|]. destruct (p c); simpl; lia.
Qed.

(** The scan of a text cut where the second part does not begin with a
    digit is the scan of the two parts. *)
Lemma sub_digits8_app {A} (isd : A -> bool) (tok a b : list A) :
  digits_at isd b = [] ->
  sub_digits8 isd tok (a ++ b) = sub_digits8 isd tok a ++ sub_digits8 isd tok b.
Proof.
  intros Hb.
  induction a as [a IH] using (induction_ltof1 _ (@length A)).
  unfold ltof in IH. destruct a as [|c a]; [by rewrite sub_nil|].
  assert (Hm : match_at isd ((c :: a) ++ b) = match_at isd (c :: a)).
  { unfold match_at, digits_at. by rewrite take_while_app_stop. }
  destruct (match_at isd (c :: a)) as [n|] eqn:E.
  - simpl app in *. rewrite (sub_match _ _ _ _ _ Hm), (sub_match _ _ _ _ _ E).
    pose proof (match_at_Some _ _ _ E) as [Hn H8].
    assert (Hle : (n <= length (c :: a))%nat).
    { rewrite Hn. apply take_while_length. }
    change (c :: a ++ b) with ((c :: a) ++ b).
    rewrite drop_app_le by exact Hle.
    rewrite IH, app_assoc; [done|].
    rewrite length_drop. simpl in *. lia.
  - simpl app in *. rewrite (sub_nomatch _ _ _ _ Hm), (sub_nomatch _ _ _ _ E).
    rewrite IH; [done|]. simpl. lia.
Qed.

(** X19. Whatever the text, the masked text holds no 8 consecutive
    digits. *)
Theorem mask_personal_data_no_long_run (t : str) :
  ~ has_digit_run8 (mask_personal_data t).
Proof.
  unfold has_digit_run8, mask_personal_data.
  apply clean_no_long_run, sub_clean, MASKED_NUMBER_no_digit.
Qed.

(** X20. Masking distributes over a concatenation whose second part does
    not begin with a digit: the masked whole is the masked parts put
    together. *)
Theorem mask_personal_data_append (a b : str) :
  match b with
  | c :: _ => Unicode.is_decimal c = false
  | [] => True
  end ->
  mask_personal_data (a ++ b) = mask_personal_data a ++ mask_personal_data b.
Proof.
  intros Hb. unfold mask_personal_data. apply sub_digits8_app.
  unfold digits_at. destruct b as [|c b]; simpl; [done|]. by rewrite Hb.
Qed.

Lemma mask_personal_data_append_witness :
  mask_personal_data (chars "acct 1234567890" ++ chars ", card 44445555")
  = mask_personal_data (chars "acct 1234567890")
    ++ mask_personal_data (chars ", card 44445555").
Proof.
  apply (mask_personal_data_append (chars "acct 1234567890")
           (chars ", card 44445555")).
  vm_compute. reflexivity.
Defined.

(** A cut inside a run of digits does not commute with masking, whatever
    the script of the digits. *)
Example mask_cut_inside_run :
  mask_personal_data (chars "1234" ++ chars "5678") = MASKED_NUMBER /\
  mask_personal_data (chars "1234") ++ mask_personal_data (chars "5678")
  = chars "12345678" /\
  mask_personal_data (chars "1234567" ++ [0xff18%N]) = MASKED_NUMBER /\
  mask_personal_data (chars "1234567") ++ mask_personal_data [0xff18%N]
  = chars "1234567" ++ [0xff18%N].
Proof. repeat split; vm_compute; reflexivity. Qed.

(** ** Text helpers *)

Lemma str_eqb_eq (a b : str) : str_eqb a b = true <-> a = b.
Proof.
  revert b. induction a as [|c a IH]; intros [|d b]; simpl; try done.
  rewrite andb_true_iff, N.eqb_eq, IH. split.
  - by intros [-> ->].
  - by intros [= -> ->].
Qed.

Lemma str_eqb_refl (a : str) : str_eqb a a = true.
Proof. by apply str_eqb_eq. Qed.

Lemma str_eqb_neq (a b : str) : str_eqb a b = false <-> a <> b.
Proof.
  rewrite <- str_eqb_eq. destruct (str_eqb a b); split; congruence.
Qed.

Lemma str_in_spec (x : str) (l : list str) : str_in x l = true -> In x l.
Proof.
  unfold str_in. intros (y & Hy & E)%existsb_exists.
  apply str_eqb_eq in E. by subst.
Qed.

Lemma lstrip_ws_idemp (l : str) : lstrip_ws (lstrip_ws l) = lstrip_ws l.
Proof.
  induction l as [|c l IH]; simpl; [done|].
  destruct (py_isspace c) eqn:E; [exact IH|]. simpl. by rewrite E.
Qed.

Lemma lstrip_ws_head (l : str) :
  match lstrip_ws l with
  | c :: _ => py_isspace c = false
  | [] => True
  end.
Proof.
  induction l as [|c l IH]; simpl; [done|].
  destruct (py_isspace c) eqn:E; [exact IH|exact E].
Qed.

Lemma lstrip_ws_fixed (l : str) :
  match l with
  | c :: _ => py_isspace c = false
  | [] => True
  end ->
  lstrip_ws l = l.
Proof. destruct l as [|c l]; simpl; [done|]. by intros ->. Qed.

Lemma lstrip_ws_suffix (l : str) : exists pre, l = pre ++ lstrip_ws l.
Proof.
  induction l as [|c l [pre IH]]; simpl; [by exists []|].
  destruct (py_isspace c); [|by exists []].
  exists (c :: pre). simpl. by rewrite <- IH.
Qed.

(** Stripping from the right keeps a first character that is no blank. *)
Lemma rstrip_keeps_head (l : str) :
  match l with
  | c :: _ => py_isspace c = false
  | [] => True
  end ->
  match rev (lstrip_ws (rev l)) with
  | c :: _ => py_isspace c = false
  | [] => True
  end.
Proof.
  destruct l as [|c l]; [done|]. intros Hc.
  destruct (lstrip_ws_suffix (rev (c :: l))) as [pre Hpre].
  assert (Hl : c :: l = rev (lstrip_ws (rev (c :: l))) ++ rev pre).
  { rewrite <- rev_app_distr, <- Hpre. by rewrite rev_involutive. }
  destruct (rev (lstrip_ws (rev (c :: l)))) as [|d k] eqn:E; [done|].
  simpl in Hl. by injection Hl as <- _.
Qed.

(** [strip] of a stripped text changes nothing. *)
Lemma str_strip_idemp (s : str) : str_strip (str_strip s) = str_strip s.
Proof.
  unfold str_strip.
  set (l := lstrip_ws s).
  set (k := rev (lstrip_ws (rev l))).
  assert (Hk : lstrip_ws k = k).
  { apply lstrip_ws_fixed. apply rstrip_keeps_head. apply lstrip_ws_head. }
  rewrite Hk. unfold k. by rewrite rev_involutive, lstrip_ws_idemp.
Qed.

(** A stripped text neither begins nor ends with a blank. *)
Lemma str_strip_ends (s : str) :
  match str_strip s with
  | c :: _ => py_isspace c = false
  | [] => True
  end /\
  match rev (str_strip s) with
  | c :: _ => py_isspace c = false
  | [] => True
  end.
Proof.
  unfold str_strip. split.
  - apply rstrip_keeps_head, lstrip_ws_head.
  - rewrite rev_involutive. apply lstrip_ws_head.
Qed.

(** A text is empty once stripped exactly when all its characters are
    blanks. *)
Lemma lstrip_ws_blank (l : str) :
  lstrip_ws l = [] <-> forallb py_isspace l = true.
Proof.
  induction l as [|c l IH]; simpl; [done|].
  destruct (py_isspace c); [exact IH|done].
Qed.

Lemma str_strip_blank (s : str) :
  str_strip s = [] <-> forallb py_isspace s = true.
Proof.
  unfold str_strip. split.
  - intros H. apply lstrip_ws_blank.
    apply (f_equal (@rev N)) in H. rewrite rev_involutive in H. simpl in H.
    apply lstrip_ws_blank in H.
    destruct (lstrip_ws s) as [|c l] eqn:E; [done|]. exfalso.
    pose proof (lstrip_ws_head s) as Hc. rewrite E in Hc.
    rewrite forallb_forall in H. specialize (H c).
    rewrite H in Hc; [done|]. apply in_rev. rewrite rev_involutive. by left.
  - intros H. apply lstrip_ws_blank in H. by rewrite H.
Qed.

(** ** Keyword filter *)

Lemma str_prefix_append (a b : str) : str_prefix a (a ++ b) = true.
Proof. induction a as [|c a IH]; simpl; [done|]. by rewrite N.eqb_refl. Qed.

Lemma str_contains_prefix (needle hay : str) :
  str_prefix needle hay = true -> str_contains needle hay = true.
Proof. intros H. destruct hay; simpl in *; by rewrite H. Qed.

Lemma str_contains_append_l (needle pre hay : str) :
  str_contains needle hay = true ->
  str_contains needle (pre ++ hay) = true.
Proof.
  intros H. induction pre as [|c pre IH]; simpl; [exact H|].
  rewrite IH. apply orb_true_r.
Qed.

Lemma str_prefix_spec (needle hay : str) :
  str_prefix needle hay = true <-> exists post, hay = needle ++ post.
Proof.
  revert hay. induction needle as [|c needle IH]; intros hay; simpl.
  - split; [by exists hay|done].
  - destruct hay as [|d hay].
    + split; [done|]. by intros [post [=]].
    + rewrite andb_true_iff, N.eqb_eq, IH. split.
      * intros [-> [post ->]]. by exists post.
      * intros [post [= -> ->]]. eauto.
Qed.

(** [needle in hay] holds exactly when [needle] occurs in [hay]. *)
Lemma str_contains_spec (needle hay : str) :
  str_contains needle hay = true <->
  exists pre post, hay = pre ++ needle ++ post.
Proof.
  induction hay as [|d hay IH].
  - simpl. rewrite orb_false_r, str_prefix_spec. split.
    + intros [post H]. by exists [], post.
    + intros (pre & post & H). symmetry in H.
      apply app_eq_nil in H as [-> H]. eauto.
  - simpl. rewrite orb_true_iff, str_prefix_spec, IH. split.
    + intros [[post H]|(pre & post & ->)].
      * by exists [], post.
      * by exists (d :: pre), post.
    + intros (pre & post & H). destruct pre as [|x pre].
      * left. by exists post.
      * right. injection H as -> ->. eauto.
Qed.

Lemma ascii_only_app (a b : str) :
  ascii_only (a ++ b) = ascii_only a ++ ascii_only b.
Proof. apply List.filter_app. Qed.

Lemma ascii_only_id (s : str) : is_ascii s -> ascii_only s = s.
Proof.
  induction 1 as [|c s Hc _ IH]; [done|].
  unfold ascii_only in *. simpl.
  apply N.ltb_lt in Hc. by rewrite Hc, IH.
Qed.

Lemma ascii_only_length (s : str) : (length (ascii_only s) <= length s)%nat.
Proof.
  induction s as [|c s IH]; simpl; [done|].
  destruct (c <? 128)%N; simpl; lia.
Qed.

(** Lower case gives at most one ASCII character for each character. *)
Lemma to_lower_full_ascii (c : N) :
  (length (ascii_only (Unicode.to_lower_full c)) <= 1)%nat.
Proof.
  unfold Unicode.to_lower_full, Unicode.mapped.
  destruct (List.find _ Unicode.Lowercase_Special) as [e|] eqn:E.
  - apply find_some in E as [Hin _]. revert e Hin. apply List.Forall_forall.
    vm_compute. repeat constructor.
  - destruct (List.find _ Unicode.Lowercase_Mapping) as [[[[f l] st] im]|].
    + apply (ascii_only_length [_]).
    + apply (ascii_only_length [_]).
Qed.

Lemma lower_char_ascii (before : str) (c : N) (after : str) :
  (length (ascii_only (lower_char before c after)) <= 1)%nat.
Proof.
  unfold lower_char. destruct (c =? 0x3a3)%N.
  - apply (ascii_only_length [_]).
  - apply to_lower_full_ascii.
Qed.

Lemma lower_from_ascii (before s : str) :
  (length (ascii_only (lower_from before s)) <= length s)%nat.
Proof.
  revert before. induction s as [|c s IH]; intros before; simpl; [done|].
  rewrite ascii_only_app, length_app.
  pose proof (lower_char_ascii before c s). specialize (IH (c :: before)). lia.
Qed.

(** What comes before a part of a text is lowered on its own account. *)
Lemma lower_from_app (before pre rest : str) :
  exists low,
    lower_from before (pre ++ rest) = low ++ lower_from (rev pre ++ before) rest.
Proof.
  revert before. induction pre as [|c pre IH]; intros before; simpl.
  - by exists [].
  - destruct (IH (c :: before)) as [low ->].
    exists (lower_char before c (pre ++ rest) ++ low).
    by rewrite <- !app_assoc.
Qed.

(** A part without capital sigma is lowered character by character,
    whatever surrounds it. *)
Lemma lower_from_no_sigma (before word post : str) :
  Forall (fun c => c <> 0x3a3%N) word ->
  lower_from before (word ++ post)
  = flat_map Unicode.to_lower_full word ++ lower_from (rev word ++ before) post.
Proof.
  intros H. revert before. induction H as [|c word Hc _ IH]; intros before;
    simpl; [done|].
  unfold lower_char at 1. apply N.eqb_neq in Hc. rewrite Hc.
  by rewrite IH, <- !app_assoc.
Qed.

(** A text whose lower case is ASCII holds no capital sigma. *)
Lemma lower_ascii_no_sigma (before s : str) :
  is_ascii (lower_from before s) -> Forall (fun c => c <> 0x3a3%N) s.
Proof.
  revert before. induction s as [|c s IH]; intros before; simpl; [done|].
  intros [Hc Hs]%Forall_app. constructor; [|by apply (IH (c :: before))].
  intros ->. unfold lower_char in Hc. simpl in Hc.
  apply Forall_inv in Hc. by destruct (final_sigma before s).
Qed.

Lemma FINANCE_KEYWORDS_ascii :
  Forall (fun kw => is_ascii kw /\ (3 <= length kw)%nat) Chat.FINANCE_KEYWORDS.
Proof.
  apply List.Forall_forall. intros kw Hin.
  assert (H : forallb (fun kw => forallb (fun c => (c <? 128)%N) kw
                                 && (3 <=? length kw)%nat)
                Chat.FINANCE_KEYWORDS = true) by (vm_compute; reflexivity).
  rewrite forallb_forall in H. apply H in Hin.
  apply andb_true_iff in Hin as [Ha Hl]. split.
  - apply List.Forall_forall. intros c Hc. rewrite forallb_forall in Ha.
    by apply N.ltb_lt, Ha.
  - by apply Nat.leb_le.
Qed.

(** X28. The keyword filter matches substrings, in any letter case: a
    text that holds, anywhere, inside a longer word or not, characters
    whose lower case is a keyword, looks like finance; a text of fewer
    than three characters never does. *)
Theorem looks_finance_substring :
  (forall pre word post,
     In (str_lower word) Chat.FINANCE_KEYWORDS ->
     Chat.looks_finance_by_keywords (pre ++ word ++ post) = true) /\
  (forall text,
     (length text < 3)%nat ->
     Chat.looks_finance_by_keywords text = false).
Proof.
  split.
  - intros pre word post Hin. unfold Chat.looks_finance_by_keywords.
    apply existsb_exists. exists (str_lower word). split; [exact Hin|].
    pose proof FINANCE_KEYWORDS_ascii as Hk.
    rewrite List.Forall_forall in Hk. destruct (Hk _ Hin) as [Ha _].
    pose proof (lower_ascii_no_sigma [] word Ha) as Hs.
    apply str_contains_spec. unfold str_lower.
    destruct (lower_from_app [] pre (word ++ post)) as [low ->].
    rewrite (lower_from_no_sigma _ _ _ Hs).
    exists low, (lower_from (rev word ++ rev pre ++ []) post).
    f_equal. f_equal.
    pose proof (lower_from_no_sigma [] word [] Hs) as Hw.
    rewrite !app_nil_r in Hw. by rewrite Hw.
  - intros text Hlen. unfold Chat.looks_finance_by_keywords.
    apply not_true_is_false. intros (kw & Hin & Hc)%existsb_exists.
    pose proof FINANCE_KEYWORDS_ascii as Hk.
    rewrite List.Forall_forall in Hk. destruct (Hk _ Hin) as [Ha Hl].
    apply str_contains_spec in Hc as (pre & post & Hc).
    pose proof (lower_from_ascii [] text) as Hn.
    unfold str_lower in Hc. rewrite Hc in Hn.
    rewrite !ascii_only_app, !length_app, (ascii_only_id kw Ha) in Hn. lia.
Qed.

Lemma looks_finance_substring_witness :
  Chat.looks_finance_by_keywords
    (chars "my " ++ (chars "BRO" ++ [0x212a%N] ++ chars "ER") ++ chars "s") = true.
Proof.
  apply (proj1 looks_finance_substring (chars "my ")
           (chars "BRO" ++ [0x212a%N] ++ chars "ER") (chars "s")).
  vm_compute. tauto.
Defined.

(** * Properties of the chat application *)

#[local] Arguments Chat.classify_prompt : simpl never.
#[local] Arguments Chat.full_prompt : simpl never.
#[local] Arguments Chat.generation_prompt : simpl never.
#[local] Arguments Chat.call_generate : simpl never.
#[local] Arguments Chat.text_or_str : simpl never.
#[local] Arguments Chat.get_genai_client : simpl never.
#[local] Arguments Chat.classify_with_gemini : simpl never.
#[local] Arguments Chat.looks_finance_by_keywords : simpl never.
#[local] Arguments Chat.get_user_finance_context : simpl never.
#[local] Arguments Chat.record_sent : simpl never.
#[local] Arguments Chat.with_client : simpl never.
#[local] Arguments str_strip : simpl never.
#[local] Arguments str_upper : simpl never.
#[local] Arguments first_word : simpl never.
#[local] Arguments mask_personal_data : simpl never.
#[local] Arguments String.eqb : simpl never.
#[local] Arguments str_eqb : simpl never.
#[local] Arguments str_in : simpl never.
#[local] Arguments chars : simpl never.

Lemma get_genai_client_cases (g : Chat.Gemini) (p : Chat.ChatProc) :
  Chat.get_genai_client g p =
  match Chat._client p with
  | Some c => (Ok (Some c), p, [])
  | None =>
      match Chat.usable_key g with
      | None => (Ok None, p, [])
      | Some key =>
          match Chat.new_client g key with
          | Ok c => (Ok (Some c), Chat.with_client c p, [])
          | Raise e => (Raise e, p, [])
          end
      end
  end.
Proof.
  unfold Chat.get_genai_client, Chat.usable_key, Chat.with_client, bind, gets,
    ret, modify, lift_res. simpl.
  destruct (Chat._client p) as [c|]; [reflexivity|].
  destruct (Chat._GEMINI_KEY g) as [key|]; [|reflexivity].
  destruct (String.eqb key ""); [reflexivity|]. simpl.
  by destruct (Chat.new_client g key).
Qed.

Lemma call_generate_run (g : Chat.Gemini) (c : Chat.Client) (contents : str)
    (p : Chat.ChatProc) :
  Chat.call_generate g c contents p =
  (Chat.generate_content g c Chat.GEMINI_MODEL contents,
   Chat.record_sent contents p, []).
Proof. reflexivity. Qed.

Lemma text_or_str_run (resp : Chat.GenResponse) (p : Chat.ChatProc) :
  Chat.text_or_str resp p = (Chat.answer_text resp, p, []).
Proof.
  unfold Chat.text_or_str, Chat.answer_text, bind, lift_res, ret.
  destruct (Chat.resp_text resp) as [[t|]|e]; simpl; try reflexivity.
  by destruct (str_eqb t []).
Qed.

(** What the classification does once it holds a client. *)
Lemma classify_with_client (g : Chat.Gemini) (text : str)
    (p : Chat.ChatProc) (c : Chat.Client) (p1 : Chat.ChatProc) :
  Chat.get_genai_client g p = (Ok (Some c), p1, []) ->
  Chat.classify_with_gemini g text p =
  (Ok (Chat.classified g c text),
   Chat.record_sent (Chat.classify_prompt text) p1, []).
Proof.
  intros Hc. unfold Chat.classify_with_gemini, Chat.classified.
  rewrite bind_run, Hc. unfold outcome, final, calls. simpl.
  unfold try_except, bind. rewrite call_generate_run.
  destruct (Chat.generate_content g c _ _) as [resp|e]; simpl; [|reflexivity].
  rewrite text_or_str_run.
  destruct (Chat.answer_text resp) as [content|e]; simpl; [|reflexivity].
  unfold lift_opt.
  destruct (first_word (str_strip content)) as [word|]; simpl; [|reflexivity].
  by destruct (str_in (str_upper word) [Chat.FINANCE; Chat.NON_FINANCE]).
Qed.

Lemma classified_two_words (g : Chat.Gemini) (c : Chat.Client) (text : str) :
  Chat.classified g c text = Chat.FINANCE \/
  Chat.classified g c text = Chat.NON_FINANCE.
Proof.
  unfold Chat.classified.
  destruct (Chat.generate_content g c _ _) as [resp|e]; [|by right].
  destruct (Chat.answer_text resp) as [content|e]; [|by right].
  destruct (first_word (str_strip content)) as [word|]; [|by right].
  destruct (str_in (str_upper word) [Chat.FINANCE; Chat.NON_FINANCE]) eqn:E;
    [|by right].
  apply str_in_spec in E. destruct E as [<-|[<-|[]]]; auto.
Qed.

Lemma get_genai_client_calls (g : Chat.Gemini) (p : Chat.ChatProc) :
  calls (Chat.get_genai_client g p) = [].
Proof.
  rewrite get_genai_client_cases.
  destruct (Chat._client p); [done|].
  destruct (Chat.usable_key g) as [key|]; [|done].
  by destruct (Chat.new_client g key).
Qed.

Lemma classify_run (g : Chat.Gemini) (text : str) (p : Chat.ChatProc) :
  Chat.classify_with_gemini g text p =
  match Chat.get_genai_client g p with
  | (Ok (Some c), p1, _) =>
      (Ok (Chat.classified g c text),
       Chat.record_sent (Chat.classify_prompt text) p1, [])
  | (Ok None, p1, _) => (Ok Chat.NON_FINANCE, p1, [])
  | (Raise e, p1, _) => (Raise e, p1, [])
  end.
Proof.
  pose proof (get_genai_client_calls g p) as Ht.
  destruct (Chat.get_genai_client g p) as [[[[c|]|e] p1] t] eqn:E;
    unfold calls in Ht; simpl in Ht; subst t.
  - by apply classify_with_client.
  - unfold Chat.classify_with_gemini. by rewrite bind_run, E.
  - unfold Chat.classify_with_gemini. by rewrite bind_run, E.
Qed.

Lemma get_genai_client_step (g : Chat.Gemini) (p : Chat.ChatProc) :
  Chat.get_genai_client g p =
  ((Chat.client_step g p).1, (Chat.client_step g p).2, []).
Proof.
  rewrite get_genai_client_cases. unfold Chat.client_step.
  destruct (Chat._client p); [done|].
  destruct (Chat.usable_key g) as [key|]; [|done].
  by destruct (Chat.new_client g key).
Qed.

Lemma answer_phase_run (g : Chat.Gemini) (user_id : string) (msg : str)
    (p : Chat.ChatProc) :
  (client <- Chat.get_genai_client g ;;
   match client with
   | None => raise Chat.http_503
   | Some client =>
       reply_text <- try_except
                       (response <- Chat.call_generate g client
                                      (Chat.generation_prompt g user_id msg) ;;
                        Chat.text_or_str response)
                       (fun _ => raise Chat.http_502) ;;
       ret {| Chat.reply := str_strip reply_text;
              Chat.intent := "FINANCE_QUERY";
              Chat.topic := Chat.FINANCE; Chat.usedUserData := true |}
   end) p
  = ((Chat.answer_phase g user_id msg p).1,
     (Chat.answer_phase g user_id msg p).2, []).
Proof.
  rewrite bind_run, get_genai_client_step. unfold Chat.answer_phase.
  destruct (Chat.client_step g p) as [[[c|]|e] p1]; simpl; try reflexivity.
  unfold outcome, final, calls, Chat.generated.
  rewrite bind_run. unfold try_except. rewrite bind_run, call_generate_run.
  destruct (Chat.generate_content g c _ _) as [resp|e]; simpl; [|reflexivity].
  rewrite text_or_str_run. unfold outcome, final, calls. simpl.
  by destruct (Chat.answer_text resp).
Qed.

(** The endpoint follows the case tree. *)
Lemma chat_endpoint_run (g : Chat.Gemini) (req : Chat.ChatRequest)
    (p : Chat.ChatProc) :
  Chat.chat_endpoint g req p =
  ((Chat.chat_outcome g req p).1, (Chat.chat_outcome g req p).2, []).
Proof.
  unfold Chat.chat_endpoint, Chat.chat_outcome.
  destruct (String.eqb (Chat.userId req) ""
            || str_eqb (str_strip (Chat.message req)) []); [reflexivity|].
  match goal with
  | |- context [bind (Chat.get_genai_client g) ?k] =>
      set (ans := bind (Chat.get_genai_client g) k)
  end.
  assert (Hans : forall q,
            ans q = ((Chat.answer_phase g (Chat.userId req)
                        (str_strip (Chat.message req)) q).1,
                     (Chat.answer_phase g (Chat.userId req)
                        (str_strip (Chat.message req)) q).2, []))
    by (intros q; apply answer_phase_run).
  clearbody ans. rewrite bind_run.
  destruct (Chat.looks_finance_by_keywords (str_strip (Chat.message req))).
  - unfold ret at 1. cbv beta iota. rewrite str_eqb_refl. cbv beta iota.
    unfold negb. rewrite Hans. reflexivity.
  - rewrite classify_run, get_genai_client_step.
    destruct (Chat.client_step g p) as [[[c|]|e] p1]; simpl;
      try reflexivity.
    destruct (str_eqb (Chat.classified g c _) Chat.FINANCE); simpl;
      [|reflexivity].
      rewrite Hans. reflexivity.
Qed.

Lemma classified_refused (g : Chat.Gemini) (c : Chat.Client) (text : str) :
  str_eqb (Chat.classified g c text) Chat.FINANCE = false ->
  Chat.classified g c text = Chat.NON_FINANCE.
Proof.
  intros H. destruct (classified_two_words g c text) as [E|E]; [|exact E].
  rewrite E, str_eqb_refl in H. discriminate.
Qed.

(** X21. A request with an empty user id, or whose message is empty or
    made of blanks only (any white space of Unicode), is refused with
    HTTP 400 before anything else happens: no client is created and
    nothing is sent to the service. *)
Theorem chat_rejects_blank (g : Chat.Gemini) (req : Chat.ChatRequest)
    (p : Chat.ChatProc) :
  Chat.userId req = "" \/ forallb py_isspace (Chat.message req) = true ->
  Chat.chat_endpoint g req p = (Raise Chat.http_400, p, []).
Proof.
  intros H. rewrite chat_endpoint_run. unfold Chat.chat_outcome.
  replace (String.eqb (Chat.userId req) ""
           || str_eqb (str_strip (Chat.message req)) []) with true;
    [reflexivity|].
  symmetry. apply orb_true_iff.
  rewrite String.eqb_eq, str_eqb_eq, str_strip_blank. exact H.
Qed.

Lemma chat_rejects_blank_witness :
  Chat.chat_endpoint (Chat.echo_service (Some "k") Chat.FINANCE)
    {| Chat.userId := "u1"; Chat.message := [0xa0; 0x20; 0x3000; 0x85]%N;
       Chat.locale := None |}
    Chat.fresh
  = (Raise Chat.http_400, Chat.fresh, []).
Proof.
  apply (chat_rejects_blank (Chat.echo_service (Some "k") Chat.FINANCE)
           {| Chat.userId := "u1"; Chat.message := [0xa0; 0x20; 0x3000; 0x85]%N;
              Chat.locale := None |} Chat.fresh).
  right. vm_compute. reflexivity.
Defined.

(** X22. An answer of the chat endpoint has one of two shapes: the fixed
    refusal, with intent [OUT_OF_DOMAIN], topic [NON_FINANCE] and no user
    data used; or a finance answer, with intent [FINANCE_QUERY], topic
    [FINANCE] and user data used, whose reply has no blank at either
    end. *)
Theorem chat_response_shape (g : Chat.Gemini) (req : Chat.ChatRequest)
    (p : Chat.ChatProc) (r : Chat.ChatResponse) :
  outcome (Chat.chat_endpoint g req p) = Ok r ->
  r = Chat.refusal Chat.NON_FINANCE \/
  (Chat.intent r = "FINANCE_QUERY" /\ Chat.topic r = Chat.FINANCE /\
   Chat.usedUserData r = true /\ str_strip (Chat.reply r) = Chat.reply r).
Proof.
  rewrite chat_endpoint_run. unfold outcome. simpl.
  assert (Hans : forall q,
            (Chat.answer_phase g (Chat.userId req)
               (str_strip (Chat.message req)) q).1 = Ok r ->
            Chat.intent r = "FINANCE_QUERY" /\ Chat.topic r = Chat.FINANCE /\
            Chat.usedUserData r = true /\
            str_strip (Chat.reply r) = Chat.reply r).
  { intros q. unfold Chat.answer_phase.
    destruct (Chat.client_step g q) as [[[c|]|e] q1]; simpl; try done.
    unfold Chat.generated.
    destruct (Chat.generate_content g c _ _) as [resp|e]; [|done].
    destruct (Chat.answer_text resp) as [t|e]; [|done].
    intros [= <-]. simpl. repeat split. apply str_strip_idemp. }
  unfold Chat.chat_outcome.
  destruct (String.eqb (Chat.userId req) ""
            || str_eqb (str_strip (Chat.message req)) []); [done|].
  destruct (Chat.looks_finance_by_keywords _); [intros H; right; eauto|].
  destruct (Chat.client_step g p) as [[[c|]|e] p1]; simpl; try done.
  - destruct (str_eqb (Chat.classified g c _) Chat.FINANCE) eqn:E.
    + intros H. right. eauto.
    + intros [= <-]. left. by rewrite (classified_refused _ _ _ E).
  - intros [= <-]. by left.
Qed.

Lemma chat_response_shape_witness :
  Chat.refusal Chat.NON_FINANCE = Chat.refusal Chat.NON_FINANCE \/
  (Chat.intent (Chat.refusal Chat.NON_FINANCE) = "FINANCE_QUERY" /\
   Chat.topic (Chat.refusal Chat.NON_FINANCE) = Chat.FINANCE /\
   Chat.usedUserData (Chat.refusal Chat.NON_FINANCE) = true /\
   str_strip (Chat.reply (Chat.refusal Chat.NON_FINANCE))
   = Chat.reply (Chat.refusal Chat.NON_FINANCE)).
Proof.
  apply (chat_response_shape (Chat.echo_service (Some "k") (chars " nope "))
           {| Chat.userId := "u1"; Chat.message := chars "weather today";
              Chat.locale := None |} Chat.fresh).
  vm_compute. reflexivity.
Defined.

Lemma client_step_raise (g : Chat.Gemini) (p p1 : Chat.ChatProc) (e : PyExc) :
  Chat.client_step g p = (Raise e, p1) ->
  Chat._client p = None /\
  exists key, Chat.usable_key g = Some key /\ Chat.new_client g key = Raise e.
Proof.
  unfold Chat.client_step. destruct (Chat._client p); [done|].
  destruct (Chat.usable_key g) as [key|]; [|done].
  destruct (Chat.new_client g key) as [c|e'] eqn:E; [done|].
  intros [= <- <-]. eauto.
Qed.

Lemma client_step_sent (g : Chat.Gemini) (p : Chat.ChatProc) :
  Chat.sent (Chat.client_step g p).2 = Chat.sent p.
Proof.
  unfold Chat.client_step. destruct (Chat._client p); [done|].
  destruct (Chat.usable_key g) as [key|]; [|done].
  by destruct (Chat.new_client g key).
Qed.

(** Once a client was created in this call, the next step finds it. *)
Lemma client_step_again (g : Chat.Gemini) (p p1 : Chat.ChatProc)
    (c : Chat.Client) (contents : str) :
  Chat.client_step g p = (Ok (Some c), p1) ->
  Chat.client_step g (Chat.record_sent contents p1)
  = (Ok (Some c), Chat.record_sent contents p1).
Proof.
  unfold Chat.client_step. destruct (Chat._client p) as [c0|] eqn:E.
  - intros [= <- <-]. simpl. by rewrite E.
  - destruct (Chat.usable_key g) as [key|]; [|done].
    destruct (Chat.new_client g key); [|done]. by intros [= <- <-].
Qed.

(** X23. The chat endpoint raises nothing but its three HTTP errors, 400,
    503 and 502, whatever the service returns or raises; the one exception
    is an error of the client constructor, which is neither caught nor
    translated. *)
Theorem chat_errors (g : Chat.Gemini) (req : Chat.ChatRequest)
    (p : Chat.ChatProc) (e : PyExc) :
  outcome (Chat.chat_endpoint g req p) = Raise e ->
  In e [Chat.http_400; Chat.http_503; Chat.http_502] \/
  (Chat._client p = None /\
   exists key, Chat.usable_key g = Some key /\ Chat.new_client g key = Raise e).
Proof.
  rewrite chat_endpoint_run. unfold outcome. simpl.
  assert (Hans : forall q,
            (Chat.answer_phase g (Chat.userId req)
               (str_strip (Chat.message req)) q).1 = Raise e ->
            In e [Chat.http_400; Chat.http_503; Chat.http_502] \/
            (Chat._client q = None /\
             exists key, Chat.usable_key g = Some key /\
                         Chat.new_client g key = Raise e)).
  { intros q. unfold Chat.answer_phase.
    destruct (Chat.client_step g q) as [[[c|]|e'] q1] eqn:E; simpl.
    - unfold Chat.generated.
      destruct (Chat.generate_content g c _ _) as [resp|e'].
      + destruct (Chat.answer_text resp); [done|]. intros [= <-]. left.
        simpl. tauto.
      + intros [= <-]. left. simpl. tauto.
    - intros [= <-]. left. simpl. tauto.
    - intros [= <-]. right. by apply (client_step_raise g q q1). }
  unfold Chat.chat_outcome.
  destruct (String.eqb (Chat.userId req) ""
            || str_eqb (str_strip (Chat.message req)) []).
  { intros [= <-]. left. simpl. tauto. }
  destruct (Chat.looks_finance_by_keywords _); [apply Hans|].
  destruct (Chat.client_step g p) as [[[c|]|e'] p1] eqn:E; simpl; try done.
  - destruct (str_eqb (Chat.classified g c _) Chat.FINANCE); [|done].
    unfold Chat.answer_phase. rewrite (client_step_again g p p1 c _ E). simpl.
    unfold Chat.generated.
    destruct (Chat.generate_content g c _ _) as [resp|e'].
    + destruct (Chat.answer_text resp); [done|]. intros [= <-]. left.
      simpl. tauto.
    + intros [= <-]. left. simpl. tauto.
  - intros [= <-]. right. by apply (client_step_raise g p p1).
Qed.

Lemma chat_errors_witness :
  In Chat.http_503 [Chat.http_400; Chat.http_503; Chat.http_502] \/
  (Chat._client Chat.fresh = None /\
   exists key,
     Chat.usable_key (Chat.echo_service None Chat.FINANCE) = Some key /\
     Chat.new_client (Chat.echo_service None Chat.FINANCE) key
     = Raise Chat.http_503).
Proof.
  apply (chat_errors (Chat.echo_service None Chat.FINANCE)
           {| Chat.userId := "u1"; Chat.message := chars "my loan";
              Chat.locale := None |} Chat.fresh).
  vm_compute. reflexivity.
Defined.

(** X24. What one call sends to the service, in order: for a message with
    a finance keyword nothing or the generation request alone; otherwise
    nothing, the classification request alone, or the classification
    request followed by the generation request. The classification request
    carries the stripped message as typed; the generation request carries
    it masked. Every request names the same model. *)
Theorem chat_requests (g : Chat.Gemini) (req : Chat.ChatRequest)
    (p : Chat.ChatProc) :
  let msg := str_strip (Chat.message req) in
  let cls := (Chat.GEMINI_MODEL, Chat.classify_prompt msg) in
  let gen := (Chat.GEMINI_MODEL,
              Chat.full_prompt
                (Chat.json_dumps g (Chat.get_user_finance_context (Chat.userId req)))
                (mask_personal_data msg)) in
  exists l,
    Chat.sent (final (Chat.chat_endpoint g req p)) = Chat.sent p ++ l /\
    if Chat.looks_finance_by_keywords msg
    then In l [[]; [gen]]
    else In l [[]; [cls]; [cls; gen]].
Proof.
  intros msg cls gen. rewrite chat_endpoint_run. unfold final. simpl.
  assert (Hans : forall q,
            Chat.sent (Chat.answer_phase g (Chat.userId req) msg q).2
            = Chat.sent q \/
            Chat.sent (Chat.answer_phase g (Chat.userId req) msg q).2
            = Chat.sent q ++ [gen]).
  { intros q. unfold Chat.answer_phase.
    pose proof (client_step_sent g q) as Hs.
    destruct (Chat.client_step g q) as [[[c|]|e] q1]; simpl in *.
    - right. unfold Chat.record_sent. simpl. by rewrite Hs.
    - by left.
    - by left. }
  unfold Chat.chat_outcome. fold msg.
  destruct (String.eqb (Chat.userId req) "" || str_eqb msg []).
  { exists []. rewrite app_nil_r. split; [done|].
    destruct (Chat.looks_finance_by_keywords msg); simpl; auto. }
  destruct (Chat.looks_finance_by_keywords msg).
  { destruct (Hans p) as [H|H]; rewrite H.
    - exists []. rewrite app_nil_r. split; [done|simpl; auto].
    - exists [gen]. split; [done|simpl; auto]. }
  pose proof (client_step_sent g p) as Hs.
  destruct (Chat.client_step g p) as [[[c|]|e] p1]; simpl in *.
  - destruct (str_eqb (Chat.classified g c msg) Chat.FINANCE).
    + destruct (Hans (Chat.record_sent (Chat.classify_prompt msg) p1))
        as [H|H]; rewrite H; unfold Chat.record_sent; simpl; rewrite Hs.
      * exists [cls]. split; [done|simpl; auto].
      * exists [cls; gen]. split; [by rewrite <- app_assoc|simpl; auto].
    + simpl. unfold Chat.record_sent. simpl. rewrite Hs.
      exists [cls]. split; [done|simpl; auto].
  - exists []. rewrite app_nil_r, Hs. split; [done|simpl; auto].
  - exists []. rewrite app_nil_r, Hs. split; [done|simpl; auto].
Qed.

(** X25. Without a usable API key (none, or the empty string) and no
    client cached, the endpoint never creates a client and never sends
    anything: a message with a finance keyword gets HTTP 503, any other
    message that is not blank gets the refusal. *)
Theorem chat_without_key (g : Chat.Gemini) (req : Chat.ChatRequest)
    (p : Chat.ChatProc) :
  Chat._client p = None ->
  Chat._GEMINI_KEY g = None \/ Chat._GEMINI_KEY g = Some "" ->
  Chat.userId req <> "" -> forallb py_isspace (Chat.message req) = false ->
  Chat.chat_endpoint g req p =
  (if Chat.looks_finance_by_keywords (str_strip (Chat.message req))
   then Raise Chat.http_503
   else Ok (Chat.refusal Chat.NON_FINANCE),
   p, []).
Proof.
  intros Hc Hk Hu Hm. rewrite chat_endpoint_run.
  assert (Hstep : Chat.client_step g p = (Ok None, p)).
  { unfold Chat.client_step, Chat.usable_key. rewrite Hc.
    by destruct Hk as [-> | ->]. }
  unfold Chat.chat_outcome, Chat.answer_phase. rewrite Hstep.
  apply String.eqb_neq in Hu. rewrite Hu.
  assert (Hs : str_eqb (str_strip (Chat.message req)) [] = false).
  { apply str_eqb_neq. rewrite str_strip_blank. by rewrite Hm. }
  rewrite Hs. simpl.
  by destruct (Chat.looks_finance_by_keywords _).
Qed.

Lemma chat_without_key_witness :
  Chat.chat_endpoint (Chat.echo_service (Some "") Chat.FINANCE)
    {| Chat.userId := "u1";
       Chat.message := chars "BRO" ++ [0x212a%N] ++ chars "ER fees";
       Chat.locale := None |}
    Chat.fresh
  = (if Chat.looks_finance_by_keywords
          (str_strip (chars "BRO" ++ [0x212a%N] ++ chars "ER fees"))
     then Raise Chat.http_503
     else Ok (Chat.refusal Chat.NON_FINANCE),
     Chat.fresh, []).
Proof.
  apply (chat_without_key (Chat.echo_service (Some "") Chat.FINANCE)
           {| Chat.userId := "u1";
              Chat.message := chars "BRO" ++ [0x212a%N] ++ chars "ER fees";
              Chat.locale := None |} Chat.fresh).
  - reflexivity.
  - right. reflexivity.
  - discriminate.
  - vm_compute. reflexivity.
Defined.

(** X26. The client is created lazily and at most once: a cached client is
    returned as it is, whatever the key now says; without a usable key an
    uncached call returns [None] and caches nothing; a client that is
    returned is the one left in the cache; and the call itself sends
    nothing. *)
Theorem get_genai_client_cache (g : Chat.Gemini) (p : Chat.ChatProc) :
  (forall c, Chat._client p = Some c ->
             Chat.get_genai_client g p = (Ok (Some c), p, [])) /\
  (Chat._client p = None -> Chat.usable_key g = None ->
   Chat.get_genai_client g p = (Ok None, p, [])) /\
  (forall c, outcome (Chat.get_genai_client g p) = Ok (Some c) ->
             Chat._client (final (Chat.get_genai_client g p)) = Some c) /\
  Chat.sent (final (Chat.get_genai_client g p)) = Chat.sent p.
Proof.
  rewrite get_genai_client_cases. repeat split.
  - by intros c ->.
  - by intros -> ->.
  - intros c. unfold outcome, final.
    destruct (Chat._client p) as [c0|] eqn:E; simpl; [congruence|].
    destruct (Chat.usable_key g) as [key|]; [|done].
    destruct (Chat.new_client g key); simpl; [congruence|done].
  - unfold final. destruct (Chat._client p); [done|].
    destruct (Chat.usable_key g) as [key|]; [|done].
    by destruct (Chat.new_client g key).
Qed.

Lemma get_genai_client_cache_witness :
  Chat.get_genai_client (Chat.echo_service None (chars "x"))
    {| Chat._client := Some {| Chat.api_key := "k" |}; Chat.sent := [] |}
  = (Ok (Some {| Chat.api_key := "k" |}),
     {| Chat._client := Some {| Chat.api_key := "k" |}; Chat.sent := [] |}, []).
Proof.
  apply (proj1 (get_genai_client_cache (Chat.echo_service None (chars "x"))
                  {| Chat._client := Some {| Chat.api_key := "k" |};
                     Chat.sent := [] |})).
  reflexivity.
Defined.

(** X27. Whatever the service returns or raises, the classification
    answers with one of the two words [FINANCE] and [NON_FINANCE]; it
    answers [FINANCE] only after it has sent its request; without a client
    it answers [NON_FINANCE] and sends nothing. It raises only if the
    client constructor does. *)
Theorem classify_with_gemini_total (g : Chat.Gemini) (text : str)
    (p : Chat.ChatProc) :
  match outcome (Chat.classify_with_gemini g text p) with
  | Ok tok =>
      (tok = Chat.FINANCE \/ tok = Chat.NON_FINANCE) /\
      (tok = Chat.FINANCE ->
       Chat.sent (final (Chat.classify_with_gemini g text p))
       = Chat.sent p ++ [(Chat.GEMINI_MODEL, Chat.classify_prompt text)])
  | Raise e =>
      Chat._client p = None /\
      exists key, Chat.usable_key g = Some key /\
                  Chat.new_client g key = Raise e
  end.
Proof.
  rewrite classify_run, get_genai_client_step.
  pose proof (client_step_sent g p) as Hs.
  destruct (Chat.client_step g p) as [[[c|]|e] p1] eqn:E; simpl in *.
  - split; [apply classified_two_words|].
    intros _. unfold Chat.record_sent. simpl. by rewrite Hs.
  - split; [by right|done].
  - by apply (client_step_raise g p p1).
Qed.

(** * Properties of the advice server *)

#[local] Arguments Advice.full_prompt : simpl never.

Lemma generate_finance_advice_run (sv : Advice.Service) (body : Advice.TextPrompt)
    (sent : list str) :
  let user_prompt := str_strip (Advice.prompt body) in
  Advice.generate_finance_advice sv body sent =
  if str_eqb user_prompt [] then (Ok (Advice.failure Advice.NO_QUESTION), sent, [])
  else
    match Advice.json_dumps sv (VDict (default [] (Advice.context body))) with
    | Raise _ => (Ok (Advice.failure Advice.TROUBLE), sent, [])
    | Ok context_json =>
        let contents := Advice.full_prompt context_json user_prompt in
        (match Advice.generate_content sv contents with
         | Ok r =>
             match Advice.text r with
             | Ok (Some t) =>
                 if str_eqb t [] then Ok (Advice.failure Advice.NO_ANSWER)
                 else Ok {| Advice.success := true; Advice.response := t;
                            Advice.error := None |}
             | Ok None => Ok (Advice.failure Advice.NO_ANSWER)
             | Raise _ => Ok (Advice.failure Advice.TROUBLE)
             end
         | Raise _ => Ok (Advice.failure Advice.TROUBLE)
         end, sent ++ [contents], [])
    end.
Proof.
  intros user_prompt. unfold Advice.generate_finance_advice. fold user_prompt.
  unfold try_except. destruct (str_eqb user_prompt []); [reflexivity|].
  unfold bind, lift_res, Advice.call_generate, modify, ret. simpl.
  destruct (Advice.json_dumps sv _) as [cj|e]; simpl; [|reflexivity].
  destruct (Advice.generate_content sv _) as [r|e]; simpl; [|reflexivity].
  destruct (Advice.text r) as [[t|]|e]; simpl; try reflexivity.
  by destruct (str_eqb t []).
Qed.

(** X29. The advice endpoint never raises and makes no other outside
    call than to the model: whatever the serializer and the model return
    or raise, it answers. In a successful answer the response is the
    model's text, not empty, and there is no error; in a failed answer the
    response is empty and the error is one of the three fixed messages. *)
Theorem generate_finance_advice_answers (sv : Advice.Service)
    (body : Advice.TextPrompt) (sent : list str) :
  exists r,
    outcome (Advice.generate_finance_advice sv body sent) = Ok r /\
    calls (Advice.generate_finance_advice sv body sent) = [] /\
    if Advice.success r
    then Advice.response r <> [] /\ Advice.error r = None /\
         exists g,
           Advice.generate_content sv
             (List.last (final (Advice.generate_finance_advice sv body sent)) [])
           = Ok g /\
           Advice.text g = Ok (Some (Advice.response r))
    else Advice.response r = [] /\
         exists msg,
           Advice.error r = Some msg /\
           In msg [Advice.NO_QUESTION; Advice.NO_ANSWER; Advice.TROUBLE].
Proof.
  rewrite generate_finance_advice_run. unfold outcome, calls, final. simpl.
  assert (Hfail : forall msg,
            In msg [Advice.NO_QUESTION; Advice.NO_ANSWER; Advice.TROUBLE] ->
            Advice.response (Advice.failure msg) = [] /\
            exists m, Advice.error (Advice.failure msg) = Some m /\
                      In m [Advice.NO_QUESTION; Advice.NO_ANSWER; Advice.TROUBLE])
    by (intros msg Hin; split; [reflexivity|by exists msg]).
  destruct (str_eqb (str_strip (Advice.prompt body)) []).
  { eexists. split; [reflexivity|]. split; [reflexivity|].
    apply Hfail. simpl. auto. }
  destruct (Advice.json_dumps sv _) as [cj|e]; simpl.
  2: { eexists. split; [reflexivity|]. split; [reflexivity|].
       apply Hfail. simpl. auto. }
  rewrite last_last.
  destruct (Advice.generate_content sv _) as [g|e] eqn:Eg; simpl.
  2: { eexists. split; [reflexivity|]. split; [reflexivity|].
       apply Hfail. simpl. auto. }
  destruct (Advice.text g) as [[t|]|e] eqn:Et; simpl.
  - destruct (str_eqb t []) eqn:E.
    + eexists. split; [reflexivity|]. split; [reflexivity|].
      apply Hfail. simpl. auto.
    + eexists. split; [reflexivity|]. split; [reflexivity|]. simpl.
      apply str_eqb_neq in E. eauto.
  - eexists. split; [reflexivity|]. split; [reflexivity|].
    apply Hfail. simpl. auto.
  - eexists. split; [reflexivity|]. split; [reflexivity|].
    apply Hfail. simpl. auto.
Qed.

(** X30. A prompt that is empty or made of blanks only (any white space
    of Unicode) is answered at once, with the request for a question:
    neither the serializer nor the model is called. For any other prompt
    the model is called at most once, with a prompt that holds the
    stripped question. *)
Theorem generate_finance_advice_blank (sv : Advice.Service)
    (body : Advice.TextPrompt) (sent : list str) :
  (forallb py_isspace (Advice.prompt body) = true ->
   Advice.generate_finance_advice sv body sent
   = (Ok (Advice.failure Advice.NO_QUESTION), sent, [])) /\
  (forallb py_isspace (Advice.prompt body) = false ->
   final (Advice.generate_finance_advice sv body sent) = sent \/
   exists context_json,
     Advice.json_dumps sv (VDict (default [] (Advice.context body)))
       = Ok context_json /\
     final (Advice.generate_finance_advice sv body sent)
     = sent ++ [Advice.full_prompt context_json
                  (str_strip (Advice.prompt body))]).
Proof.
  rewrite generate_finance_advice_run. simpl. split.
  - intros H. apply str_strip_blank in H. rewrite H. reflexivity.
  - intros H.
    assert (Hne : str_eqb (str_strip (Advice.prompt body)) [] = false).
    { apply str_eqb_neq. rewrite str_strip_blank. by rewrite H. }
    rewrite Hne. unfold final.
    destruct (Advice.json_dumps sv _) as [cj|e]; simpl; [|by left].
    right. eauto.
Qed.

Lemma generate_finance_advice_blank_witness :
  Advice.generate_finance_advice (Advice.constant_model (Some (chars "ok")))
    {| Advice.prompt := [0x20; 0xa0; 0x2003]%N; Advice.context := None |} []
  = (Ok (Advice.failure Advice.NO_QUESTION), [], []).
Proof.
  apply (proj1 (generate_finance_advice_blank
                  (Advice.constant_model (Some (chars "ok")))
                  {| Advice.prompt := [0x20; 0xa0; 0x2003]%N;
                     Advice.context := None |} [])).
  vm_compute. reflexivity.
Defined.
